(** * Healthcare fraud detection: feature extraction, scoring and explanation

    A shallow embedding of the scoring pipeline of the repository
    ([backend/app/ml/feature_extraction.py], [backend/app/ml/fraud_model.py],
    [backend/app/core/fraud_explainer_service.py],
    [backend/app/db/memgraph_db.py]) together with the properties the
    specification states about it.

    Conventions of the embedding:
    - a Python float is a rational number, or one of the three special
      values NaN, +inf, -inf ([fval]); rounding is not modelled;
    - a pandas table is the list of its rows, in table order; a feature
      frame handled by the model is the list of its named columns;
    - functions of numpy, pandas and networkx whose value no property
      depends on ([np.log1p], [Series.std], betweenness and clustering)
      are fields of a record [Lib] passed to the extractor. *)

From Stdlib Require Import List String Ascii Bool Arith ZArith QArith Qabs Lia Lqa.
From Stdlib Require Import Sorted Permutation.
Import ListNotations.
Open Scope string_scope.
Open Scope list_scope.
Open Scope Q_scope.

(* ================================================================== *)
(** ** Floats *)

Inductive fval : Type :=
| Fin (q : Q)
| NaN
| PosInf
| NegInf.

Definition is_finite (v : fval) : bool :=
  match v with Fin _ => true | _ => false end.

(** [pd.isna] on a numeric cell. *)
Definition isna (v : fval) : bool :=
  match v with NaN => true | _ => false end.

(** [a >= b] on floats: every comparison with NaN is false. *)
Definition f_geb (a b : fval) : bool :=
  match a, b with
  | NaN, _ | _, NaN => false
  | PosInf, _ => true
  | _, NegInf => true
  | NegInf, _ => false
  | _, PosInf => false
  | Fin x, Fin y => Qle_bool y x
  end.

Definition f_leb (a b : fval) : bool := f_geb b a.

(** [a > b] on floats. *)
Definition f_gtb (a b : fval) : bool :=
  match a, b with
  | NaN, _ | _, NaN => false
  | _, PosInf => false
  | NegInf, _ => false
  | PosInf, _ => true
  | _, NegInf => true
  | Fin x, Fin y => negb (Qle_bool x y)
  end.

Definition f_abs (a : fval) : fval :=
  match a with
  | Fin x => Fin (Qabs x)
  | NaN => NaN
  | PosInf | NegInf => PosInf
  end.

(** Truth of the same comparisons, as propositions. *)
Definition f_ge (a b : fval) : Prop := f_geb a b = true.
Definition f_le (a b : fval) : Prop := f_leb a b = true.
Definition f_gt (a b : fval) : Prop := f_gtb a b = true.

(** Membership of a string in a list ([x in xs], [Series.isin]). *)
Definition mem (x : string) (xs : list string) : bool :=
  existsb (String.eqb x) xs.

(* ================================================================== *)
(** ** Risk classifier  ([FraudRiskAssessor.assess_claims], the
       [if prob >= 0.8 ... else] cascade) *)

Inductive RiskLevel : Type := CRITICAL | HIGH | MEDIUM | LOW | MINIMAL.

Definition risk_level (prob : Q) : RiskLevel :=
  if Qle_bool (8 # 10) prob then CRITICAL
  else if Qle_bool (6 # 10) prob then HIGH
  else if Qle_bool (4 # 10) prob then MEDIUM
  else if Qle_bool (2 # 10) prob then LOW
  else MINIMAL.

(** Rank of a level in the order MINIMAL < LOW < MEDIUM < HIGH < CRITICAL. *)
Definition severity (l : RiskLevel) : nat :=
  match l with
  | MINIMAL => 0 | LOW => 1 | MEDIUM => 2 | HIGH => 3 | CRITICAL => 4
  end%nat.

(** [float(max(prob, 1 - prob))] *)
Definition confidence_of (prob : Q) : Q :=
  if Qle_bool (1 - prob) prob then prob else 1 - prob.

(* ================================================================== *)
(** ** Small library: Python containers *)

Inductive exn : Type := IndexError | KeyError.

Inductive result (A : Type) : Type :=
| Ok (a : A)
| Raise (e : exn).
Arguments Ok {A} a.
Arguments Raise {A} e.

(** A [dict] with string keys, as the list of its assignments in program
    order: a later assignment to a key overrides an earlier one. *)
Definition dict (V : Type) : Type := list (string * V).

Fixpoint dict_get {V : Type} (d : dict V) (k : string) : option V :=
  match d with
  | [] => None
  | (k', v) :: rest =>
      match dict_get rest k with
      | Some w => Some w
      | None => if String.eqb k' k then Some v else None
      end
  end.

(** [d.get(k, default)] *)
Definition dict_get_or {V : Type} (d : dict V) (k : string) (default : V) : V :=
  match dict_get d k with Some v => v | None => default end.

(** [Series.unique()]: the distinct values, in order of first appearance. *)
Fixpoint unique_from (seen : list string) (xs : list string) : list string :=
  match xs with
  | [] => []
  | x :: rest =>
      if mem x seen then unique_from seen rest
      else x :: unique_from (x :: seen) rest
  end.

Definition unique (xs : list string) : list string := unique_from [] xs.

(** [sorted(xs)] on strings (code-point order), by insertion. *)
Fixpoint insert_sorted (x : string) (xs : list string) : list string :=
  match xs with
  | [] => [x]
  | y :: rest => if String.leb x y then x :: y :: rest
                 else y :: insert_sorted x rest
  end.

Definition sorted (xs : list string) : list string :=
  fold_right insert_sorted [] xs.

Definition of_Z (z : Z) : fval := Fin (inject_Z z).
Definition of_nat (n : nat) : fval := Fin (inject_Z (Z.of_nat n)).
Definition of_bool (b : bool) : fval := if b then Fin 1 else Fin 0.

(** A row of a frame: the cells with their column names, in column order. *)
Definition row : Type := list (string * fval).

(** [name in series.index] followed by [series[name]]. *)
Fixpoint row_get (r : row) (name : string) : option fval :=
  match r with
  | [] => None
  | (n, v) :: rest => if String.eqb n name then Some v else row_get rest name
  end.

(** [pd.concat([a, b], axis=1)] on two frames with the same number of rows
    and a fresh positional index. *)
Fixpoint hconcat (a b : list row) : list row :=
  match a, b with
  | x :: a', y :: b' => (x ++ y) :: hconcat a' b'
  | _, _ => []
  end.

(* ================================================================== *)
(** ** Explanation engine  ([FraudExplainerTemplate]) *)

Inductive RedFlagSeverity : Type :=
| SevCRITICAL | SevHIGH | SevMEDIUM | SevLOW.

Record Template : Type := {
  threshold : Q;
  description : string;
  severity_of : RedFlagSeverity;
  category : string
}.

Definition FEATURE_DESCRIPTIONS : dict string :=
  [ ("claim_amount", "Claim amount");
    ("claim_to_typical_cost_ratio", "Claim amount vs typical cost");
    ("avg_claim_amount", "Average claim amount for this provider");
    ("provider_fraud_rate", "Provider's historical fraud rate");
    ("provider_claims_per_day", "Provider's daily claim volume");
    ("provider_weekend_claim_percentage", "Provider's weekend claim rate");
    ("provider_denial_rate", "Provider's claim denial rate");
    ("provider_pagerank", "Provider network influence score");
    ("provider_referral_reciprocity", "Provider circular referral indicator");
    ("patient_claim_frequency", "Patient's claim submission frequency");
    ("patient_num_providers", "Number of providers patient has visited");
    ("patient_geographic_spread", "Geographic spread of patient's providers");
    ("patient_avg_claim_amount", "Patient's average claim amount");
    ("patient_provider_shopping", "Provider shopping behavior indicator");
    ("shared_address_score", "Suspicious address sharing score");
    ("fraud_ring_membership", "Fraud network membership indicator");
    ("community_fraud_rate", "Fraud rate in provider's network");
    ("days_since_policy_start", "Days since policy activation");
    ("claim_submission_hour", "Time of day claim was submitted");
    ("betweenness_centrality", "Network centrality score");
    ("clustering_coefficient", "Network clustering indicator") ].

Definition EXPLANATION_TEMPLATES : dict Template :=
  [ ("claim_to_typical_cost_ratio",
     {| threshold := 2; severity_of := SevHIGH; category := "Amount Anomaly";
        description := "Claim amount is {value:.1f}x higher than typical for this procedure" |});
    ("provider_fraud_rate",
     {| threshold := 15 # 100; severity_of := SevCRITICAL; category := "Provider Pattern";
        description := "Provider has a {percent:.1f}% historical fraud rate" |});
    ("provider_weekend_claim_percentage",
     {| threshold := 30 # 100; severity_of := SevMEDIUM; category := "Provider Pattern";
        description := "{percent:.1f}% of provider's claims are submitted on weekends" |});
    ("patient_provider_shopping",
     {| threshold := 3; severity_of := SevHIGH; category := "Patient Behavior";
        description := "Patient visited {value:.0f} different providers in short period" |});
    ("provider_claims_per_day",
     {| threshold := 20; severity_of := SevMEDIUM; category := "Provider Pattern";
        description := "Provider submits {value:.0f} claims per day (unusually high volume)" |});
    ("shared_address_score",
     {| threshold := 5 # 10; severity_of := SevHIGH; category := "Relationship Pattern";
        description := "Suspicious address sharing detected between entities" |});
    ("fraud_ring_membership",
     {| threshold := 5 # 10; severity_of := SevCRITICAL; category := "Relationship Pattern";
        description := "Provider is part of a suspected fraud network" |});
    ("provider_referral_reciprocity",
     {| threshold := 6 # 10; severity_of := SevHIGH; category := "Relationship Pattern";
        description := "Circular referral pattern detected (referral kickback indicator)" |});
    ("days_since_policy_start",
     {| threshold := - (30); severity_of := SevMEDIUM; category := "Timing Issue";
        description := "Claim filed only {value:.0f} days after policy activation" |});
    ("patient_claim_frequency",
     {| threshold := 10; severity_of := SevMEDIUM; category := "Patient Behavior";
        description := "Patient has submitted {value:.0f} claims in past 30 days" |}) ].

Record RiskFactor : Type := { factor : string; value : fval }.

(** A red flag.  The message is kept as the template text with the value
    that [str.format] renders into it; the data point as its label with
    the value printed after it. *)
Record RedFlag : Type := {
  rf_id : nat;
  rf_category : string;
  rf_severity : RedFlagSeverity;
  rf_description : string;
  rf_value : fval;
  rf_data_label : string
}.

(** The test of [_generate_red_flags]:
    [(threshold >= 0 and factor_value >= threshold) or
     (threshold < 0 and factor_value <= abs(threshold))] *)
Definition should_flag (threshold : Q) (factor_value : fval) : bool :=
  (Qle_bool 0 threshold && f_geb factor_value (Fin threshold))
  || (negb (Qle_bool 0 threshold) && f_leb factor_value (Fin (Qabs threshold))).

(** One iteration of the loop of [_generate_red_flags], for the factor
    numbered [i]. *)
Definition red_flag_of (i : nat) (f : RiskFactor) : list RedFlag :=
  let factor_name := factor f in
  let factor_value := value f in
  let label := dict_get_or FEATURE_DESCRIPTIONS factor_name factor_name in
  match dict_get EXPLANATION_TEMPLATES factor_name with
  | Some template =>
      if should_flag (threshold template) factor_value then
        [ {| rf_id := i;
             rf_category := category template;
             rf_severity := severity_of template;
             rf_description := description template;
             rf_value := factor_value;
             rf_data_label := label |} ]
      else []
  | None =>
      if f_gtb (f_abs factor_value) (Fin 1) then
        [ {| rf_id := i;
             rf_category := "Data Anomaly";
             rf_severity := SevLOW;
             rf_description := ("Unusual " ++ label ++ " detected")%string;
             rf_value := factor_value;
             rf_data_label := label |} ]
      else []
  end.

Fixpoint red_flags_from (i : nat) (risk_factors : list RiskFactor) : list RedFlag :=
  match risk_factors with
  | [] => []
  | f :: rest => red_flag_of i f ++ red_flags_from (S i) rest
  end.

(** [for i, factor in enumerate(risk_factors, 1)] *)
Definition _generate_red_flags (risk_factors : list RiskFactor) : list RedFlag :=
  red_flags_from 1 risk_factors.

(** [_generate_recommendation] depends on the risk level only. *)
Definition _generate_recommendation (l : RiskLevel) : string :=
  match l with
  | CRITICAL => "IMMEDIATE ACTION REQUIRED: Escalate to fraud investigation team. Do not process payment until thorough investigation is complete. Consider referring to law enforcement if fraud is confirmed."
  | HIGH => "Hold payment and initiate detailed review. Request additional documentation from provider and patient. Conduct interview with provider if needed. Approve only after verification."
  | MEDIUM => "Flag for manual review before processing. Request supporting documentation. Compare with similar claims from this provider. Approve with enhanced monitoring."
  | LOW => "Process with standard review procedures. Add to provider monitoring queue for pattern analysis. No immediate action required."
  | MINIMAL => "Approve for standard processing. No additional review required."
  end.

(* ================================================================== *)
(** ** Model artifact and scoring engine  ([FraudDetectionModel]) *)

(** A feature frame: its number of rows and its named columns, in column
    order.  Every column holds [df_len] cells. *)
Record DataFrame : Type := {
  df_len : nat;
  df_cols : list (string * list fval)
}.

Definition columns (X : DataFrame) : list string := map fst (df_cols X).

(** [X.iloc[i]]: row [i] as a series indexed by the column names. *)
Definition iloc (X : DataFrame) (i : nat) : row :=
  map (fun c => (fst c, nth i (snd c) NaN)) (df_cols X).

(** [X[col]]: every column carrying that label. *)
Definition getitem (X : DataFrame) (col : string) : list (string * list fval) :=
  filter (fun c => String.eqb (fst c) col) (df_cols X).

(** [X[col] = 0] for a label that is not yet a column. *)
Definition add_zero_column (X : DataFrame) (col : string) : DataFrame :=
  {| df_len := df_len X;
     df_cols := df_cols X ++ [(col, repeat (Fin 0) (df_len X))] |}.

(** The loop [for col in self.feature_names: if col not in
    X_aligned.columns: X_aligned[col] = 0]. *)
Definition add_missing (feature_names : list string) (X : DataFrame) : DataFrame :=
  fold_left
    (fun X_aligned col =>
       if mem col (columns X_aligned) then X_aligned
       else add_zero_column X_aligned col)
    feature_names X.

(** [X[names]]: for each requested label, in order, the columns that
    carry it. *)
Definition select (X : DataFrame) (names : list string) : DataFrame :=
  {| df_len := df_len X;
     df_cols := flat_map (getitem X) names |}.

Definition _align_features (feature_names : list string) (X : DataFrame) : DataFrame :=
  let X_aligned := add_missing feature_names X in
  select X_aligned feature_names.

(** The loaded artifact.  The fitted scaler followed by the classifier is
    one function of the aligned frame. *)
Record FraudDetectionModel : Type := {
  feature_names : list string;
  classifier_predict : DataFrame -> list bool;
  classifier_predict_proba : DataFrame -> list Q;
  feature_importances_ : list Q
}.

Definition predict (m : FraudDetectionModel) (X : DataFrame) : list bool :=
  classifier_predict m (_align_features (feature_names m) X).

Definition predict_proba (m : FraudDetectionModel) (X : DataFrame) : list Q :=
  classifier_predict_proba m (_align_features (feature_names m) X).

(** [sort_values('importance', ascending=False)]; features of equal
    importance are kept in schema order. *)
Fixpoint insert_desc (x : string * Q) (l : list (string * Q)) : list (string * Q) :=
  match l with
  | [] => [x]
  | y :: rest => if Qle_bool (snd y) (snd x) then x :: y :: rest
                 else y :: insert_desc x rest
  end.

Definition get_feature_importance (m : FraudDetectionModel) : list (string * Q) :=
  fold_right insert_desc [] (combine (feature_names m) (feature_importances_ m)).

(** [a] is ranked before [b]. *)
Definition more_important (a b : string * Q) : Prop := snd b <= snd a.

(* ================================================================== *)
(** ** Risk assessment  ([FraudRiskAssessor.assess_claims]) *)

Record Assessment : Type := {
  a_claim_id : string;
  is_fraud_predicted : bool;
  fraud_probability : Q;
  a_risk_level : RiskLevel;
  risk_factors : list RiskFactor;
  confidence : Q
}.

(** The inner loop [for feature in top_features[:5]] for one claim. *)
Definition collect_risk_factors (top_features : list string) (claim_features : row)
  : list RiskFactor :=
  flat_map
    (fun feature =>
       match row_get claim_features feature with
       | Some v =>
           if f_gtb (f_abs v) (Fin (1 # 10))
           then [ {| factor := feature; value := v |} ]
           else []
       | None => []
       end)
    (firstn 5 top_features).

(** The loop over [enumerate(zip(claim_ids, predictions, probabilities))],
    from position [i] on. *)
Fixpoint assess_from (top_features : list string) (X : DataFrame) (i : nat)
    (claim_ids : list string) (predictions : list bool) (probabilities : list Q)
  : list Assessment :=
  match claim_ids, predictions, probabilities with
  | claim_id :: cs, pred :: ps, prob :: qs =>
      let claim_features := iloc X i in
      let factors := collect_risk_factors top_features claim_features in
      {| a_claim_id := claim_id;
         is_fraud_predicted := pred;
         fraud_probability := prob;
         a_risk_level := risk_level prob;
         risk_factors := firstn 3 factors;
         confidence := confidence_of prob |}
      :: assess_from top_features X (S i) cs ps qs
  | _, _, _ => []
  end.

Definition assess_claims (m : FraudDetectionModel) (X : DataFrame)
    (claim_ids : list string) : list Assessment :=
  let predictions := predict m X in
  let probabilities := predict_proba m X in
  let feature_importance := get_feature_importance m in
  let top_features := map fst (firstn 10 feature_importance) in
  assess_from top_features X 0 claim_ids predictions probabilities.

(* ================================================================== *)
(** ** Entity store  ([CSVDataLoader]) *)

(** A parsed date: the day as a proleptic Gregorian ordinal
    ([date.toordinal()]), the month of the year, and the second of the
    day. *)
Record Timestamp : Type := {
  t_day : Z;
  t_month : Z;
  t_sec : Z
}.

Definition total_seconds (t : Timestamp) : Z := t_day t * 86400 + t_sec t.

(** [.dt.dayofweek], Monday = 0. *)
Definition dayofweek (t : Timestamp) : Z := (t_day t + 6) mod 7.

(** [.dt.hour] *)
Definition hour (t : Timestamp) : Z := t_sec t / 3600.

(** [(a - b).days] *)
Definition days_between (a b : Timestamp) : Z :=
  (total_seconds a - total_seconds b) / 86400.

Definition ts_earlier (a b : Timestamp) : Timestamp :=
  if (total_seconds a <=? total_seconds b)%Z then a else b.

Definition ts_later (a b : Timestamp) : Timestamp :=
  if (total_seconds a <=? total_seconds b)%Z then b else a.

(** [Series.min()] and [Series.max()] of dates; [None] is NaT. *)
Definition ts_min (l : list Timestamp) : option Timestamp :=
  match l with
  | [] => None
  | t :: rest => Some (fold_left ts_earlier rest t)
  end.

Definition ts_max (l : list Timestamp) : option Timestamp :=
  match l with
  | [] => None
  | t :: rest => Some (fold_left ts_later rest t)
  end.

(** A row of [patients.csv]; [date_of_birth] is [None] when the text does
    not parse as a date. *)
Record Patient : Type := {
  patient_id : string;
  date_of_birth : option Timestamp;
  gender : string
}.

(** A row of [providers.csv]; [specialty] is [None] for an empty cell. *)
Record Provider : Type := {
  provider_id : string;
  specialty : option string
}.

(** A row of [claims.csv].  The last five fields belong to columns that a
    file may lack ([claim_columns] below); [admission_type] is [None] and
    [length_of_stay] is NaN for an empty cell. *)
Record Claim : Type := {
  claim_id : string;
  c_patient_id : string;
  c_provider_id : string;
  claim_amount : Q;
  service_date : Timestamp;
  claim_type : string;
  claim_status : string;
  is_fraudulent : bool;
  admission_type : option string;
  length_of_stay : fval
}.

(** Which of the optional columns [claims_df] has. *)
Record ClaimColumns : Type := {
  col_claim_type : bool;
  col_claim_status : bool;
  col_is_fraudulent : bool;
  col_admission_type : bool;
  col_length_of_stay : bool
}.

(* ================================================================== *)
(** ** Relationship graph  ([networkx.Graph] as [_build_graph] uses it) *)

(** The node attributes set by [add_node] (node -> [node_type], a later
    call overriding an earlier one) and the edges added by [add_edge].
    The nodes are the attributed nodes and the endpoints of the edges:
    [add_edge] creates the endpoints it does not find. *)
Record Graph : Type := {
  g_attrs : dict string;
  g_edges : list (string * string)
}.

Definition empty_graph : Graph := {| g_attrs := []; g_edges := [] |}.

Definition add_node (g : Graph) (n node_type : string) : Graph :=
  {| g_attrs := g_attrs g ++ [(n, node_type)]; g_edges := g_edges g |}.

Definition add_edge (g : Graph) (u v : string) : Graph :=
  {| g_attrs := g_attrs g; g_edges := g_edges g ++ [(u, v)] |}.

Definition joins (u v : string) (e : string * string) : bool :=
  (String.eqb u (fst e) && String.eqb v (snd e))
  || (String.eqb u (snd e) && String.eqb v (fst e)).

(** [g.has_edge(u, v)] *)
Definition has_edge (g : Graph) (u v : string) : bool :=
  existsb (joins u v) (g_edges g).

(** [g.nodes()] *)
Definition nodes (g : Graph) : list string :=
  unique (map fst (g_attrs g) ++ flat_map (fun e => [fst e; snd e]) (g_edges g)).

(** [n in g] *)
Definition has_node (g : Graph) (n : string) : bool := mem n (nodes g).

(** [g.nodes[n].get('node_type', 'unknown')] *)
Definition node_type (g : Graph) (n : string) : string :=
  dict_get_or (g_attrs g) n "unknown".

(** [g.neighbors(u)] *)
Definition neighbors (g : Graph) (u : string) : list string :=
  filter (has_edge g u) (nodes g).

(** [g.degree(u)]: a self-loop counts twice. *)
Definition degree (g : Graph) (u : string) : nat :=
  (List.length (neighbors g u) + (if has_edge g u u then 1 else 0))%nat.

(** [len(set(g.neighbors(a)) & set(g.neighbors(b)))] *)
Definition shared_neighbors (g : Graph) (a b : string) : nat :=
  List.length (filter (fun n => mem n (neighbors g b)) (neighbors g a)).

(** Is there a walk of exactly [k] edges from [a] to [b]? *)
Fixpoint walk_in (g : Graph) (k : nat) (a b : string) : bool :=
  match k with
  | O => String.eqb a b
  | S k' => existsb (fun c => walk_in g k' c b) (neighbors g a)
  end.

(** The least [k] in [from, from + fuel) with a walk of [k] edges. *)
Fixpoint least_walk (g : Graph) (a b : string) (fuel from : nat) : option nat :=
  match fuel with
  | O => None
  | S fuel' => if walk_in g from a b then Some from
               else least_walk g a b fuel' (S from)
  end.

(** [nx.shortest_path_length(g, a, b)] for two nodes of [g]: the number of
    edges of a shortest path, [None] for [NetworkXNoPath].  A shortest
    path repeats no node, so it has fewer edges than [g] has nodes. *)
Definition nx_shortest_path_length (g : Graph) (a b : string) : option nat :=
  least_walk g a b (List.length (nodes g)) 0.

(** The body of the distance loop of [_extract_graph_features] for one
    claim. *)
Definition graph_distance (g : Graph) (patient_id provider_id : string) : Z :=
  if has_node g patient_id && has_node g provider_id then
    if has_edge g patient_id provider_id then 1%Z
    else match nx_shortest_path_length g patient_id provider_id with
         | Some distance => Z.of_nat distance
         | None => 999%Z
         end
  else 999%Z.

(** [CSVDataLoader._build_graph] *)
Definition _build_graph (patients : list Patient) (providers : list Provider)
    (claims : list Claim) : Graph :=
  let g1 := fold_left (fun g p => add_node g (patient_id p) "patient")
                      patients empty_graph in
  let g2 := fold_left (fun g p => add_node g (provider_id p) "provider")
                      providers g1 in
  fold_left (fun g c => add_edge g (c_patient_id c) (c_provider_id c)) claims g2.

(** What [FraudFeatureExtractor.__init__] copies from the loader. *)
Record FraudFeatureExtractor : Type := {
  patients_df : list Patient;
  providers_df : list Provider;
  claims_df : list Claim;
  claim_columns : ClaimColumns;
  graph : Graph
}.

(** [FraudFeatureExtractor(CSVDataLoader())] after [load_data]. *)
Definition load_data (patients : list Patient) (providers : list Provider)
    (claims : list Claim) (cols : ClaimColumns) : FraudFeatureExtractor :=
  {| patients_df := patients;
     providers_df := providers;
     claims_df := claims;
     claim_columns := cols;
     graph := _build_graph patients providers claims |}.

(** The environment of the extractor: the clock and the numeric and graph
    routines taken from numpy, pandas and networkx. *)
Class Lib : Type := {
  datetime_now : Timestamp;
  np_log1p : Q -> fval;
  series_std : list Q -> fval;
  nx_betweenness_centrality : Graph -> dict Q;
  nx_clustering : Graph -> dict Q
}.

(* ================================================================== *)
(** ** Feature extraction engine  ([FraudFeatureExtractor]) *)

(** Reductions of a numeric series without missing cells. *)
Definition q_sum (l : list Q) : Q := fold_left Qplus l 0.

Definition q_max (a b : Q) : Q := if Qle_bool a b then b else a.
Definition q_min (a b : Q) : Q := if Qle_bool a b then a else b.

Definition series_mean (l : list Q) : fval :=
  match l with
  | [] => NaN
  | _ => Fin (q_sum l / inject_Z (Z.of_nat (List.length l)))
  end.

Definition series_max (l : list Q) : fval :=
  match l with
  | [] => NaN
  | x :: rest => Fin (fold_left q_max rest x)
  end.

Definition series_min (l : list Q) : fval :=
  match l with
  | [] => NaN
  | x :: rest => Fin (fold_left q_min rest x)
  end.

(** [.mean()] of a boolean series. *)
Definition bool_mean (l : list bool) : fval :=
  series_mean (map (fun b : bool => if b then 1 else 0) l).

(** [.fillna(0)] and [.replace([inf, -inf], 0)] on one cell. *)
Definition fillna0 (v : fval) : fval :=
  match v with NaN => Fin 0 | _ => v end.

Definition replace_inf0 (v : fval) : fval :=
  match v with PosInf | NegInf => Fin 0 | _ => v end.

(** The indicator cells of one value [v] for the given levels. *)
Definition dummy_cells (prefix : string) (levels : list string) (v : string) : row :=
  map (fun level => ((prefix ++ "_" ++ level)%string, of_bool (String.eqb v level)))
      levels.

(** [pd.get_dummies(series, prefix=prefix)], row by row: one indicator
    per distinct value of [series], the values in sorted order. *)
Definition get_dummies (prefix : string) (series : list string) : list row :=
  map (dummy_cells prefix (sorted (unique series))) series.

Definition eq_opt (x : option string) (s : string) : bool :=
  match x with Some y => String.eqb y s | None => false end.

Section Extraction.

Context {lib : Lib}.
Variable self : FraudFeatureExtractor.

(** [self.claims_df[self.claims_df['patient_id'] == patient_id]] *)
Definition claims_of_patient (pid : string) : list Claim :=
  filter (fun c => String.eqb (c_patient_id c) pid) (claims_df self).

Definition claims_of_provider (pid : string) : list Claim :=
  filter (fun c => String.eqb (c_provider_id c) pid) (claims_df self).

Definition _extract_claim_features (claims_subset : list Claim) : list row :=
  let cols := claim_columns self in
  let amounts :=
    map (fun c => [ ("claim_amount", Fin (claim_amount c));
                    ("claim_amount_log", np_log1p (claim_amount c)) ])
        claims_subset in
  let with_type :=
    if col_claim_type cols
    then hconcat amounts (get_dummies "claim_type" (map claim_type claims_subset))
    else amounts in
  let with_status :=
    if col_claim_status cols
    then hconcat with_type (get_dummies "status" (map claim_status claims_subset))
    else with_type in
  let with_admission :=
    if col_admission_type cols
    then hconcat with_status
           (map (fun c => [ ("is_emergency", of_bool (eq_opt (admission_type c) "Emergency"));
                            ("is_elective", of_bool (eq_opt (admission_type c) "Elective")) ])
                claims_subset)
    else with_status in
  if col_length_of_stay cols
  then hconcat with_admission
         (map (fun c => [ ("length_of_stay", fillna0 (length_of_stay c));
                          ("has_length_of_stay", of_bool (f_gtb (length_of_stay c) (Fin 0))) ])
              claims_subset)
  else with_admission.

(** The statistics entry of one patient, over all the patient's claims. *)
Definition patient_stats_entry (patient_claims : list Claim) : dict fval :=
  let amounts := map claim_amount patient_claims in
  [ ("patient_num_claims", of_nat (List.length patient_claims));
    ("patient_total_claimed", Fin (q_sum amounts));
    ("patient_avg_claim", series_mean amounts);
    ("patient_max_claim", series_max amounts);
    ("patient_min_claim", series_min amounts);
    ("patient_std_claim",
       if (1 <? List.length patient_claims)%nat then series_std amounts else Fin 0);
    ("patient_num_providers",
       of_nat (List.length (unique (map c_provider_id patient_claims)))) ].

(** [patient_ages]: one assignment per row of [patients_df]. *)
Definition patient_ages : dict fval :=
  map (fun p =>
         (patient_id p,
          match date_of_birth p with
          | Some dob => Fin (inject_Z (days_between datetime_now dob) / (36525 # 100))
          | None => Fin 45
          end))
      (patients_df self).

Definition patient_gender : dict string :=
  map (fun p => (patient_id p, gender p)) (patients_df self).

Definition _extract_patient_features (claims_subset : list Claim) : result (list row) :=
  let patient_ids := unique (map c_patient_id claims_subset) in
  let patient_stats :=
    map (fun pid => (pid, patient_stats_entry (claims_of_patient pid))) patient_ids in
  match patient_ids with
  | [] => Raise IndexError
  | first :: _ =>
      match dict_get patient_stats first with
      | None => Raise KeyError
      | Some entry =>
          Ok (map (fun c =>
                     let x := c_patient_id c in
                     map (fun col =>
                            (col, dict_get_or (dict_get_or patient_stats x []) col (Fin 0)))
                         (map fst entry)
                     ++ [ ("patient_age",
                             match dict_get patient_ages x with
                             | Some age => age
                             | None => NaN
                             end);
                          ("patient_is_male",
                             of_bool (String.eqb (dict_get_or patient_gender x "M") "M")) ])
                  claims_subset)
      end
  end.

Definition provider_stats_entry (provider_claims : list Claim) : dict fval :=
  let amounts := map claim_amount provider_claims in
  [ ("provider_num_claims", of_nat (List.length provider_claims));
    ("provider_total_billed", Fin (q_sum amounts));
    ("provider_avg_claim", series_mean amounts);
    ("provider_max_claim", series_max amounts);
    ("provider_std_claim",
       if (1 <? List.length provider_claims)%nat then series_std amounts else Fin 0);
    ("provider_num_patients",
       of_nat (List.length (unique (map c_patient_id provider_claims))));
    ("provider_fraud_rate",
       if col_is_fraudulent (claim_columns self)
       then bool_mean (map is_fraudulent provider_claims)
       else Fin 0) ].

(** [self.providers_df.set_index('provider_id')['specialty'].to_dict()] *)
Definition provider_specialty : dict (option string) :=
  map (fun p => (provider_id p, specialty p)) (providers_df self).

(** [sorted([s for s in self.providers_df['specialty'].unique() if pd.notna(s)])] *)
Definition all_specialties : list string :=
  sorted (unique (flat_map (fun p => match specialty p with
                                     | Some s => [s]
                                     | None => []
                                     end)
                           (providers_df self))).

Definition _extract_provider_features (claims_subset : list Claim) : result (list row) :=
  let provider_ids := unique (map c_provider_id claims_subset) in
  let provider_stats :=
    map (fun pid => (pid, provider_stats_entry (claims_of_provider pid))) provider_ids in
  match provider_ids with
  | [] => Raise IndexError
  | first :: _ =>
      match dict_get provider_stats first with
      | None => Raise KeyError
      | Some entry =>
          Ok (map (fun c =>
                     let x := c_provider_id c in
                     map (fun col =>
                            (col, dict_get_or (dict_get_or provider_stats x []) col (Fin 0)))
                         (map fst entry)
                     ++ map (fun s =>
                               (("specialty_" ++ s)%string,
                                of_bool (eq_opt (dict_get_or provider_specialty x None) s)))
                            all_specialties)
                  claims_subset)
      end
  end.

(** [patient_first_claim]: the earliest service date over all the claims
    of each patient of the subset. *)
Definition patient_first_claim (claims_subset : list Claim) : dict (option Timestamp) :=
  map (fun pid => (pid, ts_min (map service_date (claims_of_patient pid))))
      (unique (map c_patient_id claims_subset)).

Definition claim_frequency (claims_subset : list Claim) : dict fval :=
  map (fun pid =>
         let patient_claims := claims_of_patient pid in
         let dates := map service_date patient_claims in
         (pid,
          if (1 <? List.length dates)%nat then
            match ts_max dates, ts_min dates with
            | Some hi, Some lo =>
                let date_range := (days_between hi lo + 1)%Z in
                Fin (inject_Z (Z.of_nat (List.length patient_claims))
                     / inject_Z (Z.max date_range 1))
            | _, _ => NaN
            end
          else Fin 0))
      (unique (map c_patient_id claims_subset)).

Definition _extract_temporal_features (claims_subset : list Claim) : list row :=
  let first_claim := patient_first_claim claims_subset in
  let frequency := claim_frequency claims_subset in
  map (fun c =>
         let d := service_date c in
         [ ("service_day_of_week", of_Z (dayofweek d));
           ("is_weekend", of_bool (5 <=? dayofweek d)%Z);
           ("service_month", of_Z (t_month d));
           ("service_hour", of_Z (hour d));
           ("is_night", of_bool ((hour d <? 6)%Z || (20 <? hour d)%Z));
           ("days_since_first_claim",
              match dict_get_or first_claim (c_patient_id c) (Some d) with
              | Some t0 => of_Z (days_between d t0)
              | None => NaN
              end);
           ("patient_claim_frequency",
              match dict_get frequency (c_patient_id c) with
              | Some f => f
              | None => NaN
              end) ])
      claims_subset.

(** [patient_degrees] and [provider_degrees]. *)
Definition degrees_of (kind : string) : dict nat :=
  let g := graph self in
  map (fun n => (n, degree g n))
      (filter (fun n => String.eqb (node_type g n) kind) (nodes g)).

Definition _extract_graph_features (claims_subset : list Claim) : list row :=
  let g := graph self in
  let patient_degrees := degrees_of "patient" in
  let provider_degrees := degrees_of "provider" in
  let small := (List.length (nodes g) <? 5000)%nat in
  let betweenness := nx_betweenness_centrality g in
  let clustering := nx_clustering g in
  map (fun c =>
         let p := c_patient_id c in
         let q := c_provider_id c in
         [ ("patient_degree", of_nat (dict_get_or patient_degrees p 0%nat));
           ("provider_degree", of_nat (dict_get_or provider_degrees q 0%nat));
           ("patient_betweenness",
              if small then Fin (dict_get_or betweenness p 0) else Fin 0);
           ("provider_betweenness",
              if small then Fin (dict_get_or betweenness q 0) else Fin 0);
           ("patient_clustering", Fin (dict_get_or clustering p 0));
           ("provider_clustering", Fin (dict_get_or clustering q 0));
           ("shared_neighbors",
              if has_node g p && has_node g q
              then of_nat (shared_neighbors g p q) else Fin 0);
           ("graph_distance", of_Z (graph_distance g p q)) ])
      claims_subset.

(** A row of the frame [extract_all_features] returns: the [claim_id]
    column and the feature cells. *)
Record FeatureRow : Type := {
  fr_claim_id : string;
  fr_cells : row
}.

Fixpoint attach_ids (claims_subset : list Claim) (rows : list row) : list FeatureRow :=
  match claims_subset, rows with
  | c :: cs, r :: rs => {| fr_claim_id := claim_id c; fr_cells := r |} :: attach_ids cs rs
  | _, _ => []
  end.

(** [self.claims_df[self.claims_df['claim_id'].isin(claim_ids)]], or the
    whole table for [claim_ids=None]. *)
Definition select_claims (claim_ids : option (list string)) : list Claim :=
  match claim_ids with
  | None => claims_df self
  | Some ids => filter (fun c => mem (claim_id c) ids) (claims_df self)
  end.

Definition extract_all_features (claim_ids : option (list string))
  : result (list FeatureRow) :=
  let claims_subset := select_claims claim_ids in
  let claim_features := _extract_claim_features claims_subset in
  match _extract_patient_features claims_subset with
  | Raise e => Raise e
  | Ok patient_features =>
      match _extract_provider_features claims_subset with
      | Raise e => Raise e
      | Ok provider_features =>
          let temporal_features := _extract_temporal_features claims_subset in
          let graph_features := _extract_graph_features claims_subset in
          Ok (attach_ids claims_subset
                (hconcat claim_features
                   (hconcat patient_features
                      (hconcat provider_features
                         (hconcat temporal_features graph_features)))))
      end
  end.

(** [features_df.fillna(0).replace([np.inf, -np.inf], 0)] *)
Definition clean_row (r : row) : row :=
  map (fun cell => (fst cell, replace_inf0 (fillna0 (snd cell)))) r.

(** [prepare_training_data]: the feature matrix and the labels.  The
    left merge on [claim_id] pairs each feature row with the label of
    every table row carrying its id. *)
Definition prepare_training_data : result (list row * list bool) :=
  match extract_all_features None with
  | Raise e => Raise e
  | Ok features_df =>
      if col_is_fraudulent (claim_columns self) then
        let claim_ids := map fr_claim_id features_df in
        let labels_df := filter (fun c => mem (claim_id c) claim_ids) (claims_df self) in
        let features_with_labels :=
          flat_map (fun fr =>
                      map (fun c => (fr_cells fr, is_fraudulent c))
                          (filter (fun c => String.eqb (claim_id c) (fr_claim_id fr))
                                  labels_df))
                   features_df in
        Ok (map (fun x => clean_row (fst x)) features_with_labels,
            map snd features_with_labels)
      else Raise KeyError
  end.

(** [get_feature_names]: the columns extracted for the first claim of the
    table. *)
Definition get_feature_names : result (list string) :=
  match claims_df self with
  | [] => Raise IndexError
  | sample_claim :: _ =>
      match extract_all_features (Some [claim_id sample_claim]) with
      | Raise e => Raise e
      | Ok [] => Ok []
      | Ok (fr :: _) => Ok (map fst (fr_cells fr))
      end
  end.

(** The part of [FraudDetectionService.detect_fraud_by_claim_ids] that
    prepares the matrix handed to [assess_claims]. *)
Definition detect_features (claim_ids : list string) : result (list string * list row) :=
  match select_claims (Some claim_ids) with
  | [] => Ok ([], [])
  | _ :: _ =>
      match extract_all_features (Some claim_ids) with
      | Raise e => Raise e
      | Ok features_df =>
          Ok (map fr_claim_id features_df,
              map (fun fr => clean_row (fr_cells fr)) features_df)
      end
  end.

End Extraction.

(* ================================================================== *)
(** ** Row-wise view of the extraction

    The frames above are built column group by column group.  The
    definitions below give the cells of one claim directly; the lemmas of
    the second part show that the frames consist of exactly these rows. *)

Section RowView.

Context {lib : Lib}.
Variable self : FraudFeatureExtractor.

(** The one-hot levels [get_dummies] derives from a subset. *)
Definition type_levels (claims_subset : list Claim) : list string :=
  sorted (unique (map claim_type claims_subset)).

Definition status_levels (claims_subset : list Claim) : list string :=
  sorted (unique (map claim_status claims_subset)).

Definition claim_cells (types statuses : list string) (c : Claim) : row :=
  let cols := claim_columns self in
  [ ("claim_amount", Fin (claim_amount c));
    ("claim_amount_log", np_log1p (claim_amount c)) ]
  ++ (if col_claim_type cols
      then dummy_cells "claim_type" types (claim_type c) else [])
  ++ (if col_claim_status cols
      then dummy_cells "status" statuses (claim_status c) else [])
  ++ (if col_admission_type cols
      then [ ("is_emergency", of_bool (eq_opt (admission_type c) "Emergency"));
             ("is_elective", of_bool (eq_opt (admission_type c) "Elective")) ]
      else [])
  ++ (if col_length_of_stay cols
      then [ ("length_of_stay", fillna0 (length_of_stay c));
             ("has_length_of_stay", of_bool (f_gtb (length_of_stay c) (Fin 0))) ]
      else []).

Definition patient_cells (c : Claim) : row :=
  let x := c_patient_id c in
  patient_stats_entry (claims_of_patient self x)
  ++ [ ("patient_age",
          match dict_get (patient_ages self) x with
          | Some age => age
          | None => NaN
          end);
       ("patient_is_male",
          of_bool (String.eqb (dict_get_or (patient_gender self) x "M") "M")) ].

Definition provider_cells (c : Claim) : row :=
  let x := c_provider_id c in
  provider_stats_entry self (claims_of_provider self x)
  ++ map (fun s => (("specialty_" ++ s)%string,
                    of_bool (eq_opt (dict_get_or (provider_specialty self) x None) s)))
         (all_specialties self).

(** [claim_frequency[pid]] *)
Definition frequency_of (pid : string) : fval :=
  let patient_claims := claims_of_patient self pid in
  let dates := map service_date patient_claims in
  if (1 <? List.length dates)%nat then
    match ts_max dates, ts_min dates with
    | Some hi, Some lo =>
        Fin (inject_Z (Z.of_nat (List.length patient_claims))
             / inject_Z (Z.max (days_between hi lo + 1) 1))
    | _, _ => NaN
    end
  else Fin 0.

Definition temporal_cells (c : Claim) : row :=
  let d := service_date c in
  [ ("service_day_of_week", of_Z (dayofweek d));
    ("is_weekend", of_bool (5 <=? dayofweek d)%Z);
    ("service_month", of_Z (t_month d));
    ("service_hour", of_Z (hour d));
    ("is_night", of_bool ((hour d <? 6)%Z || (20 <? hour d)%Z));
    ("days_since_first_claim",
       match ts_min (map service_date (claims_of_patient self (c_patient_id c))) with
       | Some t0 => of_Z (days_between d t0)
       | None => NaN
       end);
    ("patient_claim_frequency", frequency_of (c_patient_id c)) ].

Definition graph_cells (c : Claim) : row :=
  let g := graph self in
  let p := c_patient_id c in
  let q := c_provider_id c in
  let small := (List.length (nodes g) <? 5000)%nat in
  [ ("patient_degree", of_nat (dict_get_or (degrees_of self "patient") p 0%nat));
    ("provider_degree", of_nat (dict_get_or (degrees_of self "provider") q 0%nat));
    ("patient_betweenness",
       if small then Fin (dict_get_or (nx_betweenness_centrality g) p 0) else Fin 0);
    ("provider_betweenness",
       if small then Fin (dict_get_or (nx_betweenness_centrality g) q 0) else Fin 0);
    ("patient_clustering", Fin (dict_get_or (nx_clustering g) p 0));
    ("provider_clustering", Fin (dict_get_or (nx_clustering g) q 0));
    ("shared_neighbors",
       if has_node g p && has_node g q
       then of_nat (shared_neighbors g p q) else Fin 0);
    ("graph_distance", of_Z (graph_distance g p q)) ].

(** The cells that do not depend on the request. *)
Definition entity_cells (c : Claim) : row :=
  patient_cells c ++ provider_cells c ++ temporal_cells c ++ graph_cells c.

Definition feature_row (types statuses : list string) (c : Claim) : FeatureRow :=
  {| fr_claim_id := claim_id c;
     fr_cells := claim_cells types statuses c ++ entity_cells c |}.

End RowView.

(** The header of each returned row: its claim id and its column names. *)
Definition headers (r : result (list FeatureRow)) : result (list (string * list string)) :=
  match r with
  | Ok rows => Ok (map (fun fr => (fr_claim_id fr, map fst (fr_cells fr))) rows)
  | Raise e => Raise e
  end.

(** The cell of a column in the row of a claim id, if both exist. *)
Definition cell_of (r : result (list FeatureRow)) (cid col : string) : option fval :=
  match r with
  | Ok rows =>
      match find (fun fr => String.eqb (fr_claim_id fr) cid) rows with
      | Some fr => row_get (fr_cells fr) col
      | None => None
      end
  | Raise _ => None
  end.

(** The claim ids of the returned rows, in order. *)
Definition claim_ids_of (r : result (list FeatureRow)) : result (list string) :=
  match r with
  | Ok rows => Ok (map fr_claim_id rows)
  | Raise e => Raise e
  end.

(** Does a column name start with the letter p? *)
Definition p_name (s : string) : bool :=
  match s with
  | String "p"%char _ => true
  | _ => false
  end.

(* ================================================================== *)
(** ** Notions the properties are stated with *)

(** A walk in the graph: [walk g k a b] when [k] edges lead from [a] to
    [b]. *)
Inductive walk (g : Graph) : nat -> string -> string -> Prop :=
| walk_here (a : string) : walk g 0 a a
| walk_step (k : nat) (a c b : string) :
    has_edge g a c = true -> walk g k c b -> walk g (S k) a b.

(** The same walk, given by the nodes visited after [a]. *)
Fixpoint chain (g : Graph) (a : string) (l : list string) (b : string) : Prop :=
  match l with
  | [] => a = b
  | c :: l' => has_edge g a c = true /\ chain g c l' b
  end.

(** The labeled claims of a provider: the fraud label is a column of the
    claim table, so either every claim carries one or none does. *)
Definition labeled_claims (self : FraudFeatureExtractor) (pid : string) : list Claim :=
  if col_is_fraudulent (claim_columns self)
  then filter (fun c => String.eqb (c_provider_id c) pid) (claims_df self)
  else [].

(** The number of claims labeled fraudulent divided by the number of
    labeled claims; 0 without labeled claims. *)
Definition empirical_fraud_rate (self : FraudFeatureExtractor) (pid : string) : Q :=
  match labeled_claims self pid with
  | [] => 0
  | l => inject_Z (Z.of_nat (List.length (filter is_fraudulent l)))
         / inject_Z (Z.of_nat (List.length l))
  end.

(** Does the patient table hold a record for this id? *)
Definition known_patient (self : FraudFeatureExtractor) (pid : string) : bool :=
  existsb (fun p => String.eqb (patient_id p) pid) (patients_df self).

(* ================================================================== *)
(** ** Sample data *)

Definition mk_ts (day month sec : Z) : Timestamp :=
  {| t_day := day; t_month := month; t_sec := sec |}.

(** Stand-ins for the clock and the library routines, used where a
    property is evaluated on the sample data; the cells inspected there
    do not go through them. *)
Definition sample_lib : Lib :=
  {| datetime_now := mk_ts 739000 4 0;
     np_log1p := fun _ => Fin 0;
     series_std := fun _ => Fin 0;
     nx_betweenness_centrality := fun _ => [];
     nx_clustering := fun _ => [] |}.

(** The columns of the claim file the repository documents. *)
Definition schema_columns : ClaimColumns :=
  {| col_claim_type := true; col_claim_status := true; col_is_fraudulent := true;
     col_admission_type := false; col_length_of_stay := false |}.

Definition mk_claim (cid pat prov : string) (amount : Q) (day : Z)
    (ty st : string) (fraud : bool) : Claim :=
  {| claim_id := cid; c_patient_id := pat; c_provider_id := prov;
     claim_amount := amount; service_date := mk_ts day 1 36000;
     claim_type := ty; claim_status := st; is_fraudulent := fraud;
     admission_type := None; length_of_stay := NaN |}.

(** Two patients, two providers, three claims; claim C names a patient
    the patient table does not hold. *)
Definition sample_store : FraudFeatureExtractor :=
  load_data
    [ {| patient_id := "P1"; date_of_birth := Some (mk_ts 724000 3 0); gender := "F" |};
      {| patient_id := "P2"; date_of_birth := None; gender := "M" |} ]
    [ {| provider_id := "D1"; specialty := Some "Cardiology" |};
      {| provider_id := "D2"; specialty := None |} ]
    [ mk_claim "A" "P1" "D1" 100 738900 "inpatient" "Approved" false;
      mk_claim "B" "P2" "D1" 250 738901 "outpatient" "Denied" true;
      mk_claim "C" "P9" "D2" 80 738902 "inpatient" "Approved" false ]
    schema_columns.

(** Provider D1 with ten claims of which three are fraudulent, provider
    D2 with ten claims of which none is. *)
Definition rate_store : FraudFeatureExtractor :=
  load_data
    [ {| patient_id := "P1"; date_of_birth := None; gender := "F" |} ]
    [ {| provider_id := "D1"; specialty := Some "Cardiology" |};
      {| provider_id := "D2"; specialty := Some "Oncology" |} ]
    ( map (fun i => mk_claim ("X" ++ i) "P1" "D1" 100 738900 "outpatient" "Approved" true)
          ["0"; "1"; "2"]
      ++ map (fun i => mk_claim ("X" ++ i) "P1" "D1" 100 738900 "outpatient" "Approved" false)
          ["3"; "4"; "5"; "6"; "7"; "8"; "9"]
      ++ map (fun i => mk_claim ("Y" ++ i) "P1" "D2" 100 738900 "outpatient" "Approved" false)
          ["0"; "1"; "2"; "3"; "4"; "5"; "6"; "7"; "8"; "9"] )%list
    schema_columns.

(** A path P1 - D1 - P2 - D2, and an isolated patient P3. *)
Definition sample_graph : Graph :=
  add_node
    (add_edge (add_edge (add_edge empty_graph "P1" "D1") "P2" "D1") "P2" "D2")
    "P3" "patient".

(** A frame with a column outside the schema and one schema column. *)
Definition sample_frame : DataFrame :=
  {| df_len := 2;
     df_cols := [ ("extra", [Fin 7; Fin 8]); ("claim_amount", [Fin 100; Fin 250]) ] |}.

Definition sample_schema : list string := ["claim_amount"; "provider_fraud_rate"].

Definition sample_model : FraudDetectionModel :=
  {| feature_names := sample_schema;
     classifier_predict := fun X => repeat true (df_len X);
     classifier_predict_proba := fun X => repeat (9 # 10) (df_len X);
     feature_importances_ := [3 # 10; 7 # 10] |}.

(* ================================================================== *)
(** ** Explanation engine: summary, confidence narrative, explanation *)

(** The string [assess_claims] stores under ['risk_level']. *)
Definition level_name (l : RiskLevel) : string :=
  match l with
  | CRITICAL => "CRITICAL"
  | HIGH => "HIGH"
  | MEDIUM => "MEDIUM"
  | LOW => "LOW"
  | MINIMAL => "MINIMAL"
  end.

(** The branch a level string selects in the [if ... elif ... else]
    cascades of the explainer: a string that is none of the four names
    tested falls into the last branch. *)
Definition level_of_name (risk_level : string) : RiskLevel :=
  if String.eqb risk_level "CRITICAL" then CRITICAL
  else if String.eqb risk_level "HIGH" then HIGH
  else if String.eqb risk_level "MEDIUM" then MEDIUM
  else if String.eqb risk_level "LOW" then LOW
  else MINIMAL.

(** An f-string, as its literal parts and the numbers formatted into it:
    [Percent q] stands for [{q:.1f}], [Count n] for [{n}]. *)
Inductive piece : Type :=
| Text (s : string)
| Percent (q : Q)
| Count (n : nat).

Definition _generate_summary (risk_level : string) (fraud_probability : Q)
    (num_red_flags : nat) : list piece :=
  if mem risk_level ["CRITICAL"; "HIGH"] then
    [ Text "This claim shows strong indicators of fraud with a ";
      Percent (fraud_probability * 100);
      Text "% probability. ";
      Count num_red_flags;
      Text " significant red flags were identified that warrant immediate investigation." ]
  else if String.eqb risk_level "MEDIUM" then
    [ Text "This claim exhibits some suspicious patterns with a ";
      Percent (fraud_probability * 100);
      Text "% fraud probability. ";
      Count num_red_flags;
      Text " potential red flags suggest this claim should be reviewed before payment." ]
  else if String.eqb risk_level "LOW" then
    [ Text "This claim shows minor anomalies with a ";
      Percent (fraud_probability * 100);
      Text "% fraud probability. While ";
      Count num_red_flags;
      Text " flags were detected, they may have legitimate explanations." ]
  else
    [ Text "This claim appears normal with a low ";
      Percent (fraud_probability * 100);
      Text "% fraud probability. Detected patterns fall within acceptable ranges." ].

Definition EXTREMELY_HIGH_CONFIDENCE : string :=
  "Extremely high confidence - Multiple strong fraud indicators align with known fraud patterns.".
Definition HIGH_CONFIDENCE : string :=
  "High confidence - Several significant fraud indicators detected across multiple categories.".
Definition MODERATE_CONFIDENCE : string :=
  "Moderate confidence - Some fraud indicators present, but not conclusive without additional review.".
Definition LOW_CONFIDENCE : string :=
  "Low confidence - Minor anomalies detected, but could be explained by legitimate circumstances.".
Definition VERY_LOW_CONFIDENCE : string :=
  "Very low confidence - Claim patterns appear normal and consistent with legitimate claims.".

Definition _generate_confidence_explanation (fraud_probability : Q) : string :=
  if Qle_bool (9 # 10) fraud_probability then EXTREMELY_HIGH_CONFIDENCE
  else if Qle_bool (75 # 100) fraud_probability then HIGH_CONFIDENCE
  else if Qle_bool (5 # 10) fraud_probability then MODERATE_CONFIDENCE
  else if Qle_bool (25 # 100) fraud_probability then LOW_CONFIDENCE
  else VERY_LOW_CONFIDENCE.

Record Explanation : Type := {
  summary : list piece;
  red_flags : list RedFlag;
  recommendation : string;
  confidence_explanation : string;
  total_red_flags : nat;
  risk_score : Q
}.

(** [generate_explanation]; the [claim_data] argument is not read. *)
Definition generate_explanation (risk_factors : list RiskFactor)
    (fraud_probability : Q) (risk_level : string) : Explanation :=
  let red_flags := _generate_red_flags risk_factors in
  {| summary := _generate_summary risk_level fraud_probability (List.length red_flags);
     red_flags := red_flags;
     recommendation := _generate_recommendation (level_of_name risk_level);
     confidence_explanation := _generate_confidence_explanation fraud_probability;
     total_red_flags := List.length red_flags;
     risk_score := fraud_probability |}.

(** The call of the detection service for one assessment. *)
Definition explain (a : Assessment) : Explanation :=
  generate_explanation (risk_factors a) (fraud_probability a)
                       (level_name (a_risk_level a)).

(** Does a summary print the number of red flags? *)
Definition mentions_count (s : list piece) : bool :=
  existsb (fun p => match p with Count _ => true | _ => false end) s.

(* ================================================================== *)
(** ** Notions for the further properties *)

(** No id serves both as the patient of a claim and as the provider of
    a claim. *)
Definition disjoint_ids (claims : list Claim) : Prop :=
  forall c c', In c claims -> In c' claims -> c_patient_id c <> c_provider_id c'.

(** Does the provider table hold a record for this id? *)
Definition known_provider (self : FraudFeatureExtractor) (pid : string) : bool :=
  existsb (fun p => String.eqb (provider_id p) pid) (providers_df self).

(** The columns of the claim-attribute group, given the one-hot levels. *)
Definition claim_column_names (cols : ClaimColumns) (types statuses : list string)
  : list string :=
  [ "claim_amount"; "claim_amount_log" ]
  ++ (if col_claim_type cols
      then map (fun level => ("claim_type_" ++ level)%string) types else [])
  ++ (if col_claim_status cols
      then map (fun level => ("status_" ++ level)%string) statuses else [])
  ++ (if col_admission_type cols then [ "is_emergency"; "is_elective" ] else [])
  ++ (if col_length_of_stay cols
      then [ "length_of_stay"; "has_length_of_stay" ] else []).

(** The columns of the patient, provider, temporal and graph groups. *)
Definition entity_column_names (self : FraudFeatureExtractor) : list string :=
  [ "patient_num_claims"; "patient_total_claimed"; "patient_avg_claim";
    "patient_max_claim"; "patient_min_claim"; "patient_std_claim";
    "patient_num_providers"; "patient_age"; "patient_is_male";
    "provider_num_claims"; "provider_total_billed"; "provider_avg_claim";
    "provider_max_claim"; "provider_std_claim"; "provider_num_patients";
    "provider_fraud_rate" ]
  ++ map (fun s => ("specialty_" ++ s)%string) (all_specialties self)
  ++ [ "service_day_of_week"; "is_weekend"; "service_month"; "service_hour";
       "is_night"; "days_since_first_claim"; "patient_claim_frequency";
       "patient_degree"; "provider_degree"; "patient_betweenness";
       "provider_betweenness"; "patient_clustering"; "provider_clustering";
       "shared_neighbors"; "graph_distance" ].

(** The names of the claim-attribute columns that are no one-hot
    indicators, and of the patient and provider statistics. *)
Definition plain_claim_names : list string :=
  [ "claim_amount"; "claim_amount_log"; "is_emergency"; "is_elective";
    "length_of_stay"; "has_length_of_stay" ].

Definition statistics_names : list string :=
  [ "patient_num_claims"; "patient_total_claimed"; "patient_avg_claim";
    "patient_max_claim"; "patient_min_claim"; "patient_std_claim";
    "patient_num_providers"; "patient_age"; "patient_is_male";
    "provider_num_claims"; "provider_total_billed"; "provider_avg_claim";
    "provider_max_claim"; "provider_std_claim"; "provider_num_patients";
    "provider_fraud_rate" ].

(* ================================================================== *)
(** ** Detection service  ([FraudDetectionService], for a service that
       is ready: model and extractor loaded) *)



Section Service.

Context {lib : Lib}.
Variable self : FraudFeatureExtractor.
Variable model : FraudDetectionModel.




End Service.


(** [FraudDetectionService.get_feature_importance]: the first [top_n]
    entries of the ranking of the model. *)
Definition service_get_feature_importance (model : FraudDetectionModel) (top_n : nat)
  : list (string * Q) :=
  firstn top_n (get_feature_importance model).

(* ================================================================== *)
(** ** Dataset endpoints  ([dataset.py]), on the tables of the loader *)

Record DatasetStats : Type := {
  total_patients : nat;
  total_providers : nat;
  total_claims : nat;
  total_fraudulent_claims : nat;
  fraud_rate : Q;
  total_claim_amount : Q;
  fraud_amount : Q
}.

(** The body of [get_dataset_statistics]; reading the label column of a
    table that lacks it is a KeyError (answered with status 500). *)
Definition get_dataset_statistics (data_loader : FraudFeatureExtractor)
  : result DatasetStats :=
  if col_is_fraudulent (claim_columns data_loader) then
    let total_claims := List.length (claims_df data_loader) in
    let fraudulent_claims :=
      List.length (filter is_fraudulent (claims_df data_loader)) in
    let fraud_rate :=
      if (0 <? total_claims)%nat
      then inject_Z (Z.of_nat fraudulent_claims) / inject_Z (Z.of_nat total_claims)
      else 0 in
    Ok {| total_patients := List.length (patients_df data_loader);
          total_providers := List.length (providers_df data_loader);
          total_claims := total_claims;
          total_fraudulent_claims := fraudulent_claims;
          fraud_rate := fraud_rate;
          total_claim_amount := q_sum (map claim_amount (claims_df data_loader));
          fraud_amount :=
            q_sum (map claim_amount
                       (filter is_fraudulent (claims_df data_loader))) |}
  else Raise KeyError.

(** [if patient_id:]: a filter is applied when it is given and not the
    empty string. *)
Definition filter_given (f : option string) (field : Claim -> string)
    (claims : list Claim) : list Claim :=
  match f with
  | None => claims
  | Some v => if String.eqb v "" then claims
              else filter (fun c => String.eqb (field c) v) claims
  end.

(** The filters of [get_claims], in the order the endpoint applies
    them. *)
Definition filtered_claims (data_loader : FraudFeatureExtractor)
    (patient_id provider_id : option string) (fraud_only : bool)
  : result (list Claim) :=
  let claims := claims_df data_loader in
  let claims := filter_given patient_id c_patient_id claims in
  let claims := filter_given provider_id c_provider_id claims in
  if fraud_only then
    if col_is_fraudulent (claim_columns data_loader)
    then Ok (filter is_fraudulent claims)
    else Raise KeyError
  else Ok claims.

(** [get_claims]: the total and the page [claims_df.iloc[start:end]];
    [page] is at least 1. *)
Definition get_claims (data_loader : FraudFeatureExtractor) (page page_size : nat)
    (patient_id provider_id : option string) (fraud_only : bool)
  : result (nat * list Claim) :=
  match filtered_claims data_loader patient_id provider_id fraud_only with
  | Raise e => Raise e
  | Ok claims =>
      let total := List.length claims in
      let start := ((page - 1) * page_size)%nat in
      let end_ := (start + page_size)%nat in
      Ok (total, firstn (end_ - start) (skipn start claims))
  end.

(** The rows of the answer, none for a failed request. *)
Definition page_of {A : Type} (r : result (nat * list A)) : list A :=
  match r with
  | Ok (_, rows) => rows
  | Raise _ => []
  end.

(* ================================================================== *)
(** ** Medical reference data  ([medical_codes.py]) *)

Record CptCode : Type := {
  cpt_name : string;
  cost_low : Z;
  cost_high : Z;
  complexity : Z;
  cpt_category : string
}.

Definition CPT_CODES : dict CptCode :=
  [ ("99213", {| cpt_name := "Office visit, established patient, low to moderate complexity";
                 cost_low := 75; cost_high := 150; complexity := 2;
                 cpt_category := "Evaluation" |});
    ("99214", {| cpt_name := "Office visit, established patient, moderate to high complexity";
                 cost_low := 120; cost_high := 250; complexity := 3;
                 cpt_category := "Evaluation" |});
    ("99215", {| cpt_name := "Office visit, established patient, high complexity";
                 cost_low := 180; cost_high := 350; complexity := 4;
                 cpt_category := "Evaluation" |});
    ("99203", {| cpt_name := "Office visit, new patient, low to moderate complexity";
                 cost_low := 100; cost_high := 200; complexity := 2;
                 cpt_category := "Evaluation" |});
    ("99204", {| cpt_name := "Office visit, new patient, moderate to high complexity";
                 cost_low := 150; cost_high := 300; complexity := 3;
                 cpt_category := "Evaluation" |});
    ("99281", {| cpt_name := "Emergency department visit, low complexity";
                 cost_low := 150; cost_high := 300; complexity := 2;
                 cpt_category := "Emergency" |});
    ("99283", {| cpt_name := "Emergency department visit, moderate complexity";
                 cost_low := 300; cost_high := 600; complexity := 3;
                 cpt_category := "Emergency" |});
    ("99285", {| cpt_name := "Emergency department visit, high complexity";
                 cost_low := 800; cost_high := 2000; complexity := 5;
                 cpt_category := "Emergency" |});
    ("70450", {| cpt_name := "CT scan, head/brain, without contrast";
                 cost_low := 400; cost_high := 1200; complexity := 3;
                 cpt_category := "Radiology" |});
    ("70553", {| cpt_name := "MRI brain with and without contrast";
                 cost_low := 800; cost_high := 2500; complexity := 4;
                 cpt_category := "Radiology" |});
    ("93000", {| cpt_name := "Electrocardiogram (EKG), complete";
                 cost_low := 50; cost_high := 150; complexity := 1;
                 cpt_category := "Diagnostic" |});
    ("93015", {| cpt_name := "Cardiovascular stress test";
                 cost_low := 200; cost_high := 500; complexity := 3;
                 cpt_category := "Diagnostic" |});
    ("80053", {| cpt_name := "Comprehensive metabolic panel";
                 cost_low := 30; cost_high := 100; complexity := 1;
                 cpt_category := "Laboratory" |});
    ("85025", {| cpt_name := "Complete blood count with differential";
                 cost_low := 20; cost_high := 60; complexity := 1;
                 cpt_category := "Laboratory" |});
    ("29881", {| cpt_name := "Arthroscopy, knee, surgical";
                 cost_low := 2000; cost_high := 5000; complexity := 4;
                 cpt_category := "Surgery" |});
    ("47562", {| cpt_name := "Laparoscopic cholecystectomy";
                 cost_low := 5000; cost_high := 15000; complexity := 5;
                 cpt_category := "Surgery" |});
    ("27447", {| cpt_name := "Total knee arthroplasty";
                 cost_low := 15000; cost_high := 45000; complexity := 5;
                 cpt_category := "Surgery" |});
    ("97110", {| cpt_name := "Therapeutic exercises";
                 cost_low := 50; cost_high := 150; complexity := 1;
                 cpt_category := "Therapy" |});
    ("97140", {| cpt_name := "Manual therapy techniques";
                 cost_low := 60; cost_high := 180; complexity := 2;
                 cpt_category := "Therapy" |});
    ("20610", {| cpt_name := "Arthrocentesis, major joint";
                 cost_low := 150; cost_high := 400; complexity := 2;
                 cpt_category := "Procedure" |});
    ("96372", {| cpt_name := "Therapeutic injection, subcutaneous or intramuscular";
                 cost_low := 25; cost_high := 75; complexity := 1;
                 cpt_category := "Procedure" |});
    ("45378", {| cpt_name := "Colonoscopy, diagnostic";
                 cost_low := 800; cost_high := 3000; complexity := 4;
                 cpt_category := "Procedure" |});
    ("45380", {| cpt_name := "Colonoscopy with biopsy";
                 cost_low := 1000; cost_high := 3500; complexity := 4;
                 cpt_category := "Procedure" |}) ]%Z.

Definition APPROPRIATE_COMBINATIONS : dict (list string) :=
  [ ("E11.9", ["99213"; "99214"; "80053"; "85025"]);
    ("E11.65", ["99214"; "99215"; "80053"; "85025"]);
    ("I10", ["99213"; "99214"; "93000"; "80053"]);
    ("M54.5", ["99213"; "99214"; "97110"; "97140"; "20610"]);
    ("I21.9", ["99285"; "99215"; "93000"; "93015"; "70450"]);
    ("Z00.00", ["99213"; "99203"; "80053"; "85025"]) ].

(** Combinations with a diagnosis the table does not list count as
    appropriate. *)
Definition is_appropriate_combination (diagnosis_code procedure_code : string) : bool :=
  match dict_get APPROPRIATE_COMBINATIONS diagnosis_code with
  | Some procedures => mem procedure_code procedures
  | None => true
  end.

Definition get_typical_cost (procedure_code : string) : Z * Z :=
  match dict_get CPT_CODES procedure_code with
  | Some code => (cost_low code, cost_high code)
  | None => (0, 0)%Z
  end.

(* ================================================================== *)
(** ** Detection endpoint  ([fraud_detection.py], for a ready service) *)



(* ================================================================== *)
(** * Properties *)

(** ** Basic facts *)

Lemma mem_In x xs : mem x xs = true <-> In x xs.
Proof.
  unfold mem. rewrite existsb_exists. split.
  - intros [y [Hy E]]. apply String.eqb_eq in E. now subst.
  - intros H. exists x. split; [assumption | apply String.eqb_refl].
Qed.

Lemma mem_false x xs : mem x xs = false <-> ~ In x xs.
Proof.
  rewrite <- mem_In. destruct (mem x xs); split; congruence.
Qed.

Lemma Qle_bool_false a b : Qle_bool a b = false <-> b < a.
Proof.
  rewrite <- not_true_iff_false, Qle_bool_iff. split; intros H; lra.
Qed.

(** Turns every boolean comparison of rationals in the goal into the
    order fact it decides. *)
Ltac qcases :=
  repeat match goal with
         | |- context [Qle_bool ?a ?b] =>
             let E := fresh "E" in
             destruct (Qle_bool a b) eqn:E;
             [ apply Qle_bool_iff in E | apply Qle_bool_false in E ]
         end.

Lemma risk_level_critical p : risk_level p = CRITICAL <-> 8 # 10 <= p.
Proof. unfold risk_level. qcases; split; intros H; try discriminate; try lra; reflexivity. Qed.

Lemma risk_level_high p : risk_level p = HIGH <-> 6 # 10 <= p /\ p < 8 # 10.
Proof. unfold risk_level. qcases; split; intros H; try discriminate; try lra; reflexivity. Qed.

Lemma risk_level_medium p : risk_level p = MEDIUM <-> 4 # 10 <= p /\ p < 6 # 10.
Proof. unfold risk_level. qcases; split; intros H; try discriminate; try lra; reflexivity. Qed.

Lemma risk_level_low p : risk_level p = LOW <-> 2 # 10 <= p /\ p < 4 # 10.
Proof. unfold risk_level. qcases; split; intros H; try discriminate; try lra; reflexivity. Qed.

Lemma risk_level_minimal p : risk_level p = MINIMAL <-> p < 2 # 10.
Proof. unfold risk_level. qcases; split; intros H; try discriminate; try lra; reflexivity. Qed.

Lemma risk_level_monotone p q :
  p <= q -> (severity (risk_level p) <= severity (risk_level q))%nat.
Proof.
  intros Hpq. unfold risk_level. qcases; simpl; try lia; exfalso; lra.
Qed.

(** The boundary values the specification lists. *)
Example risk_level_boundaries :
  risk_level (80 # 100) = CRITICAL /\ risk_level (7999 # 10000) = HIGH /\
  risk_level (60 # 100) = HIGH /\ risk_level (20 # 100) = LOW /\
  risk_level (1999 # 10000) = MINIMAL.
Proof. repeat split. Qed.

(** ** Risk assessment *)

(** Every assessment is built from the claim id, the prediction and the
    probability found at one position of the three zipped lists, and
    from the row of [X] at that position. *)
Lemma assess_from_In top X a :
  forall cs ps qs i,
    In a (assess_from top X i cs ps qs) ->
    exists j,
      nth_error cs j = Some (a_claim_id a) /\
      nth_error qs j = Some (fraud_probability a) /\
      a_risk_level a = risk_level (fraud_probability a) /\
      confidence a = confidence_of (fraud_probability a) /\
      risk_factors a = firstn 3 (collect_risk_factors top (iloc X (i + j))).
Proof.
  induction cs as [|c cs IH]; intros ps qs i H; simpl in H; [contradiction|].
  destruct ps as [|p ps]; [contradiction|].
  destruct qs as [|q qs]; [contradiction|].
  destruct H as [H | H].
  - exists 0%nat. subst a. simpl. rewrite Nat.add_0_r. repeat split.
  - destruct (IH _ _ _ H) as [j (H1 & H2 & H3 & H4 & H5)].
    exists (S j). simpl. rewrite Nat.add_succ_r. repeat split; assumption.
Qed.

Lemma In_firstn_In {A : Type} (n : nat) (l : list A) (x : A) :
  In x (firstn n l) -> In x l.
Proof.
  revert l. induction n as [|n IH]; intros [|y l] H; simpl in H; try contradiction.
  destruct H as [H | H]; [left; assumption | right; apply IH; assumption].
Qed.

Lemma collect_risk_factors_In top r f :
  In f (collect_risk_factors top r) ->
  In (factor f) (firstn 5 top) /\
  row_get r (factor f) = Some (value f) /\
  f_gt (f_abs (value f)) (Fin (1 # 10)).
Proof.
  unfold collect_risk_factors. rewrite in_flat_map.
  intros [feature [Hin Hf]].
  destruct (row_get r feature) as [v|] eqn:Hget; [|contradiction].
  destruct (f_gtb (f_abs v) (Fin (1 # 10))) eqn:Hgt; [|contradiction].
  destruct Hf as [Hf | []]. subst f. simpl. repeat split; assumption.
Qed.

(** C2. For every assessment returned by [assess_claims], with p its
    probability: the level is CRITICAL iff p >= 0.80, HIGH iff
    0.60 <= p < 0.80, MEDIUM iff 0.40 <= p < 0.60, LOW iff
    0.20 <= p < 0.40 and MINIMAL iff p < 0.20, each band being closed at
    its lower bound; and of two assessments the one with the larger
    probability has a level at least as severe. *)
Theorem assess_claims_risk_level m X claim_ids a :
  In a (assess_claims m X claim_ids) ->
  let p := fraud_probability a in
  (a_risk_level a = CRITICAL <-> 8 # 10 <= p) /\
  (a_risk_level a = HIGH <-> 6 # 10 <= p /\ p < 8 # 10) /\
  (a_risk_level a = MEDIUM <-> 4 # 10 <= p /\ p < 6 # 10) /\
  (a_risk_level a = LOW <-> 2 # 10 <= p /\ p < 4 # 10) /\
  (a_risk_level a = MINIMAL <-> p < 2 # 10) /\
  (p == 8 # 10 -> a_risk_level a = CRITICAL) /\
  (forall m' X' claim_ids' b,
      In b (assess_claims m' X' claim_ids') ->
      p <= fraud_probability b ->
      (severity (a_risk_level a) <= severity (a_risk_level b))%nat).
Proof.
  intros Ha p.
  destruct (assess_from_In _ _ _ _ _ _ _ Ha) as [j (_ & _ & Hl & _)].
  rewrite Hl. fold p.
  split; [apply risk_level_critical|].
  split; [apply risk_level_high|].
  split; [apply risk_level_medium|].
  split; [apply risk_level_low|].
  split; [apply risk_level_minimal|].
  split.
  - intros E. apply risk_level_critical. lra.
  - intros m' X' ids' b Hb Hle.
    destruct (assess_from_In _ _ _ _ _ _ _ Hb) as [j' (_ & _ & Hl' & _)].
    rewrite Hl'. apply risk_level_monotone. exact Hle.
Qed.

(** C7. The risk factors of every assessment are at most three; each
    names one of the ten most important features of the model and
    carries the value of that feature in the row of the assessed claim,
    a value whose absolute value exceeds 0.1. *)
Theorem assess_claims_risk_factors m X claim_ids a :
  In a (assess_claims m X claim_ids) ->
  (List.length (risk_factors a) <= 3)%nat /\
  exists i,
    nth_error claim_ids i = Some (a_claim_id a) /\
    forall f, In f (risk_factors a) ->
      In (factor f) (map fst (firstn 10 (get_feature_importance m))) /\
      row_get (iloc X i) (factor f) = Some (value f) /\
      f_gt (f_abs (value f)) (Fin (1 # 10)).
Proof.
  intros Ha.
  destruct (assess_from_In _ _ _ _ _ _ _ Ha) as [j (Hid & _ & _ & _ & Hf)].
  change (0 + j)%nat with j in Hf. split.
  - rewrite Hf. apply firstn_le_length.
  - exists j. split; [assumption|].
    intros f Hin. rewrite Hf in Hin. apply In_firstn_In in Hin.
    apply collect_risk_factors_In in Hin. destruct Hin as (H5 & Hv & Hgt).
    repeat split; try assumption.
    eapply In_firstn_In. exact H5.
Qed.

(** The loop reads the first five features of the ranking only. *)
Lemma risk_factors_among_top_five m X claim_ids a f :
  In a (assess_claims m X claim_ids) -> In f (risk_factors a) ->
  In (factor f) (firstn 5 (map fst (get_feature_importance m))).
Proof.
  intros Ha Hin.
  destruct (assess_from_In _ _ _ _ _ _ _ Ha) as [j (_ & _ & _ & _ & Hf)].
  rewrite Hf in Hin. apply In_firstn_In in Hin.
  apply collect_risk_factors_In in Hin. destruct Hin as (H5 & _).
  rewrite <- firstn_map in H5. rewrite firstn_firstn in H5. exact H5.
Qed.

(** The ranking lists every feature of the schema once, by decreasing
    importance. *)

Lemma insert_desc_perm x l : Permutation (insert_desc x l) (x :: l).
Proof.
  induction l as [|y l IH]; simpl; [apply Permutation_refl|].
  destruct (Qle_bool (snd y) (snd x)); [apply Permutation_refl|].
  apply perm_trans with (y :: x :: l); [apply perm_skip, IH | apply perm_swap].
Qed.

Lemma insert_desc_sorted x l :
  StronglySorted more_important l -> StronglySorted more_important (insert_desc x l).
Proof.
  induction l as [|y l IH]; intros Hs; simpl.
  - constructor; constructor.
  - inversion Hs as [|? ? Hs' Hall]; subst.
    destruct (Qle_bool (snd y) (snd x)) eqn:E.
    + apply Qle_bool_iff in E. constructor; [assumption|].
      constructor; [exact E|].
      eapply Forall_impl; [|exact Hall].
      intros z Hz. unfold more_important in *. lra.
    + apply Qle_bool_false in E. constructor; [apply IH; assumption|].
      apply Forall_forall. intros z Hz.
      apply (Permutation_in _ (insert_desc_perm x l)) in Hz.
      destruct Hz as [<- | Hz].
      * unfold more_important. lra.
      * rewrite Forall_forall in Hall. apply Hall. exact Hz.
Qed.

Lemma get_feature_importance_ranking m :
  StronglySorted more_important (get_feature_importance m) /\
  Permutation (get_feature_importance m)
              (combine (feature_names m) (feature_importances_ m)).
Proof.
  unfold get_feature_importance.
  induction (combine (feature_names m) (feature_importances_ m)) as [|x l [IH1 IH2]];
    simpl.
  - split; constructor.
  - split; [apply insert_desc_sorted; exact IH1|].
    apply perm_trans with (x :: fold_right insert_desc [] l);
      [apply insert_desc_perm | apply perm_skip, IH2].
Qed.

(** ** Explanation engine *)

Lemma red_flag_of_id i f flag : In flag (red_flag_of i f) -> rf_id flag = i.
Proof.
  unfold red_flag_of.
  destruct (dict_get EXPLANATION_TEMPLATES (factor f)) as [t|].
  - destruct (should_flag (threshold t) (value f)); simpl; [|contradiction].
    intros [H | []]. now subst flag.
  - destruct (f_gtb (f_abs (value f)) (Fin 1)); simpl; [|contradiction].
    intros [H | []]. now subst flag.
Qed.

Lemma red_flags_from_In flag :
  forall rfs i,
    In flag (red_flags_from i rfs) <->
    exists j f, nth_error rfs j = Some f /\ In flag (red_flag_of (i + j) f).
Proof.
  induction rfs as [|f0 rfs IH]; intros i; simpl.
  - split; [contradiction|]. intros [j [f [H _]]]. destruct j; discriminate.
  - rewrite in_app_iff, IH. split.
    + intros [H | [j [f [H1 H2]]]].
      * exists 0%nat, f0. rewrite Nat.add_0_r. split; [reflexivity | assumption].
      * exists (S j), f. rewrite Nat.add_succ_r. split; assumption.
    + intros [[|j] [f [H1 H2]]]; simpl in H1.
      * left. injection H1 as ->. rewrite Nat.add_0_r in H2. assumption.
      * right. exists j, f. rewrite Nat.add_succ_r in H2. split; assumption.
Qed.

Lemma should_flag_spec t v :
  should_flag t v = true <->
  (0 <= t /\ f_ge v (Fin t)) \/ (t < 0 /\ f_le v (Fin (Qabs t))).
Proof.
  unfold should_flag, f_ge, f_le.
  destruct (Qle_bool 0 t) eqn:E.
  - apply Qle_bool_iff in E. simpl. rewrite orb_false_r. split.
    + intros H. left. split; assumption.
    + intros [[_ H] | [H _]]; [assumption | lra].
  - apply Qle_bool_false in E. simpl. split.
    + intros H. right. split; assumption.
    + intros [[H _] | [_ H]]; [lra | assumption].
Qed.

(** A factor with a template is flagged exactly when [should_flag] holds
    of the template's threshold and the factor's value. *)
Lemma flagged_iff_should_flag rfs j f t :
  nth_error rfs j = Some f ->
  dict_get EXPLANATION_TEMPLATES (factor f) = Some t ->
  (exists flag, In flag (_generate_red_flags rfs) /\ rf_id flag = S j) <->
  should_flag (threshold t) (value f) = true.
Proof.
  intros Hnth Ht. unfold _generate_red_flags. split.
  - intros [flag [Hin Hid]].
    apply red_flags_from_In in Hin. destruct Hin as [j' [f' [Hn' Hin]]].
    pose proof (red_flag_of_id _ _ _ Hin) as Hid'.
    assert (j' = j) by lia. subst j'.
    rewrite Hnth in Hn'. injection Hn' as <-.
    unfold red_flag_of in Hin. rewrite Ht in Hin.
    destruct (should_flag (threshold t) (value f)); [reflexivity | contradiction].
  - intros Hs.
    eexists. split.
    + apply red_flags_from_In. exists j, f. split; [exact Hnth|].
      unfold red_flag_of. rewrite Ht, Hs. left. reflexivity.
    + reflexivity.
Qed.

(** C8. For a risk factor whose name has a rule template with threshold
    t, a red flag carrying the factor's number is emitted exactly when
    the value is >= t if t is non-negative, and exactly when the value
    is <= |t| if t is negative; for days_since_policy_start
    (threshold -30) that is: exactly when the value is <= 30. *)
Theorem red_flag_threshold_rule rfs j f t :
  nth_error rfs j = Some f ->
  dict_get EXPLANATION_TEMPLATES (factor f) = Some t ->
  let flagged :=
    exists flag, In flag (_generate_red_flags rfs) /\ rf_id flag = S j in
  (0 <= threshold t -> (flagged <-> f_ge (value f) (Fin (threshold t)))) /\
  (threshold t < 0 -> (flagged <-> f_le (value f) (Fin (Qabs (threshold t))))) /\
  (factor f = "days_since_policy_start" -> (flagged <-> f_le (value f) (Fin 30))).
Proof.
  intros Hnth Ht flagged.
  pose proof (flagged_iff_should_flag _ _ _ _ Hnth Ht) as Hiff. fold flagged in Hiff.
  rewrite should_flag_spec in Hiff.
  split; [|split].
  - intros Hpos. rewrite Hiff. split.
    + intros [[_ H] | [H _]]; [assumption | lra].
    + intros H. left. split; assumption.
  - intros Hneg. rewrite Hiff. split.
    + intros [[H _] | [_ H]]; [lra | assumption].
    + intros H. right. split; assumption.
  - intros Hname. rewrite Hname in Ht. vm_compute in Ht. injection Ht as <-.
    rewrite Hiff. simpl threshold. split.
    + intros [[H _] | [_ H]]; [exfalso; revert H; clear; intros H; vm_compute in H; apply H; reflexivity | exact H].
    + intros H. right. split; [reflexivity | exact H].
Qed.

(** ** Alignment *)

Lemma flat_map_ext_In {A B : Type} (f g : A -> list B) (l : list A) :
  (forall a, In a l -> f a = g a) -> flat_map f l = flat_map g l.
Proof.
  induction l as [|x l IH]; intros H; simpl; [reflexivity|].
  rewrite (H x (or_introl eq_refl)). f_equal. apply IH.
  intros a Ha. apply H. now right.
Qed.

Lemma NoDup_snoc {A : Type} (l : list A) (x : A) :
  NoDup l -> ~ In x l -> NoDup (l ++ [x]).
Proof.
  induction l as [|y l IH]; intros Hnd Hx; simpl.
  - constructor; [intros [] | constructor].
  - inversion Hnd as [|? ? Hy Hnd']; subst. constructor.
    + rewrite in_app_iff. intros [H | [H | []]]; [contradiction|].
      subst. apply Hx. now left.
    + apply IH; [assumption|]. intros H. apply Hx. now right.
Qed.

Lemma getitem_In X n c : In c (getitem X n) <-> In c (df_cols X) /\ fst c = n.
Proof.
  unfold getitem. rewrite filter_In, String.eqb_eq. reflexivity.
Qed.

Lemma filter_none {A : Type} (p : A -> bool) (l : list A) :
  (forall x, In x l -> p x = false) -> filter p l = [].
Proof.
  induction l as [|x l IH]; intros H; simpl; [reflexivity|].
  rewrite (H x (or_introl eq_refl)). apply IH. intros y Hy. apply H. now right.
Qed.

Lemma filter_label_absent (cols : list (string * list fval)) n :
  ~ In n (map fst cols) -> filter (fun c => String.eqb (fst c) n) cols = [].
Proof.
  intros H. apply filter_none. intros c Hc. apply String.eqb_neq.
  intros E. apply H. rewrite <- E. apply in_map. exact Hc.
Qed.

(** In a frame without repeated labels, a label selects one column. *)
Lemma filter_label_present (cols : list (string * list fval)) n :
  NoDup (map fst cols) -> In n (map fst cols) ->
  exists vs, filter (fun c => String.eqb (fst c) n) cols = [(n, vs)].
Proof.
  induction cols as [|[n0 vs0] cols IH]; simpl; intros Hnd Hin; [contradiction|].
  inversion Hnd as [|? ? Hnot Hnd']; subst.
  destruct (String.eqb n0 n) eqn:E.
  - apply String.eqb_eq in E. subst n0. exists vs0.
    rewrite (filter_label_absent _ _ Hnot). reflexivity.
  - apply String.eqb_neq in E. destruct Hin as [Hin | Hin]; [contradiction|].
    apply IH; assumption.
Qed.

(** Selecting the labels of a frame, in order, returns its columns. *)
Lemma select_own_columns (cols : list (string * list fval)) :
  NoDup (map fst cols) ->
  flat_map (fun n => filter (fun c => String.eqb (fst c) n) cols) (map fst cols) = cols.
Proof.
  induction cols as [|[n0 vs0] cols IH]; simpl; intros Hnd; [reflexivity|].
  inversion Hnd as [|? ? Hnot Hnd']; subst.
  rewrite String.eqb_refl. rewrite (filter_label_absent _ _ Hnot). simpl. f_equal.
  rewrite <- (IH Hnd') at 2.
  apply flat_map_ext_In. intros n Hn.
  destruct (String.eqb n0 n) eqn:E; [|reflexivity].
  apply String.eqb_eq in E. subst n0. contradiction.
Qed.

Lemma add_missing_len fn : forall X, df_len (add_missing fn X) = df_len X.
Proof.
  unfold add_missing. induction fn as [|col fn IH]; intros X; simpl; [reflexivity|].
  rewrite IH. destruct (mem col (columns X)); reflexivity.
Qed.

Lemma add_missing_present fn :
  forall X, (forall n, In n fn -> In n (columns X)) -> add_missing fn X = X.
Proof.
  unfold add_missing. induction fn as [|col fn IH]; intros X H; simpl; [reflexivity|].
  assert (Hc : mem col (columns X) = true) by (apply mem_In, H; now left).
  rewrite Hc. apply IH. intros n Hn. apply H. now right.
Qed.

Lemma columns_add_zero X col : columns (add_zero_column X col) = columns X ++ [col].
Proof. unfold columns, add_zero_column. simpl. rewrite map_app. reflexivity. Qed.

Lemma add_missing_NoDup fn :
  forall X, NoDup (columns X) -> NoDup (columns (add_missing fn X)).
Proof.
  unfold add_missing. induction fn as [|col fn IH]; intros X H; simpl; [assumption|].
  destruct (mem col (columns X)) eqn:E; apply IH; [assumption|].
  rewrite columns_add_zero. apply mem_false in E.
  apply NoDup_snoc; assumption.
Qed.

Lemma add_missing_keeps fn n :
  forall X, In n (columns X) -> getitem (add_missing fn X) n = getitem X n.
Proof.
  unfold add_missing. induction fn as [|col fn IH]; intros X H; simpl; [reflexivity|].
  destruct (mem col (columns X)) eqn:E; [apply IH; assumption|].
  rewrite IH by (rewrite columns_add_zero, in_app_iff; now left).
  unfold getitem, add_zero_column. simpl. rewrite filter_app. simpl.
  destruct (String.eqb col n) eqn:En; [|apply app_nil_r].
  apply String.eqb_eq in En. subst col. apply mem_false in E. contradiction.
Qed.

Lemma add_missing_fills fn n :
  forall X, In n fn -> ~ In n (columns X) ->
            getitem (add_missing fn X) n = [(n, repeat (Fin 0) (df_len X))].
Proof.
  unfold add_missing. induction fn as [|col fn IH]; intros X Hin Hnot; simpl; [contradiction|].
  destruct (mem col (columns X)) eqn:E.
  - destruct Hin as [-> | Hin]; [apply mem_In in E; contradiction|].
    apply IH; assumption.
  - destruct (String.eqb col n) eqn:En.
    + apply String.eqb_eq in En. subst col.
      pose proof (add_missing_keeps fn n (add_zero_column X n)) as K.
      unfold add_missing in K. rewrite K by (rewrite columns_add_zero, in_app_iff; right; now left).
      unfold getitem, add_zero_column. simpl. rewrite filter_app. simpl.
      rewrite String.eqb_refl. rewrite filter_label_absent by exact Hnot. reflexivity.
    + apply String.eqb_neq in En. destruct Hin as [Hin | Hin]; [contradiction|].
      rewrite IH; [reflexivity | assumption |].
      rewrite columns_add_zero, in_app_iff. intros [H | [H | []]]; [contradiction | congruence].
Qed.

Lemma add_missing_covers fn :
  forall X n, In n fn -> In n (columns (add_missing fn X)).
Proof.
  unfold add_missing. induction fn as [|col fn IH]; intros X n Hin; simpl; [contradiction|].
  assert (Hmono : forall fn' Y m, In m (columns Y) ->
            In m (columns (fold_left (fun X_aligned c =>
               if mem c (columns X_aligned) then X_aligned
               else add_zero_column X_aligned c) fn' Y))).
  { induction fn' as [|c' fn' IH']; intros Y m Hm; simpl; [assumption|].
    apply IH'. destruct (mem c' (columns Y)); [assumption|].
    rewrite columns_add_zero, in_app_iff. now left. }
  destruct Hin as [-> | Hin]; [|apply IH; assumption].
  apply Hmono. destruct (mem n (columns X)) eqn:E; [apply mem_In; assumption|].
  rewrite columns_add_zero, in_app_iff. right. now left.
Qed.

Lemma select_columns X names :
  NoDup (columns X) -> (forall n, In n names -> In n (columns X)) ->
  columns (select X names) = names.
Proof.
  intros Hnd. unfold columns, select. simpl.
  induction names as [|n names IH]; intros H; simpl; [reflexivity|].
  rewrite map_app.
  destruct (filter_label_present (df_cols X) n Hnd (H n (or_introl eq_refl))) as [vs E].
  unfold getitem at 1. rewrite E. simpl. f_equal. apply IH.
  intros m Hm. apply H. now right.
Qed.

Lemma align_columns fn X : NoDup (columns X) -> columns (_align_features fn X) = fn.
Proof.
  intros Hnd. unfold _align_features. apply select_columns.
  - apply add_missing_NoDup. exact Hnd.
  - intros n Hn. apply add_missing_covers. exact Hn.
Qed.

Lemma align_aligned fn X :
  NoDup fn -> columns X = fn -> _align_features fn X = X.
Proof.
  intros Hnd Hc. unfold _align_features.
  rewrite add_missing_present by (intros n Hn; rewrite Hc; exact Hn).
  destruct X as [len cols]. unfold select, getitem, columns in *. simpl in *.
  f_equal. subst fn. apply select_own_columns. exact Hnd.
Qed.

Lemma getitem_select X names n :
  NoDup names -> In n names -> getitem (select X names) n = getitem X n.
Proof.
  unfold getitem at 1. unfold select. simpl.
  induction names as [|m names IH]; intros Hnd Hin; simpl; [contradiction|].
  inversion Hnd as [|? ? Hnot Hnd']; subst.
  rewrite filter_app. destruct Hin as [-> | Hin].
  - assert (E1 : filter (fun c => String.eqb (fst c) n) (getitem X n) = getitem X n).
    { unfold getitem. induction (df_cols X) as [|c cs IHc]; simpl; [reflexivity|].
      destruct (String.eqb (fst c) n) eqn:E; simpl; [rewrite E; f_equal|]; exact IHc. }
    rewrite E1.
    assert (E2 : filter (fun c => String.eqb (fst c) n) (flat_map (getitem X) names) = []).
    { apply filter_none. intros c Hc. apply in_flat_map in Hc.
      destruct Hc as [m [Hm Hc]]. apply getitem_In in Hc. destruct Hc as [_ Hc].
      apply String.eqb_neq. rewrite Hc. intros ->. contradiction. }
    rewrite E2. apply app_nil_r.
  - assert (E1 : filter (fun c => String.eqb (fst c) n) (getitem X m) = []).
    { apply filter_none. intros c Hc. apply getitem_In in Hc. destruct Hc as [_ Hc].
      apply String.eqb_neq. rewrite Hc. intros ->. contradiction. }
    rewrite E1. simpl. apply IH; assumption.
Qed.

(** C5. For a schema and a frame without repeated labels: aligning a
    frame whose columns are the schema, in schema order, returns the
    frame unchanged; the aligned frame of any frame has exactly the
    schema's columns in schema order and as many rows; each of its
    columns is the column of that name in X when X has one and a column
    of zeros otherwise; and aligning twice is the same as aligning
    once. *)
Theorem align_features_idempotent (schema : list string) (X : DataFrame) :
  NoDup schema -> NoDup (columns X) ->
  (columns X = schema -> _align_features schema X = X) /\
  columns (_align_features schema X) = schema /\
  df_len (_align_features schema X) = df_len X /\
  (forall n, In n schema ->
     (In n (columns X) -> getitem (_align_features schema X) n = getitem X n) /\
     (~ In n (columns X) ->
        getitem (_align_features schema X) n = [(n, repeat (Fin 0) (df_len X))])) /\
  _align_features schema (_align_features schema X) = _align_features schema X.
Proof.
  intros Hs Hx. split; [|split; [|split; [|split]]].
  - intros Hc. apply align_aligned; assumption.
  - apply align_columns. exact Hx.
  - unfold _align_features, select. simpl. apply add_missing_len.
  - intros n Hn. unfold _align_features. rewrite getitem_select by assumption. split.
    + intros Hin. apply add_missing_keeps. exact Hin.
    + intros Hnot. apply add_missing_fills; assumption.
  - apply align_aligned; [exact Hs | apply align_columns; exact Hx].
Qed.

(** ** Containers *)

Lemma unique_from_In x : forall xs seen,
  In x (unique_from seen xs) <-> In x xs /\ ~ In x seen.
Proof.
  induction xs as [|y xs IH]; intros seen; simpl.
  - tauto.
  - destruct (mem y seen) eqn:E.
    + apply mem_In in E. rewrite IH. split.
      * intros [H1 H2]. split; [now right | assumption].
      * intros [[H1 | H1] H2]; [subst; contradiction | split; assumption].
    + apply mem_false in E. simpl. rewrite IH. simpl. split.
      * intros [H | [H1 H2]]; [subst; split; [now left | assumption]|].
        split; [now right | tauto].
      * intros [[H1 | H1] H2]; [now left|].
        destruct (string_dec y x) as [->|N]; [now left | right; tauto].
Qed.

Lemma unique_In x xs : In x (unique xs) <-> In x xs.
Proof. unfold unique. rewrite unique_from_In. simpl. tauto. Qed.

Lemma unique_from_NoDup : forall xs seen, NoDup (unique_from seen xs).
Proof.
  induction xs as [|y xs IH]; intros seen; simpl; [constructor|].
  destruct (mem y seen); [apply IH|].
  constructor; [|apply IH].
  rewrite unique_from_In. simpl. tauto.
Qed.

Lemma unique_NoDup xs : NoDup (unique xs).
Proof. apply unique_from_NoDup. Qed.

Lemma unique_cons x xs : exists rest, unique (x :: xs) = x :: rest.
Proof. unfold unique. simpl. eexists. reflexivity. Qed.

(** A dictionary filled by one assignment [d[k] = f(k)] per key. *)
Lemma dict_get_comprehension {V : Type} (f : string -> V) (keys : list string) k :
  In k keys -> dict_get (map (fun x => (x, f x)) keys) k = Some (f k).
Proof.
  induction keys as [|k0 keys IH]; simpl; intros Hin; [contradiction|].
  destruct (in_dec string_dec k keys) as [Hk | Hk].
  - rewrite (IH Hk). reflexivity.
  - destruct Hin as [-> | Hin]; [|contradiction].
    assert (E : dict_get (map (fun x => (x, f x)) keys) k = None).
    { clear IH. induction keys as [|k1 keys IH]; simpl; [reflexivity|].
      rewrite IH by (intros H; apply Hk; now right).
      destruct (String.eqb k1 k) eqn:E; [|reflexivity].
      apply String.eqb_eq in E. subst. exfalso. apply Hk. now left. }
    rewrite E, String.eqb_refl. reflexivity.
Qed.

Lemma dict_get_absent {V : Type} (d : dict V) k :
  ~ In k (map fst d) -> dict_get d k = None.
Proof.
  induction d as [|[k0 v] d IH]; simpl; intros H; [reflexivity|].
  rewrite IH by tauto.
  destruct (String.eqb k0 k) eqn:E; [|reflexivity].
  apply String.eqb_eq in E. subst. tauto.
Qed.

Lemma hconcat_map {A : Type} (f g : A -> row) (l : list A) :
  hconcat (map f l) (map g l) = map (fun x => f x ++ g x) l.
Proof. induction l as [|x l IH]; simpl; [reflexivity | now rewrite IH]. Qed.

Lemma row_get_app_skip (r1 r2 : row) name :
  Forall (fun cell => fst cell <> name) r1 ->
  row_get (r1 ++ r2) name = row_get r2 name.
Proof.
  induction r1 as [|[n v] r1 IH]; simpl; intros H; [reflexivity|].
  inversion H as [|? ? Hn Hr]; subst. simpl in Hn.
  apply String.eqb_neq in Hn. rewrite Hn. apply IH. exact Hr.
Qed.

(** ** The frames of the extraction, row by row *)

Section ExtractionRows.

Context {lib : Lib}.
Variable self : FraudFeatureExtractor.

Lemma extract_claim_features_rows subset :
  _extract_claim_features self subset =
  map (claim_cells self (type_levels subset) (status_levels subset)) subset.
Proof.
  unfold _extract_claim_features, claim_cells, get_dummies, type_levels, status_levels.
  destruct (col_claim_type (claim_columns self)),
           (col_claim_status (claim_columns self)),
           (col_admission_type (claim_columns self)),
           (col_length_of_stay (claim_columns self));
    rewrite ?map_map, ?hconcat_map;
    apply map_ext; intros c; simpl;
    rewrite <- ?app_assoc, ?app_nil_r; reflexivity.
Qed.

Lemma patient_stats_lookup subset c :
  In c subset ->
  dict_get (map (fun pid => (pid, patient_stats_entry (claims_of_patient self pid)))
                (unique (map c_patient_id subset)))
           (c_patient_id c)
  = Some (patient_stats_entry (claims_of_patient self (c_patient_id c))).
Proof.
  intros Hin.
  apply (dict_get_comprehension
           (fun pid => patient_stats_entry (claims_of_patient self pid))).
  apply unique_In, in_map, Hin.
Qed.

Lemma extract_patient_features_rows subset :
  subset <> [] ->
  _extract_patient_features self subset = Ok (map (patient_cells self) subset).
Proof.
  intros Hne. destruct subset as [|c0 rest]; [congruence|].
  unfold _extract_patient_features.
  destruct (unique_cons (c_patient_id c0) (map c_patient_id rest)) as [tl Hu].
  change (map c_patient_id (c0 :: rest))
    with (c_patient_id c0 :: map c_patient_id rest).
  rewrite Hu. rewrite <- Hu.
  change (c_patient_id c0 :: map c_patient_id rest)
    with (map c_patient_id (c0 :: rest)).
  rewrite (patient_stats_lookup (c0 :: rest) c0 (or_introl eq_refl)).
  apply f_equal. apply map_ext_in. intros c Hc.
  unfold dict_get_or at 1.
  cbv zeta. unfold dict_get_or at 1.
  rewrite (patient_stats_lookup (c0 :: rest) c Hc).
  reflexivity.
Qed.

Lemma provider_stats_lookup subset c :
  In c subset ->
  dict_get (map (fun pid => (pid, provider_stats_entry self (claims_of_provider self pid)))
                (unique (map c_provider_id subset)))
           (c_provider_id c)
  = Some (provider_stats_entry self (claims_of_provider self (c_provider_id c))).
Proof.
  intros Hin.
  apply (dict_get_comprehension
           (fun pid => provider_stats_entry self (claims_of_provider self pid))).
  apply unique_In, in_map, Hin.
Qed.

Lemma extract_provider_features_rows subset :
  subset <> [] ->
  _extract_provider_features self subset = Ok (map (provider_cells self) subset).
Proof.
  intros Hne. destruct subset as [|c0 rest]; [congruence|].
  unfold _extract_provider_features.
  destruct (unique_cons (c_provider_id c0) (map c_provider_id rest)) as [tl Hu].
  change (map c_provider_id (c0 :: rest))
    with (c_provider_id c0 :: map c_provider_id rest).
  rewrite Hu. rewrite <- Hu.
  change (c_provider_id c0 :: map c_provider_id rest)
    with (map c_provider_id (c0 :: rest)).
  rewrite (provider_stats_lookup (c0 :: rest) c0 (or_introl eq_refl)).
  apply f_equal. apply map_ext_in. intros c Hc.
  cbv zeta. unfold dict_get_or at 2.
  rewrite (provider_stats_lookup (c0 :: rest) c Hc).
  reflexivity.
Qed.

Lemma extract_temporal_features_rows subset :
  _extract_temporal_features self subset = map (temporal_cells self) subset.
Proof.
  unfold _extract_temporal_features. apply map_ext_in. intros c Hc.
  unfold temporal_cells, patient_first_claim, claim_frequency, dict_get_or.
  rewrite (dict_get_comprehension
             (fun pid => ts_min (map service_date (claims_of_patient self pid))))
    by (apply unique_In, in_map, Hc).
  rewrite (dict_get_comprehension (frequency_of self))
    by (apply unique_In, in_map, Hc).
  reflexivity.
Qed.

Lemma extract_graph_features_rows subset :
  _extract_graph_features self subset = map (graph_cells self) subset.
Proof. reflexivity. Qed.

Lemma attach_ids_map (f : Claim -> row) subset :
  attach_ids subset (map f subset) =
  map (fun c => {| fr_claim_id := claim_id c; fr_cells := f c |}) subset.
Proof. induction subset as [|c l IH]; simpl; [reflexivity | now rewrite IH]. Qed.

(** Without a requested claim in the table the patient statistics cannot
    be indexed. *)
Lemma extract_all_features_empty cids :
  select_claims self cids = [] ->
  extract_all_features self cids = Raise IndexError.
Proof.
  intros E. unfold extract_all_features. rewrite E. reflexivity.
Qed.

(** With one, the frame has one row per selected claim, in table order. *)
Lemma extract_all_features_rows cids :
  select_claims self cids <> [] ->
  extract_all_features self cids =
  Ok (map (feature_row self (type_levels (select_claims self cids))
                            (status_levels (select_claims self cids)))
          (select_claims self cids)).
Proof.
  intros Hne. unfold extract_all_features. cbv zeta.
  rewrite (extract_patient_features_rows _ Hne).
  rewrite (extract_provider_features_rows _ Hne).
  rewrite extract_claim_features_rows, extract_temporal_features_rows,
    extract_graph_features_rows.
  rewrite !hconcat_map, attach_ids_map. reflexivity.
Qed.

End ExtractionRows.

(** ** Relationship graph *)

Lemma has_edge_endpoints g a c :
  has_edge g a c = true -> In a (nodes g) /\ In c (nodes g).
Proof.
  unfold has_edge, nodes. rewrite existsb_exists. intros [e [He Hj]].
  assert (Hf : In (fst e) (flat_map (fun e => [fst e; snd e]) (g_edges g))
               /\ In (snd e) (flat_map (fun e => [fst e; snd e]) (g_edges g))).
  { split; apply in_flat_map; exists e; simpl; auto. }
  destruct Hf as [Hf Hs].
  unfold joins in Hj. apply orb_true_iff in Hj.
  destruct Hj as [Hj | Hj]; apply andb_true_iff in Hj; destruct Hj as [H1 H2];
    apply String.eqb_eq in H1; apply String.eqb_eq in H2; subst;
    split; apply unique_In, in_or_app; right; assumption.
Qed.

Lemma has_edge_has_node g a c :
  has_edge g a c = true -> has_node g a = true /\ has_node g c = true.
Proof.
  intros H. destruct (has_edge_endpoints _ _ _ H) as [Ha Hc].
  unfold has_node. split; apply mem_In; assumption.
Qed.

Lemma neighbors_In g a c : In c (neighbors g a) <-> has_edge g a c = true.
Proof.
  unfold neighbors. rewrite filter_In. split; [tauto|].
  intros H. split; [|exact H]. apply (has_edge_endpoints _ _ _ H).
Qed.

Lemma walk_in_iff g : forall k a b, walk_in g k a b = true <-> walk g k a b.
Proof.
  induction k as [|k IH]; intros a b; simpl.
  - rewrite String.eqb_eq. split.
    + intros ->. constructor.
    + intros H. inversion H. reflexivity.
  - rewrite existsb_exists. split.
    + intros [c [Hc Hw]]. apply neighbors_In in Hc. apply IH in Hw.
      econstructor; eassumption.
    + intros H. inversion H as [|? ? c ? He Hw]; subst.
      exists c. split; [apply neighbors_In; assumption | apply IH; assumption].
Qed.

Lemma walk_chain g : forall k a b,
  walk g k a b <-> exists l, List.length l = k /\ chain g a l b.
Proof.
  induction k as [|k IH]; intros a b.
  - split.
    + intros H. inversion H; subst. exists []. split; reflexivity.
    + intros [[|c l] [Hl Hc]]; [|discriminate]. simpl in Hc. subst. constructor.
  - split.
    + intros H. inversion H as [|? ? c ? He Hw]; subst.
      apply IH in Hw. destruct Hw as [l [Hl Hc]].
      exists (c :: l). simpl. split; [now rewrite Hl | split; assumption].
    + intros [[|c l] [Hl Hc]]; [discriminate|].
      simpl in Hl, Hc. destruct Hc as [He Hc].
      apply walk_step with c; [assumption|].
      apply IH. exists l. split; [lia | assumption].
Qed.

Lemma chain_suffix g b : forall l1 a c l2,
  chain g a (l1 ++ c :: l2) b -> chain g c l2 b.
Proof.
  induction l1 as [|x l1 IH]; intros a c l2 H; simpl in H.
  - tauto.
  - destruct H as [_ H]. apply IH in H. exact H.
Qed.

(** Cutting the cycles of a walk leaves a walk that repeats no node. *)
Lemma chain_simple g b : forall l a,
  chain g a l b ->
  exists l', chain g a l' b /\ NoDup (a :: l') /\ (List.length l' <= List.length l)%nat.
Proof.
  induction l as [|c l IH]; intros a H.
  - exists []. split; [exact H|]. split; [|lia].
    constructor; [intros [] | constructor].
  - simpl in H. destruct H as [He Hc].
    destruct (IH c Hc) as [l' (Hc' & Hnd & Hlen)].
    destruct (in_dec string_dec a (c :: l')) as [Hin | Hnot].
    + destruct (in_split _ _ Hin) as [l1 [l2 Hsplit]].
      exists l2. split; [|split].
      * apply (chain_suffix g b l1 a a l2). rewrite <- Hsplit.
        simpl. split; assumption.
      * rewrite Hsplit in Hnd. apply NoDup_app_remove_l in Hnd. exact Hnd.
      * assert (Hl : List.length (c :: l') = List.length (l1 ++ a :: l2))
          by (rewrite Hsplit; reflexivity).
        rewrite length_app in Hl. simpl in Hl. simpl. lia.
    + exists (c :: l'). split; [|split].
      * simpl. split; assumption.
      * constructor; assumption.
      * simpl. lia.
Qed.

Lemma chain_nodes g b : forall l a,
  In a (nodes g) -> chain g a l b -> incl (a :: l) (nodes g).
Proof.
  induction l as [|c l IH]; intros a Ha H x Hx.
  - destruct Hx as [<- | []]. exact Ha.
  - simpl in H. destruct H as [He Hc].
    destruct Hx as [<- | Hx]; [exact Ha|].
    apply (IH c); [apply (has_edge_endpoints _ _ _ He) | exact Hc | exact Hx].
Qed.

(** Between two nodes joined by a walk there is a walk with fewer edges
    than the graph has nodes. *)
Lemma walk_bounded g k a b :
  has_node g a = true -> walk g k a b ->
  exists k', (k' < List.length (nodes g))%nat /\ (k' <= k)%nat /\ walk g k' a b.
Proof.
  intros Ha Hw. apply mem_In in Ha.
  apply walk_chain in Hw. destruct Hw as [l [Hl Hc]].
  destruct (chain_simple g b l a Hc) as [l' (Hc' & Hnd & Hlen)].
  exists (List.length l'). split; [|split].
  - pose proof (NoDup_incl_length Hnd (chain_nodes g b l' a Ha Hc')) as Hle.
    simpl in Hle. lia.
  - lia.
  - apply walk_chain. exists l'. split; [reflexivity | assumption].
Qed.

Lemma least_walk_some g a b : forall fuel from d,
  least_walk g a b fuel from = Some d ->
  (from <= d < from + fuel)%nat /\ walk g d a b /\
  (forall k, (from <= k < d)%nat -> ~ walk g k a b).
Proof.
  induction fuel as [|fuel IH]; intros from d H; simpl in H; [discriminate|].
  destruct (walk_in g from a b) eqn:E.
  - injection H as <-. split; [lia|]. split; [apply walk_in_iff; assumption|].
    intros k Hk. lia.
  - destruct (IH _ _ H) as (Hr & Hw & Hmin). split; [lia|]. split; [assumption|].
    intros k Hk Hwk. destruct (Nat.eq_dec k from) as [->|N].
    + apply walk_in_iff in Hwk. congruence.
    + apply (Hmin k); [lia | assumption].
Qed.

Lemma least_walk_none g a b : forall fuel from,
  least_walk g a b fuel from = None ->
  forall k, (from <= k < from + fuel)%nat -> ~ walk g k a b.
Proof.
  induction fuel as [|fuel IH]; intros from H k Hk Hw; simpl in H; [lia|].
  destruct (walk_in g from a b) eqn:E; [discriminate|].
  destruct (Nat.eq_dec k from) as [->|N].
  - apply walk_in_iff in Hw. congruence.
  - apply (IH _ H k); [lia | assumption].
Qed.

(** [nx_shortest_path_length] returns the least number of edges of a walk
    between two nodes, and [None] exactly when no walk joins them. *)
Lemma shortest_path_length_some g a b d :
  nx_shortest_path_length g a b = Some d ->
  walk g d a b /\ forall k, walk g k a b -> (d <= k)%nat.
Proof.
  unfold nx_shortest_path_length. intros H.
  destruct (least_walk_some _ _ _ _ _ _ H) as (Hr & Hw & Hmin).
  split; [assumption|]. intros k Hk.
  destruct (Nat.le_gt_cases d k) as [Hle | Hlt]; [assumption|].
  exfalso. apply (Hmin k); [lia | assumption].
Qed.

Lemma shortest_path_length_none g a b :
  has_node g a = true ->
  nx_shortest_path_length g a b = None -> forall k, ~ walk g k a b.
Proof.
  unfold nx_shortest_path_length. intros Ha H k Hw.
  destruct (walk_bounded g k a b Ha Hw) as [k' (Hlt & _ & Hw')].
  apply (least_walk_none _ _ _ _ _ H k'); [lia | assumption].
Qed.

Lemma graph_distance_edge g a b :
  has_edge g a b = true -> graph_distance g a b = 1%Z.
Proof.
  unfold graph_distance. intros He.
  destruct (has_edge_has_node _ _ _ He) as [-> ->]. simpl.
  rewrite He. reflexivity.
Qed.

(** C9. [graph_distance] is 1 for two nodes joined by an edge; for two
    nodes of the graph that no edge joins but a walk does, it is the
    least number of edges of such a walk; it is 999 when no walk joins
    them, and when either is not a node of the graph. *)
Theorem graph_distance_spec g a b :
  (has_edge g a b = true -> graph_distance g a b = 1%Z) /\
  (forall d,
      has_node g a = true -> has_node g b = true -> has_edge g a b = false ->
      walk g d a b -> (forall k, walk g k a b -> (d <= k)%nat) ->
      graph_distance g a b = Z.of_nat d) /\
  ((forall k, ~ walk g k a b) -> graph_distance g a b = 999%Z) /\
  (has_node g a = false \/ has_node g b = false -> graph_distance g a b = 999%Z).
Proof.
  split; [apply graph_distance_edge|].
  unfold graph_distance. split; [|split].
  - intros d Ha Hb He Hw Hmin. rewrite Ha, Hb, He. simpl.
    destruct (nx_shortest_path_length g a b) as [d'|] eqn:E.
    + destruct (shortest_path_length_some _ _ _ _ E) as [Hw' Hmin'].
      f_equal. apply Nat.le_antisymm; [apply Hmin' | apply Hmin]; assumption.
    + exfalso. exact (shortest_path_length_none _ _ _ Ha E d Hw).
  - intros Hno.
    destruct (has_node g a && has_node g b); [|reflexivity].
    destruct (has_edge g a b) eqn:He.
    + exfalso. apply (Hno 1%nat). apply walk_step with b; [assumption | constructor].
    + destruct (nx_shortest_path_length g a b) as [d'|] eqn:E; [|reflexivity].
      exfalso. apply (Hno d'). apply (shortest_path_length_some _ _ _ _ E).
  - intros [H | H]; rewrite H; [reflexivity | rewrite andb_false_r; reflexivity].
Qed.

(** The graph built by the loader has an edge for every claim of the
    table, so the distance feature of a claim of the table is 1. *)
Lemma build_graph_edges patients providers claims :
  g_edges (_build_graph patients providers claims) =
  map (fun c => (c_patient_id c, c_provider_id c)) claims.
Proof.
  unfold _build_graph.
  assert (H1 : forall ps g, g_edges (fold_left
              (fun g p => add_node g (patient_id p) "patient") ps g) = g_edges g).
  { induction ps as [|p ps IH]; intros g; simpl; [reflexivity | now rewrite IH]. }
  assert (H2 : forall ps g, g_edges (fold_left
              (fun g p => add_node g (provider_id p) "provider") ps g) = g_edges g).
  { induction ps as [|p ps IH]; intros g; simpl; [reflexivity | now rewrite IH]. }
  assert (H3 : forall cs g, g_edges (fold_left
              (fun g c => add_edge g (c_patient_id c) (c_provider_id c)) cs g)
              = g_edges g ++ map (fun c => (c_patient_id c, c_provider_id c)) cs).
  { induction cs as [|c cs IH]; intros g; simpl; [now rewrite app_nil_r|].
    rewrite IH. simpl. rewrite <- app_assoc. reflexivity. }
  rewrite H3, H2, H1. reflexivity.
Qed.

Lemma loaded_claim_distance_one patients providers claims cols c :
  In c claims ->
  graph_distance (graph (load_data patients providers claims cols))
                 (c_patient_id c) (c_provider_id c) = 1%Z.
Proof.
  intros Hin. apply graph_distance_edge.
  unfold has_edge. simpl graph. rewrite build_graph_edges.
  apply existsb_exists. exists (c_patient_id c, c_provider_id c). split.
  - apply (in_map (fun c => (c_patient_id c, c_provider_id c))). exact Hin.
  - unfold joins. simpl. rewrite !String.eqb_refl. reflexivity.
Qed.

(** The distance feature of a claim is [graph_distance] of its patient
    and its provider in the loaded graph. *)
Lemma graph_distance_cell {lib : Lib} (self : FraudFeatureExtractor) c :
  row_get (graph_cells self c) "graph_distance" =
  Some (of_Z (graph_distance (graph self) (c_patient_id c) (c_provider_id c))).
Proof. reflexivity. Qed.

(** ** Feature extraction *)

Lemma q_sum_indicators (l : list bool) : forall a,
  fold_left Qplus (map (fun b : bool => if b then 1 else 0) l) a
  == a + inject_Z (Z.of_nat (List.length (filter (fun b => b) l))).
Proof.
  induction l as [|b l IH]; intros a; simpl.
  - ring.
  - rewrite IH. destruct b; simpl List.length.
    + rewrite Nat2Z.inj_succ. unfold Z.succ. rewrite inject_Z_plus. ring.
    + ring.
Qed.

Lemma filter_map_swap {A B : Type} (f : A -> B) (p : B -> bool) (l : list A) :
  filter p (map f l) = map f (filter (fun x => p (f x)) l).
Proof.
  induction l as [|x l IH]; simpl; [reflexivity|].
  destruct (p (f x)); simpl; now rewrite IH.
Qed.

(** The mean of the labels of a non-empty list of claims is the share of
    the fraudulent ones. *)
Lemma bool_mean_share (l : list Claim) :
  l <> [] ->
  exists q, bool_mean (map is_fraudulent l) = Fin q /\
            q == inject_Z (Z.of_nat (List.length (filter is_fraudulent l)))
                 / inject_Z (Z.of_nat (List.length l)).
Proof.
  intros Hne. unfold bool_mean, series_mean.
  destruct l as [|c l]; [congruence|].
  eexists. split; [reflexivity|].
  unfold q_sum. rewrite q_sum_indicators.
  rewrite !length_map, filter_map_swap, length_map.
  rewrite Qplus_0_l. reflexivity.
Qed.

Section ExtractionProperties.

Context {lib : Lib}.
Variable self : FraudFeatureExtractor.

Lemma select_claims_In cids c :
  In c (select_claims self cids) -> In c (claims_df self).
Proof.
  destruct cids as [ids|]; simpl; [|tauto].
  rewrite filter_In. tauto.
Qed.

Lemma claim_cells_no_p types statuses c :
  Forall (fun cell => p_name (fst cell) = false) (claim_cells self types statuses c).
Proof.
  unfold claim_cells.
  assert (D : forall prefix levels v,
             p_name prefix = false -> prefix <> ""%string ->
             Forall (fun cell => p_name (fst cell) = false)
                    (dummy_cells prefix levels v)).
  { intros prefix levels v Hp Hne. unfold dummy_cells. apply Forall_forall.
    intros cell Hc. apply in_map_iff in Hc. destruct Hc as [level [<- _]].
    simpl. destruct prefix as [|ch rest]; [congruence | exact Hp]. }
  repeat (apply Forall_app; split).
  - repeat constructor.
  - destruct (col_claim_type _); [apply D; [reflexivity | discriminate] | constructor].
  - destruct (col_claim_status _); [apply D; [reflexivity | discriminate] | constructor].
  - destruct (col_admission_type _); repeat constructor.
  - destruct (col_length_of_stay _); repeat constructor.
Qed.

(** A column whose name starts with p is read from the entity cells. *)
Lemma row_get_feature_row types statuses c name :
  p_name name = true ->
  row_get (fr_cells (feature_row self types statuses c)) name =
  row_get (entity_cells self c) name.
Proof.
  intros Hp. unfold feature_row.
  change (row_get (claim_cells self types statuses c ++ entity_cells self c) name
          = row_get (entity_cells self c) name).
  apply row_get_app_skip.
  eapply Forall_impl; [|apply claim_cells_no_p].
  intros cell Hc E. cbv beta in Hc. rewrite E in Hc. congruence.
Qed.

Lemma entity_patient_age c :
  row_get (entity_cells self c) "patient_age" =
  Some (match dict_get (patient_ages self) (c_patient_id c) with
        | Some age => age
        | None => NaN
        end).
Proof. reflexivity. Qed.

Lemma entity_patient_is_male c :
  row_get (entity_cells self c) "patient_is_male" =
  Some (of_bool (String.eqb (dict_get_or (patient_gender self) (c_patient_id c) "M") "M")).
Proof. reflexivity. Qed.

Lemma entity_provider_fraud_rate c :
  row_get (entity_cells self c) "provider_fraud_rate" =
  Some (if col_is_fraudulent (claim_columns self)
        then bool_mean (map is_fraudulent (claims_of_provider self (c_provider_id c)))
        else Fin 0).
Proof. reflexivity. Qed.

Lemma unknown_patient_lookups pid :
  known_patient self pid = false ->
  dict_get (patient_ages self) pid = None /\
  dict_get (patient_gender self) pid = None.
Proof.
  unfold known_patient. intros H.
  assert (Hn : ~ In pid (map patient_id (patients_df self))).
  { intros Hin. apply in_map_iff in Hin. destruct Hin as [p [E Hp]].
    assert (T : existsb (fun p => String.eqb (patient_id p) pid) (patients_df self) = true).
    { apply existsb_exists. exists p. split; [assumption|]. apply String.eqb_eq. exact E. }
    congruence. }
  split; apply dict_get_absent; unfold patient_ages, patient_gender;
    rewrite map_map; simpl; exact Hn.
Qed.

(** The row of a selected claim is in the returned frame. *)
Lemma extract_all_features_has_row cids c :
  In c (select_claims self cids) ->
  exists rows,
    extract_all_features self cids = Ok rows /\
    List.length rows = List.length (select_claims self cids) /\
    In (feature_row self (type_levels (select_claims self cids))
                         (status_levels (select_claims self cids)) c) rows.
Proof.
  intros Hin.
  assert (Hne : select_claims self cids <> []) by (intros E; rewrite E in Hin; exact Hin).
  eexists. split; [apply extract_all_features_rows; exact Hne|].
  split; [apply length_map|]. apply in_map. exact Hin.
Qed.

(** The request is used through membership only: the order of the
    requested ids and their repetitions do not matter. *)
Lemma extract_all_features_order ids1 ids2 :
  (forall x, In x ids1 <-> In x ids2) ->
  extract_all_features self (Some ids1) = extract_all_features self (Some ids2).
Proof.
  intros H.
  assert (E : select_claims self (Some ids1) = select_claims self (Some ids2)).
  { simpl. apply filter_ext. intros c.
    destruct (mem (claim_id c) ids2) eqn:E2.
    - apply mem_In. apply H. apply mem_In. exact E2.
    - apply mem_false. intros Hin. apply H in Hin. apply mem_In in Hin. congruence. }
  unfold extract_all_features. rewrite E. reflexivity.
Qed.

(** Two requests return the same row for a claim they both select when
    the claims they select show the same claim types and statuses; the
    patient, provider, temporal and graph cells are the same in any
    case. *)
Lemma feature_row_same_levels cids1 cids2 c :
  In c (select_claims self cids1) -> In c (select_claims self cids2) ->
  type_levels (select_claims self cids1) = type_levels (select_claims self cids2) ->
  status_levels (select_claims self cids1) = status_levels (select_claims self cids2) ->
  exists rows1 rows2 fr,
    extract_all_features self cids1 = Ok rows1 /\
    extract_all_features self cids2 = Ok rows2 /\
    fr_claim_id fr = claim_id c /\ In fr rows1 /\ In fr rows2.
Proof.
  intros H1 H2 Et Es.
  destruct (extract_all_features_has_row cids1 c H1) as [rows1 (E1 & _ & R1)].
  destruct (extract_all_features_has_row cids2 c H2) as [rows2 (E2 & _ & R2)].
  rewrite Et, Es in R1.
  exists rows1, rows2. eexists. repeat split; try eassumption. reflexivity.
Qed.

(** C10. When no requested id is the id of a claim of the table,
    [extract_all_features] does not return an empty frame: it raises
    the IndexError of [patient_stats[patient_ids[0]]].  It returns a
    frame exactly when the request selects at least one claim. *)
Theorem extract_all_features_unknown_ids (ids : list string) :
  (forall c, In c (claims_df self) -> ~ In (claim_id c) ids) ->
  extract_all_features self (Some ids) = Raise IndexError /\
  extract_all_features self (Some ids) <> Ok [] /\
  (forall cids,
      (exists rows, extract_all_features self cids = Ok rows) <->
      (exists c, In c (select_claims self cids))).
Proof.
  intros Hnone.
  assert (E : select_claims self (Some ids) = []).
  { simpl. apply filter_none. intros c Hc. apply mem_false. apply Hnone. exact Hc. }
  rewrite (extract_all_features_empty self _ E).
  split; [reflexivity|]. split; [discriminate|].
  intros cids. split.
  - intros [rows Hr]. destruct (select_claims self cids) as [|c l] eqn:Es.
    + rewrite (extract_all_features_empty self _ Es) in Hr. discriminate.
    + exists c. now left.
  - intros [c Hc]. destruct (extract_all_features_has_row cids c Hc) as [rows [Hr _]].
    exists rows. exact Hr.
Qed.

(** C4 (as the code has it). A requested claim of the table gets a row
    whether or not the patient table holds its patient, and the
    extraction of the batch succeeds with one row per selected claim;
    for a patient without a record the row carries a missing
    patient_age and the default patient_is_male = 1. *)
Theorem unknown_patient_claim_row cids c :
  In c (select_claims self cids) ->
  exists rows fr,
    extract_all_features self cids = Ok rows /\
    List.length rows = List.length (select_claims self cids) /\
    In fr rows /\ fr_claim_id fr = claim_id c /\
    (known_patient self (c_patient_id c) = false ->
       row_get (fr_cells fr) "patient_age" = Some NaN /\
       row_get (fr_cells fr) "patient_is_male" = Some (Fin 1)).
Proof.
  intros Hin.
  destruct (extract_all_features_has_row cids c Hin) as [rows (E & Hlen & R)].
  exists rows. eexists. split; [exact E|]. split; [exact Hlen|].
  split; [exact R|]. split; [reflexivity|].
  intros Hunk. destruct (unknown_patient_lookups _ Hunk) as [Ha Hg].
  rewrite !row_get_feature_row by reflexivity.
  rewrite entity_patient_age, entity_patient_is_male.
  unfold dict_get_or. rewrite Ha, Hg. split; reflexivity.
Qed.

(** C6. In the row of every selected claim, provider_fraud_rate is the
    number of the provider's claims labeled fraudulent divided by the
    number of its labeled claims, and 0 when the provider has no
    labeled claim. *)
Theorem provider_fraud_rate_empirical cids c :
  In c (select_claims self cids) ->
  exists rows fr q,
    extract_all_features self cids = Ok rows /\
    In fr rows /\ fr_claim_id fr = claim_id c /\
    row_get (fr_cells fr) "provider_fraud_rate" = Some (Fin q) /\
    q == empirical_fraud_rate self (c_provider_id c) /\
    (labeled_claims self (c_provider_id c) = [] -> q == 0) /\
    (forall k n : nat,
        List.length (labeled_claims self (c_provider_id c)) = n ->
        List.length (filter is_fraudulent (labeled_claims self (c_provider_id c))) = k ->
        n <> 0%nat ->
        q == inject_Z (Z.of_nat k) / inject_Z (Z.of_nat n)).
Proof.
  intros Hin.
  destruct (extract_all_features_has_row cids c Hin) as [rows (E & _ & R)].
  assert (Hown : claims_of_provider self (c_provider_id c) <> []).
  { intros Hnil.
    assert (Hc : In c (claims_of_provider self (c_provider_id c))).
    { unfold claims_of_provider. apply filter_In. split.
      - apply (select_claims_In cids c Hin).
      - apply String.eqb_refl. }
    rewrite Hnil in Hc. exact Hc. }
  assert (Hq : exists q,
             row_get (entity_cells self c) "provider_fraud_rate" = Some (Fin q) /\
             q == empirical_fraud_rate self (c_provider_id c)).
  { rewrite entity_provider_fraud_rate.
    unfold empirical_fraud_rate, labeled_claims.
    destruct (col_is_fraudulent (claim_columns self)).
    - destruct (bool_mean_share _ Hown) as [q [Hq1 Hq2]].
      exists q. rewrite Hq1. split; [reflexivity|].
      fold (claims_of_provider self (c_provider_id c)).
      destruct (claims_of_provider self (c_provider_id c)); [congruence | exact Hq2].
    - exists 0. split; reflexivity. }
  destruct Hq as [q [Hq1 Hq2]].
  exists rows. eexists. exists q.
  split; [exact E|]. split; [exact R|]. split; [reflexivity|].
  split; [rewrite row_get_feature_row by reflexivity; exact Hq1|].
  split; [exact Hq2|]. split.
  - intros Hnil. rewrite Hq2. unfold empirical_fraud_rate. rewrite Hnil. reflexivity.
  - intros k n Hn Hk Hpos. rewrite Hq2. unfold empirical_fraud_rate.
    destruct (labeled_claims self (c_provider_id c)) as [|c0 l] eqn:El.
    + simpl in Hn. congruence.
    + rewrite Hn, Hk. reflexivity.
Qed.

Lemma clean_cell_finite v : is_finite (replace_inf0 (fillna0 v)) = true.
Proof. destruct v; reflexivity. Qed.

Lemma clean_cell_value v :
  replace_inf0 (fillna0 v) = if is_finite v then v else Fin 0.
Proof. destruct v; reflexivity. Qed.

Lemma clean_row_finite r :
  Forall (fun cell => is_finite (snd cell) = true) (clean_row r).
Proof.
  unfold clean_row. apply Forall_forall. intros cell Hc.
  apply in_map_iff in Hc. destruct Hc as [cell0 [<- _]]. simpl.
  apply clean_cell_finite.
Qed.

(** C3 (as the code has it). The replacement of NaN and of the
    infinities by 0 is done on the way out of [prepare_training_data]
    and by the detection service before scoring: every cell of those
    matrices is finite, a finite extracted value being kept and any
    other replaced by 0. *)
Theorem cleaned_features_finite :
  (forall X y, prepare_training_data self = Ok (X, y) ->
     Forall (Forall (fun cell => is_finite (snd cell) = true)) X) /\
  (forall cids ids X, detect_features self cids = Ok (ids, X) ->
     Forall (Forall (fun cell => is_finite (snd cell) = true)) X) /\
  (forall r, clean_row r =
     map (fun cell => (fst cell, if is_finite (snd cell) then snd cell else Fin 0)) r).
Proof.
  split; [|split].
  - intros X y H. unfold prepare_training_data in H.
    destruct (extract_all_features self None) as [features_df|e]; [|discriminate].
    destruct (col_is_fraudulent (claim_columns self)); [|discriminate].
    injection H as <- _. apply Forall_forall. intros r Hr.
    apply in_map_iff in Hr. destruct Hr as [x [<- _]]. apply clean_row_finite.
  - intros cids ids X H. unfold detect_features in H.
    destruct (select_claims self (Some cids)) as [|c l].
    + injection H as _ <-. constructor.
    + destruct (extract_all_features self (Some cids)) as [features_df|e]; [|discriminate].
      injection H as _ <-. apply Forall_forall. intros r Hr.
      apply in_map_iff in Hr. destruct Hr as [x [<- _]]. apply clean_row_finite.
  - intros r. unfold clean_row. apply map_ext. intros cell.
    rewrite clean_cell_value. reflexivity.
Qed.

End ExtractionProperties.

(* ================================================================== *)
(** * The properties on the sample data *)

(** C1. The one-hot columns of claim type and claim status follow the
    request: claim A alone is returned without the columns
    claim_type_outpatient and status_Denied, claim A requested together
    with claim B is returned with them; the specialty column, built from
    the whole provider table, is there in both.  [get_feature_names]
    therefore lists the levels of the first claim only. *)
Theorem one_hot_columns_follow_request :
  let alone := extract_all_features (lib := sample_lib) sample_store (Some ["A"]) in
  let both := extract_all_features (lib := sample_lib) sample_store (Some ["A"; "B"]) in
  claim_ids_of alone = Ok ["A"] /\
  claim_ids_of both = Ok ["A"; "B"] /\
  cell_of alone "A" "claim_type_outpatient" = None /\
  cell_of both "A" "claim_type_outpatient" = Some (Fin 0) /\
  cell_of alone "A" "status_Denied" = None /\
  cell_of both "A" "status_Denied" = Some (Fin 0) /\
  cell_of alone "A" "specialty_Cardiology" = Some (Fin 1) /\
  cell_of both "A" "specialty_Cardiology" = Some (Fin 1) /\
  match get_feature_names (lib := sample_lib) sample_store with
  | Ok names => mem "claim_type_inpatient" names = true /\
                mem "claim_type_outpatient" names = false
  | Raise _ => False
  end.
Proof. vm_compute. repeat split. Qed.

(** The rows of claim A in the two requests differ in their columns
    whatever the library routines are. *)
Lemma one_hot_columns_any_lib (lib : Lib) :
  headers (extract_all_features sample_store (Some ["A"])) <>
  headers (extract_all_features sample_store (Some ["A"; "B"])).
Proof. vm_compute. discriminate. Qed.

(** C3, as stated, fails: the row [extract_all_features] returns for
    claim C, whose patient has no record, has a NaN in patient_age. *)
Lemma extract_all_features_returns_nan :
  cell_of (extract_all_features (lib := sample_lib) sample_store (Some ["C"]))
          "C" "patient_age" = Some NaN /\
  is_finite NaN = false.
Proof. vm_compute. split; reflexivity. Qed.

(** C4, as stated, fails: claim C names patient P9, the patient table
    has no P9, and the extraction of the batch A, C returns a row for
    C. *)
Lemma unknown_patient_claim_is_kept :
  known_patient sample_store "P9" = false /\
  In (mk_claim "C" "P9" "D2" 80 738902 "inpatient" "Approved" false)
     (claims_df sample_store) /\
  claim_ids_of (extract_all_features (lib := sample_lib) sample_store (Some ["A"; "C"]))
  = Ok ["A"; "C"].
Proof.
  split; [reflexivity|]. split; [right; right; left; reflexivity|].
  vm_compute. reflexivity.
Qed.

(** The two scenarios of the specification for C6: three fraudulent
    claims of ten give 0.3, none of ten gives 0. *)
Example fraud_rate_three_of_ten :
  cell_of (extract_all_features (lib := sample_lib) rate_store None)
          "X0" "provider_fraud_rate" = Some (Fin (3 # 10)).
Proof. vm_compute. reflexivity. Qed.

Example fraud_rate_none_of_ten :
  exists q,
    cell_of (extract_all_features (lib := sample_lib) rate_store None)
            "Y0" "provider_fraud_rate" = Some (Fin q) /\ q == 0.
Proof. eexists. split; [vm_compute; reflexivity | reflexivity]. Qed.

(** ** Instances of the theorems *)

Lemma assess_claims_risk_level_witness :
  exists a,
    In a (assess_claims sample_model sample_frame ["A"; "B"]) /\
    (a_risk_level a = CRITICAL <-> 8 # 10 <= fraud_probability a).
Proof.
  eexists. split.
  - left. reflexivity.
  - apply (assess_claims_risk_level sample_model sample_frame ["A"; "B"]).
    left. reflexivity.
Defined.

Lemma assess_claims_risk_factors_witness :
  exists a,
    In a (assess_claims sample_model sample_frame ["A"; "B"]) /\
    (List.length (risk_factors a) <= 3)%nat.
Proof.
  eexists. split.
  - left. reflexivity.
  - apply (assess_claims_risk_factors sample_model sample_frame ["A"; "B"]).
    left. reflexivity.
Defined.

Lemma red_flag_threshold_rule_witness :
  (exists flag,
      In flag (_generate_red_flags
                 [ {| factor := "days_since_policy_start"; value := Fin 12 |};
                   {| factor := "provider_fraud_rate"; value := Fin (1 # 10) |} ])
      /\ rf_id flag = 1%nat)
  <-> f_le (Fin 12) (Fin 30).
Proof.
  refine (proj2 (proj2
    (red_flag_threshold_rule
       [ {| factor := "days_since_policy_start"; value := Fin 12 |};
         {| factor := "provider_fraud_rate"; value := Fin (1 # 10) |} ]
       0%nat _ _ eq_refl eq_refl)) eq_refl).
Defined.

Lemma align_features_idempotent_witness :
  _align_features sample_schema (_align_features sample_schema sample_frame)
  = _align_features sample_schema sample_frame.
Proof.
  apply (align_features_idempotent sample_schema sample_frame).
  - repeat constructor; simpl; intuition discriminate.
  - repeat constructor; simpl; intuition discriminate.
Defined.

Lemma graph_distance_spec_witness :
  graph_distance sample_graph "P1" "D1" = 1%Z /\
  graph_distance sample_graph "P1" "D2" = 3%Z /\
  graph_distance sample_graph "P1" "P3" = 999%Z /\
  graph_distance sample_graph "P1" "ZZ" = 999%Z.
Proof.
  split; [|split; [|split]].
  - apply (graph_distance_spec sample_graph "P1" "D1"). reflexivity.
  - apply (proj1 (proj2 (graph_distance_spec sample_graph "P1" "D2")) 3%nat);
      try reflexivity.
    + apply walk_in_iff. reflexivity.
    + intros k Hk. apply walk_in_iff in Hk.
      destruct k as [|[|[|k]]]; try lia; vm_compute in Hk; discriminate.
  - apply (proj1 (proj2 (proj2 (graph_distance_spec sample_graph "P1" "P3")))).
    apply shortest_path_length_none; reflexivity.
  - apply (proj2 (proj2 (proj2 (graph_distance_spec sample_graph "P1" "ZZ")))).
    right. reflexivity.
Defined.

Lemma extract_all_features_unknown_ids_witness :
  extract_all_features (lib := sample_lib) sample_store (Some ["Z1"; "Z2"])
  = Raise IndexError.
Proof.
  apply (extract_all_features_unknown_ids (lib := sample_lib) sample_store ["Z1"; "Z2"]).
  intros c Hc. simpl in Hc.
  destruct Hc as [<- | [<- | [<- | []]]]; simpl; intuition discriminate.
Defined.

Lemma unknown_patient_claim_row_witness :
  exists rows fr,
    extract_all_features (lib := sample_lib) sample_store (Some ["A"; "C"]) = Ok rows /\
    List.length rows = 2%nat /\
    In fr rows /\ fr_claim_id fr = "C" /\
    row_get (fr_cells fr) "patient_age" = Some NaN /\
    row_get (fr_cells fr) "patient_is_male" = Some (Fin 1).
Proof.
  destruct (unknown_patient_claim_row (lib := sample_lib) sample_store
              (Some ["A"; "C"])
              (mk_claim "C" "P9" "D2" 80 738902 "inpatient" "Approved" false))
    as [rows [fr (E & Hlen & Hin & Hid & Hcells)]].
  - right. left. reflexivity.
  - exists rows, fr. split; [exact E|]. split; [exact Hlen|].
    split; [exact Hin|]. split; [exact Hid|].
    apply Hcells. reflexivity.
Defined.

Lemma provider_fraud_rate_empirical_witness :
  exists rows fr q,
    extract_all_features (lib := sample_lib) rate_store None = Ok rows /\
    In fr rows /\ fr_claim_id fr = "X0" /\
    row_get (fr_cells fr) "provider_fraud_rate" = Some (Fin q) /\
    q == 3 # 10.
Proof.
  destruct (provider_fraud_rate_empirical (lib := sample_lib) rate_store None
              (mk_claim "X0" "P1" "D1" 100 738900 "outpatient" "Approved" true))
    as [rows [fr [q (E & Hin & Hid & Hcell & _ & _ & Hrate)]]].
  - left. reflexivity.
  - exists rows, fr, q. split; [exact E|]. split; [exact Hin|].
    split; [exact Hid|]. split; [exact Hcell|].
    apply (Hrate 3%nat 10%nat); [reflexivity | reflexivity | discriminate].
Defined.

Lemma cleaned_features_finite_witness :
  exists X y,
    prepare_training_data (lib := sample_lib) sample_store = Ok (X, y) /\
    Forall (Forall (fun cell => is_finite (snd cell) = true)) X.
Proof.
  destruct (prepare_training_data (lib := sample_lib) sample_store)
    as [[X y]|e] eqn:E; [|vm_compute in E; discriminate].
  exists X, y. split; [reflexivity|].
  apply (proj1 (cleaned_features_finite (lib := sample_lib) sample_store) X y E).
Defined.

(* ================================================================== *)
(** * Further properties *)

(** ** Explanation engine *)

Lemma red_flag_of_single i f :
  (List.length (red_flag_of i f) <= 1)%nat /\
  forall flag, In flag (red_flag_of i f) -> rf_id flag = i /\ rf_value flag = value f.
Proof.
  unfold red_flag_of.
  destruct (dict_get EXPLANATION_TEMPLATES (factor f)) as [t|].
  - destruct (should_flag (threshold t) (value f)); simpl; split; try lia;
      intros flag H; try contradiction.
    destruct H as [<- | []]. split; reflexivity.
  - destruct (f_gtb (f_abs (value f)) (Fin 1)); simpl; split; try lia;
      intros flag H; try contradiction.
    destruct H as [<- | []]. split; reflexivity.
Qed.

Lemma red_flags_from_shape : forall rfs i,
  (List.length (red_flags_from i rfs) <= List.length rfs)%nat /\
  StronglySorted lt (map rf_id (red_flags_from i rfs)) /\
  Forall (fun flag => (i <= rf_id flag < i + List.length rfs)%nat)
         (red_flags_from i rfs).
Proof.
  induction rfs as [|f rfs IH]; intros i; simpl.
  - split; [lia|]. split; constructor.
  - destruct (IH (S i)) as (Hlen & Hs & Hr).
    destruct (red_flag_of_single i f) as [H1 Hid].
    destruct (red_flag_of i f) as [|flag [|flag' rest]] eqn:E; simpl in *; try lia.
    + split; [lia|]. split; [exact Hs|].
      eapply Forall_impl; [|exact Hr]. intros x Hx. cbv beta in *. lia.
    + destruct (Hid flag (or_introl eq_refl)) as [Hi _].
      split; [lia|]. split.
      * constructor; [exact Hs|]. apply Forall_forall. intros n Hn.
        apply in_map_iff in Hn. destruct Hn as [x [<- Hx]].
        rewrite Forall_forall in Hr. specialize (Hr x Hx). cbv beta in Hr. lia.
      * constructor; [lia|].
        eapply Forall_impl; [|exact Hr]. intros x Hx. cbv beta in *. lia.
Qed.

(** X1. [_generate_red_flags] emits at most one flag per risk factor;
    the flags come with strictly increasing ids, each id being the
    1-based position of the factor the flag is about, whose value the
    flag carries. *)
Theorem generate_red_flags_shape (rfs : list RiskFactor) :
  (List.length (_generate_red_flags rfs) <= List.length rfs)%nat /\
  StronglySorted lt (map rf_id (_generate_red_flags rfs)) /\
  forall flag, In flag (_generate_red_flags rfs) ->
    (1 <= rf_id flag <= List.length rfs)%nat /\
    exists f, nth_error rfs (rf_id flag - 1) = Some f /\ rf_value flag = value f.
Proof.
  unfold _generate_red_flags.
  destruct (red_flags_from_shape rfs 1) as (Hlen & Hs & Hr).
  split; [exact Hlen|]. split; [exact Hs|].
  intros flag Hin. rewrite Forall_forall in Hr.
  split; [specialize (Hr flag Hin); cbv beta in Hr; lia|].
  apply red_flags_from_In in Hin. destruct Hin as [j [f [Hn Hf]]].
  destruct (red_flag_of_single (1 + j) f) as [_ Hid].
  destruct (Hid flag Hf) as [Hi Hv].
  exists f. rewrite Hi. simpl. rewrite Nat.sub_0_r. split; assumption.
Qed.

(** X2. A risk factor whose name has no rule template is flagged exactly
    when the absolute value of its value exceeds 1.0, and the flag is
    then a Data Anomaly of severity LOW. *)
Theorem generic_red_flag_rule rfs j f :
  nth_error rfs j = Some f ->
  dict_get EXPLANATION_TEMPLATES (factor f) = None ->
  ((exists flag, In flag (_generate_red_flags rfs) /\ rf_id flag = S j)
   <-> f_gt (f_abs (value f)) (Fin 1)) /\
  (forall flag, In flag (_generate_red_flags rfs) -> rf_id flag = S j ->
     rf_category flag = "Data Anomaly" /\ rf_severity flag = SevLOW).
Proof.
  intros Hnth Ht. unfold _generate_red_flags, f_gt.
  assert (Hof : forall flag, In flag (red_flags_from 1 rfs) -> rf_id flag = S j ->
                             In flag (red_flag_of (S j) f)).
  { intros flag Hin Hid. apply red_flags_from_In in Hin.
    destruct Hin as [j' [f' [Hn' Hin]]].
    pose proof (red_flag_of_id _ _ _ Hin) as Hid'.
    assert (j' = j) by lia. subst j'.
    rewrite Hnth in Hn'. injection Hn' as <-. exact Hin. }
  split; [split|].
  - intros [flag [Hin Hid]]. specialize (Hof flag Hin Hid).
    unfold red_flag_of in Hof. rewrite Ht in Hof.
    destruct (f_gtb (f_abs (value f)) (Fin 1)); [reflexivity | contradiction].
  - intros Hgt. eexists. split.
    + apply red_flags_from_In. exists j, f. split; [exact Hnth|].
      unfold red_flag_of. rewrite Ht, Hgt. left. reflexivity.
    + reflexivity.
  - intros flag Hin Hid. specialize (Hof flag Hin Hid).
    unfold red_flag_of in Hof. rewrite Ht in Hof.
    destruct (f_gtb (f_abs (value f)) (Fin 1)); [|contradiction].
    destruct Hof as [<- | []]. split; reflexivity.
Qed.

Lemma generic_red_flag_rule_witness :
  (exists flag,
      In flag (_generate_red_flags [ {| factor := "claim_amount"; value := Fin 500 |} ])
      /\ rf_id flag = 1%nat)
  <-> f_gt (f_abs (Fin 500)) (Fin 1).
Proof.
  exact (proj1 (generic_red_flag_rule
                  [ {| factor := "claim_amount"; value := Fin 500 |} ] 0%nat
                  {| factor := "claim_amount"; value := Fin 500 |} eq_refl eq_refl)).
Defined.

Lemma confidence_explanation_cases (p : Q) :
  (9 # 10 <= p /\ _generate_confidence_explanation p = EXTREMELY_HIGH_CONFIDENCE) \/
  ((75 # 100 <= p /\ p < 9 # 10) /\
   _generate_confidence_explanation p = HIGH_CONFIDENCE) \/
  ((5 # 10 <= p /\ p < 75 # 100) /\
   _generate_confidence_explanation p = MODERATE_CONFIDENCE) \/
  ((25 # 100 <= p /\ p < 5 # 10) /\
   _generate_confidence_explanation p = LOW_CONFIDENCE) \/
  (p < 25 # 100 /\ _generate_confidence_explanation p = VERY_LOW_CONFIDENCE).
Proof.
  unfold _generate_confidence_explanation. qcases.
  - left. split; [assumption | reflexivity].
  - right; left. split; [split; assumption | reflexivity].
  - right; right; left. split; [split; assumption | reflexivity].
  - right; right; right; left. split; [split; assumption | reflexivity].
  - right; right; right; right. split; [assumption | reflexivity].
Qed.

(** X3. The confidence narrative follows its own bands, closed at their
    lower bounds: extremely high from 0.9, high from 0.75, moderate from
    0.5, low from 0.25, very low below.  These are not the bands of the
    risk level: a CRITICAL probability gets a high or extremely high
    narrative, a MINIMAL one the very low narrative, while a HIGH
    probability below 0.75 gets the moderate narrative. *)
Theorem confidence_explanation_bands (p : Q) :
  (_generate_confidence_explanation p = EXTREMELY_HIGH_CONFIDENCE <-> 9 # 10 <= p) /\
  (_generate_confidence_explanation p = HIGH_CONFIDENCE <-> 75 # 100 <= p /\ p < 9 # 10) /\
  (_generate_confidence_explanation p = MODERATE_CONFIDENCE <-> 5 # 10 <= p /\ p < 75 # 100) /\
  (_generate_confidence_explanation p = LOW_CONFIDENCE <-> 25 # 100 <= p /\ p < 5 # 10) /\
  (_generate_confidence_explanation p = VERY_LOW_CONFIDENCE <-> p < 25 # 100) /\
  (risk_level p = CRITICAL ->
     _generate_confidence_explanation p = EXTREMELY_HIGH_CONFIDENCE \/
     _generate_confidence_explanation p = HIGH_CONFIDENCE) /\
  (risk_level p = MINIMAL -> _generate_confidence_explanation p = VERY_LOW_CONFIDENCE) /\
  (risk_level p = HIGH /\ p < 75 # 100 ->
     _generate_confidence_explanation p = MODERATE_CONFIDENCE).
Proof.
  destruct (confidence_explanation_cases p) as [[H E] | [[H E] | [[H E] | [[H E] | [H E]]]]];
    rewrite E;
    repeat split; intros;
    repeat match goal with
           | K : _ /\ _ |- _ => destruct K
           | K : risk_level _ = _ |- _ =>
               first [ apply risk_level_critical in K
                     | apply risk_level_minimal in K
                     | apply risk_level_high in K ]
           end;
    try reflexivity; try lra;
    try (exfalso; lra);
    try (left; reflexivity); try (right; reflexivity);
    match goal with
    | K : _ = _ |- _ =>
        unfold EXTREMELY_HIGH_CONFIDENCE, HIGH_CONFIDENCE, MODERATE_CONFIDENCE,
          LOW_CONFIDENCE, VERY_LOW_CONFIDENCE in K; discriminate K
    end.
Qed.

Lemma confidence_explanation_bands_witness :
  _generate_confidence_explanation (7 # 10) = MODERATE_CONFIDENCE.
Proof.
  apply (confidence_explanation_bands (7 # 10)). split; reflexivity.
Defined.

Lemma level_of_name_level_name l : level_of_name (level_name l) = l.
Proof. destruct l; reflexivity. Qed.

Lemma summary_branch l p n :
  mentions_count (_generate_summary (level_name l) p n)
  = match l with MINIMAL => false | _ => true end.
Proof. destruct l; reflexivity. Qed.

(** X4. The explanation the detection service attaches to an assessment
    of [assess_claims] has at most three red flags, numbered within 1..3,
    and counts them in total_red_flags; its recommendation is the one of
    the assessment's own risk level, its risk score the assessment's
    probability; and its summary prints the number of red flags for
    every level but MINIMAL. *)
Theorem explain_assessment m X claim_ids a :
  In a (assess_claims m X claim_ids) ->
  let e := explain a in
  total_red_flags e = List.length (red_flags e) /\
  (total_red_flags e <= 3)%nat /\
  (forall flag, In flag (red_flags e) -> (1 <= rf_id flag <= 3)%nat) /\
  recommendation e = _generate_recommendation (a_risk_level a) /\
  confidence_explanation e = _generate_confidence_explanation (fraud_probability a) /\
  risk_score e = fraud_probability a /\
  mentions_count (summary e) = match a_risk_level a with MINIMAL => false | _ => true end.
Proof.
  intros Ha e.
  destruct (assess_from_In _ _ _ _ _ _ _ Ha) as [j (_ & _ & _ & _ & Hf)].
  assert (H3 : (List.length (risk_factors a) <= 3)%nat)
    by (rewrite Hf; apply firstn_le_length).
  destruct (red_flags_from_shape (risk_factors a) 1) as (Hlen & _ & Hr).
  unfold e, explain, generate_explanation. simpl.
  fold (_generate_red_flags (risk_factors a)) in *.
  split; [reflexivity|]. split; [lia|]. split.
  - intros flag Hin. rewrite Forall_forall in Hr. specialize (Hr flag Hin).
    cbv beta in Hr. lia.
  - split; [rewrite level_of_name_level_name; reflexivity|].
    split; [reflexivity|]. split; [reflexivity|]. apply summary_branch.
Qed.

Lemma explain_assessment_witness :
  exists a,
    In a (assess_claims sample_model sample_frame ["A"; "B"]) /\
    (total_red_flags (explain a) <= 3)%nat.
Proof.
  eexists. split.
  - left. reflexivity.
  - apply (explain_assessment sample_model sample_frame ["A"; "B"]).
    left. reflexivity.
Defined.

(** ** Relationship graph *)

Lemma joins_sym u v e : joins u v e = joins v u e.
Proof.
  unfold joins.
  rewrite (andb_comm (String.eqb u (fst e))), (andb_comm (String.eqb u (snd e))).
  apply orb_comm.
Qed.

Lemma has_edge_sym g u v : has_edge g u v = has_edge g v u.
Proof.
  unfold has_edge. induction (g_edges g) as [|e es IH]; simpl; [reflexivity|].
  rewrite IH, joins_sym. reflexivity.
Qed.

Lemma walk_snoc g : forall k a c b,
  walk g k a c -> has_edge g c b = true -> walk g (S k) a b.
Proof.
  intros k a c b Hw. revert b. induction Hw as [a|k a c' c He Hw IH]; intros b Hb.
  - apply walk_step with b; [exact Hb | constructor].
  - apply walk_step with c'; [exact He | apply IH; exact Hb].
Qed.

Lemma walk_sym g k a b : walk g k a b -> walk g k b a.
Proof.
  intros Hw. induction Hw as [a|k a c b He Hw IH].
  - constructor.
  - apply walk_snoc with c; [exact IH | rewrite has_edge_sym; exact He].
Qed.

Lemma walk_in_sym g k a b : walk_in g k a b = walk_in g k b a.
Proof.
  destruct (walk_in g k a b) eqn:E1, (walk_in g k b a) eqn:E2; try reflexivity.
  - apply walk_in_iff, walk_sym, walk_in_iff in E1. congruence.
  - apply walk_in_iff, walk_sym, walk_in_iff in E2. congruence.
Qed.

Lemma least_walk_sym g a b : forall fuel from,
  least_walk g a b fuel from = least_walk g b a fuel from.
Proof.
  induction fuel as [|fuel IH]; intros from; simpl; [reflexivity|].
  rewrite walk_in_sym, IH. reflexivity.
Qed.

Lemma neighbors_NoDup g a : NoDup (neighbors g a).
Proof. unfold neighbors, nodes. apply NoDup_filter, unique_NoDup. Qed.

Lemma NoDup_same_length (l1 l2 : list string) :
  NoDup l1 -> NoDup l2 -> (forall x, In x l1 <-> In x l2) ->
  List.length l1 = List.length l2.
Proof.
  intros H1 H2 H. apply Nat.le_antisymm; apply NoDup_incl_length; try assumption;
    intros x Hx; apply H; exact Hx.
Qed.

(** X5. The two graph features of a pair of nodes do not depend on the
    order of the pair: the distance from a to b is the distance from b
    to a, and so is the number of shared neighbours, which is at most
    the number of neighbours of either node. *)
Theorem graph_features_symmetric g a b :
  graph_distance g a b = graph_distance g b a /\
  shared_neighbors g a b = shared_neighbors g b a /\
  (shared_neighbors g a b <= List.length (neighbors g a))%nat.
Proof.
  split; [|split].
  - unfold graph_distance, nx_shortest_path_length.
    rewrite (andb_comm (has_node g a)), (has_edge_sym g a b), (least_walk_sym g a b).
    reflexivity.
  - unfold shared_neighbors. apply NoDup_same_length.
    + apply NoDup_filter, neighbors_NoDup.
    + apply NoDup_filter, neighbors_NoDup.
    + intros x. rewrite !filter_In, !mem_In. tauto.
  - unfold shared_neighbors. apply filter_length_le.
Qed.

(** X6. A distance other than the sentinel 999 is the length of a walk
    and is at most the number of nodes of the graph; so in a graph with
    fewer than 999 nodes the value 999 means exactly that a node is
    missing or that no walk joins the two nodes.  A node without a
    self-loop is at distance 0 from itself. *)
Theorem graph_distance_range g a b :
  (graph_distance g a b = 999%Z \/
   (0 <= graph_distance g a b <= Z.of_nat (List.length (nodes g)))%Z /\
   exists d, graph_distance g a b = Z.of_nat d /\ walk g d a b) /\
  ((List.length (nodes g) < 999)%nat ->
     (graph_distance g a b = 999%Z <->
      has_node g a = false \/ has_node g b = false \/ forall k, ~ walk g k a b)) /\
  (has_node g a = true -> has_edge g a a = false -> graph_distance g a a = 0%Z).
Proof.
  split; [|split].
  - unfold graph_distance.
    destruct (has_node g a) eqn:Ha; [|left; reflexivity].
    destruct (has_node g b) eqn:Hb; [|left; reflexivity]. simpl.
    destruct (has_edge g a b) eqn:He.
    + right. split.
      * apply mem_In in Ha. destruct (nodes g); [contradiction | simpl; lia].
      * exists 1%nat. split; [reflexivity|].
        apply walk_step with b; [exact He | constructor].
    + unfold nx_shortest_path_length.
      destruct (least_walk g a b (List.length (nodes g)) 0) as [d|] eqn:E;
        [|left; reflexivity].
      destruct (least_walk_some _ _ _ _ _ _ E) as (Hr & Hw & _).
      right. split; [lia|]. exists d. split; [reflexivity | exact Hw].
  - intros Hsmall. unfold graph_distance. split.
    + intros H.
      destruct (has_node g a) eqn:Ha; [|left; reflexivity].
      destruct (has_node g b) eqn:Hb; [|right; left; reflexivity].
      right; right. simpl in H.
      destruct (has_edge g a b) eqn:He; [discriminate|].
      destruct (nx_shortest_path_length g a b) as [d|] eqn:E.
      * unfold nx_shortest_path_length in E.
        destruct (least_walk_some _ _ _ _ _ _ E) as (Hr & _ & _). lia.
      * apply shortest_path_length_none; assumption.
    + intros [H | [H | H]]; [rewrite H; reflexivity
                            | rewrite H, andb_false_r; reflexivity |].
      destruct (has_node g a && has_node g b); [|reflexivity].
      destruct (has_edge g a b) eqn:He.
      * exfalso. apply (H 1%nat). apply walk_step with b; [assumption | constructor].
      * destruct (nx_shortest_path_length g a b) as [d'|] eqn:E; [|reflexivity].
        exfalso. apply (H d'). apply (shortest_path_length_some _ _ _ _ E).
  - intros Ha He. unfold graph_distance. rewrite Ha, He. simpl.
    unfold nx_shortest_path_length.
    apply mem_In in Ha.
    destruct (nodes g) as [|n ns]; [contradiction|]. simpl.
    rewrite String.eqb_refl. reflexivity.
Qed.

Lemma graph_distance_range_witness :
  graph_distance sample_graph "P1" "P3" = 999%Z <->
  has_node sample_graph "P1" = false \/ has_node sample_graph "P3" = false \/
  forall k, ~ walk sample_graph k "P1" "P3".
Proof.
  apply (proj1 (proj2 (graph_distance_range sample_graph "P1" "P3"))).
  vm_compute. lia.
Defined.

(** The graph the loader builds. *)
Lemma build_graph_attrs patients providers claims :
  g_attrs (_build_graph patients providers claims) =
  map (fun p => (patient_id p, "patient")) patients
  ++ map (fun p => (provider_id p, "provider")) providers.
Proof.
  unfold _build_graph.
  assert (H1 : forall ps g, g_attrs (fold_left
              (fun g p => add_node g (patient_id p) "patient") ps g)
              = g_attrs g ++ map (fun p => (patient_id p, "patient")) ps).
  { induction ps as [|p ps IH]; intros g; simpl; [now rewrite app_nil_r|].
    rewrite IH. simpl. rewrite <- app_assoc. reflexivity. }
  assert (H2 : forall ps g, g_attrs (fold_left
              (fun g p => add_node g (provider_id p) "provider") ps g)
              = g_attrs g ++ map (fun p => (provider_id p, "provider")) ps).
  { induction ps as [|p ps IH]; intros g; simpl; [now rewrite app_nil_r|].
    rewrite IH. simpl. rewrite <- app_assoc. reflexivity. }
  assert (H3 : forall cs g, g_attrs (fold_left
              (fun g c => add_edge g (c_patient_id c) (c_provider_id c)) cs g)
              = g_attrs g).
  { induction cs as [|c cs IH]; intros g; simpl; [reflexivity | now rewrite IH]. }
  rewrite H3, H2, H1. reflexivity.
Qed.

Lemma loaded_has_edge patients providers claims u v :
  has_edge (_build_graph patients providers claims) u v = true <->
  exists c, In c claims /\
            ((u = c_patient_id c /\ v = c_provider_id c) \/
             (u = c_provider_id c /\ v = c_patient_id c)).
Proof.
  unfold has_edge. rewrite build_graph_edges, existsb_exists. split.
  - intros [e [He Hj]]. apply in_map_iff in He. destruct He as [c [<- Hc]].
    exists c. split; [exact Hc|].
    unfold joins in Hj. simpl in Hj. apply orb_true_iff in Hj.
    destruct Hj as [Hj | Hj]; apply andb_true_iff in Hj; destruct Hj as [H1 H2];
      apply String.eqb_eq in H1; apply String.eqb_eq in H2; [left | right];
      split; assumption.
  - intros [c [Hc Hj]]. exists (c_patient_id c, c_provider_id c). split.
    + apply (in_map (fun c => (c_patient_id c, c_provider_id c))). exact Hc.
    + unfold joins. simpl. apply orb_true_iff.
      destruct Hj as [[-> ->] | [-> ->]]; [left | right];
        rewrite !String.eqb_refl; reflexivity.
Qed.

(** With disjoint id spaces the loaded graph is bipartite: the
    neighbours of a patient are the providers of the patient's claims. *)
Lemma loaded_patient_neighbors patients providers claims c n :
  disjoint_ids claims -> In c claims ->
  (has_edge (_build_graph patients providers claims) (c_patient_id c) n = true <->
   exists c', In c' claims /\ c_patient_id c' = c_patient_id c /\ n = c_provider_id c').
Proof.
  intros Hd Hc. rewrite loaded_has_edge. split.
  - intros [c' [Hc' [[H1 H2] | [H1 H2]]]].
    + exists c'. repeat split; try assumption. symmetry. exact H1.
    + exfalso. exact (Hd c c' Hc Hc' H1).
  - intros [c' (Hc' & H1 & H2)]. exists c'. split; [exact Hc'|]. left.
    split; [symmetry; exact H1 | exact H2].
Qed.

Lemma loaded_provider_neighbors patients providers claims c n :
  disjoint_ids claims -> In c claims ->
  (has_edge (_build_graph patients providers claims) (c_provider_id c) n = true <->
   exists c', In c' claims /\ c_provider_id c' = c_provider_id c /\ n = c_patient_id c').
Proof.
  intros Hd Hc. rewrite loaded_has_edge. split.
  - intros [c' [Hc' [[H1 H2] | [H1 H2]]]].
    + exfalso. apply (Hd c' c Hc' Hc). symmetry. exact H1.
    + exists c'. repeat split; try assumption. symmetry. exact H1.
  - intros [c' (Hc' & H1 & H2)]. exists c'. split; [exact Hc'|]. right.
    split; [symmetry; exact H1 | exact H2].
Qed.

Lemma loaded_shared_neighbors patients providers claims c :
  disjoint_ids claims -> In c claims ->
  shared_neighbors (_build_graph patients providers claims)
                   (c_patient_id c) (c_provider_id c) = 0%nat.
Proof.
  intros Hd Hc. unfold shared_neighbors.
  rewrite filter_none; [reflexivity|].
  intros n Hn. apply mem_false. intros Hn'.
  apply neighbors_In in Hn. apply neighbors_In in Hn'.
  apply (loaded_patient_neighbors _ _ _ c n Hd Hc) in Hn.
  apply (loaded_provider_neighbors _ _ _ c n Hd Hc) in Hn'.
  destruct Hn as [c1 (Hc1 & _ & E1)]. destruct Hn' as [c2 (Hc2 & _ & E2)].
  apply (Hd c2 c1 Hc2 Hc1). congruence.
Qed.

Lemma loaded_patient_degree patients providers claims c :
  disjoint_ids claims -> In c claims ->
  degree (_build_graph patients providers claims) (c_patient_id c) =
  List.length (unique (map c_provider_id
     (filter (fun c' => String.eqb (c_patient_id c') (c_patient_id c)) claims))).
Proof.
  intros Hd Hc. unfold degree.
  assert (Hself : has_edge (_build_graph patients providers claims)
                           (c_patient_id c) (c_patient_id c) = false).
  { apply not_true_iff_false. intros H.
    apply (loaded_patient_neighbors _ _ _ c _ Hd Hc) in H.
    destruct H as [c' (Hc' & _ & E)]. exact (Hd c c' Hc Hc' E). }
  rewrite Hself, Nat.add_0_r.
  apply NoDup_same_length; [apply neighbors_NoDup | apply unique_NoDup |].
  intros n. rewrite neighbors_In, unique_In, in_map_iff.
  rewrite (loaded_patient_neighbors _ _ _ c n Hd Hc). split.
  - intros [c' (Hc' & H1 & H2)]. exists c'. split; [symmetry; exact H2|].
    apply filter_In. split; [exact Hc' | apply String.eqb_eq; exact H1].
  - intros [c' [H2 Hf]]. apply filter_In in Hf. destruct Hf as [Hc' H1].
    apply String.eqb_eq in H1. exists c'. repeat split; auto.
Qed.

(** ** Reading a cell of a returned row by its column name *)

Lemma prefix_append pre s : String.prefix pre (pre ++ s) = true.
Proof.
  induction pre as [|ch pre IH]; simpl; [destruct s; reflexivity|].
  destruct (ascii_dec ch ch) as [_|N]; [exact IH | congruence].
Qed.

Lemma append_neq_prefix pre s name :
  String.prefix pre name = false -> (pre ++ s)%string <> name.
Proof.
  intros H E. subst name. rewrite prefix_append in H. discriminate.
Qed.

Lemma eqb_append_l pre a b :
  String.eqb (pre ++ a) (pre ++ b) = String.eqb a b.
Proof.
  induction pre as [|ch pre IH]; simpl; [reflexivity|].
  rewrite Ascii.eqb_refl. exact IH.
Qed.

Lemma row_get_app_notin (r1 r2 : row) name :
  mem name (map fst r1) = false -> row_get (r1 ++ r2) name = row_get r2 name.
Proof.
  intros H. apply row_get_app_skip. apply mem_false in H.
  apply Forall_forall. intros cell Hc E. apply H. rewrite <- E.
  apply in_map. exact Hc.
Qed.

(** The indicator cells of a prefix are skipped by a name without that
    prefix, and answer for a name with it. *)
Lemma dummy_cells_others pre levels v name :
  String.prefix (pre ++ "_") name = false ->
  Forall (fun cell => fst cell <> name) (dummy_cells pre levels v).
Proof.
  intros H. unfold dummy_cells. apply Forall_forall. intros cell Hc.
  apply in_map_iff in Hc. destruct Hc as [level [<- _]]. cbn [fst].
  replace (pre ++ "_" ++ level)%string with ((pre ++ "_") ++ level)%string.
  - apply append_neq_prefix. exact H.
  - clear. induction pre as [|ch pre IH]; simpl; [reflexivity | now rewrite IH].
Qed.

Lemma row_get_dummy pre levels v rest level :
  In level levels ->
  row_get (dummy_cells pre levels v ++ rest) (pre ++ "_" ++ level)
  = Some (of_bool (String.eqb v level)).
Proof.
  unfold dummy_cells.
  induction levels as [|l0 levels IH]; intros Hin; [contradiction|].
  cbn [map app row_get].
  rewrite eqb_append_l, eqb_append_l.
  destruct (String.eqb l0 level) eqn:E.
  - apply String.eqb_eq in E. subst l0. reflexivity.
  - apply String.eqb_neq in E. destruct Hin as [Hin | Hin]; [contradiction|].
    apply IH. exact Hin.
Qed.

Lemma mem_cons_false name x xs :
  mem name (x :: xs) = false -> x <> name /\ mem name xs = false.
Proof.
  unfold mem. simpl. intros H. apply orb_false_iff in H. destruct H as [H1 H2].
  split; [|exact H2]. intros E. subst. rewrite String.eqb_refl in H1. discriminate.
Qed.

Section CellLookup.

Context {lib : Lib}.
Variable self : FraudFeatureExtractor.

Lemma claim_cells_others types statuses c name :
  String.prefix "claim_type_" name = false ->
  String.prefix "status_" name = false ->
  mem name plain_claim_names = false ->
  Forall (fun cell => fst cell <> name) (claim_cells self types statuses c).
Proof.
  intros Ht Hs Hm. unfold claim_cells, plain_claim_names in *.
  apply mem_cons_false in Hm. destruct Hm as [N1 Hm].
  apply mem_cons_false in Hm. destruct Hm as [N2 Hm].
  apply mem_cons_false in Hm. destruct Hm as [N3 Hm].
  apply mem_cons_false in Hm. destruct Hm as [N4 Hm].
  apply mem_cons_false in Hm. destruct Hm as [N5 Hm].
  apply mem_cons_false in Hm. destruct Hm as [N6 _].
  repeat (apply Forall_app; split).
  - repeat constructor; assumption.
  - destruct (col_claim_type _); [apply dummy_cells_others; exact Ht | constructor].
  - destruct (col_claim_status _); [apply dummy_cells_others; exact Hs | constructor].
  - destruct (col_admission_type _); repeat constructor; assumption.
  - destruct (col_length_of_stay _); repeat constructor; assumption.
Qed.

(** A name that is no claim-attribute column is read from the entity
    cells. *)
Lemma row_get_past_claim_cells types statuses c name :
  String.prefix "claim_type_" name = false ->
  String.prefix "status_" name = false ->
  mem name plain_claim_names = false ->
  row_get (fr_cells (feature_row self types statuses c)) name =
  row_get (entity_cells self c) name.
Proof.
  intros Ht Hs Hm. unfold feature_row.
  change (row_get (claim_cells self types statuses c ++ entity_cells self c) name
          = row_get (entity_cells self c) name).
  apply row_get_app_skip. apply claim_cells_others; assumption.
Qed.

Lemma entity_cells_split c :
  entity_cells self c =
  (patient_cells self c
   ++ provider_stats_entry self (claims_of_provider self (c_provider_id c)))
  ++ map (fun s => (("specialty_" ++ s)%string,
                    of_bool (eq_opt (dict_get_or (provider_specialty self)
                                                 (c_provider_id c) None) s)))
         (all_specialties self)
  ++ (temporal_cells self c ++ graph_cells self c).
Proof.
  unfold entity_cells, provider_cells. rewrite <- !app_assoc. reflexivity.
Qed.

Lemma statistics_cells_names c :
  map fst (patient_cells self c
           ++ provider_stats_entry self (claims_of_provider self (c_provider_id c)))
  = statistics_names.
Proof. reflexivity. Qed.

Lemma row_get_specialty c s :
  In s (all_specialties self) ->
  row_get (entity_cells self c) ("specialty_" ++ s) =
  Some (of_bool (eq_opt (dict_get_or (provider_specialty self)
                                     (c_provider_id c) None) s)).
Proof.
  intros Hin. rewrite entity_cells_split.
  rewrite row_get_app_notin by (rewrite statistics_cells_names; reflexivity).
  induction (all_specialties self) as [|s0 specs IH]; [contradiction|].
  cbn [map app row_get]. rewrite eqb_append_l.
  destruct (String.eqb s0 s) eqn:E.
  - apply String.eqb_eq in E. subst s0. reflexivity.
  - apply String.eqb_neq in E. destruct Hin as [Hin | Hin]; [contradiction|].
    apply IH. exact Hin.
Qed.

(** A name that is neither a statistic nor a specialty indicator is read
    from the temporal and graph cells. *)
Lemma row_get_entity_tail c name :
  String.prefix "specialty_" name = false ->
  mem name statistics_names = false ->
  row_get (entity_cells self c) name =
  row_get (temporal_cells self c ++ graph_cells self c) name.
Proof.
  intros Hs Hm. rewrite entity_cells_split.
  rewrite row_get_app_notin by (rewrite statistics_cells_names; exact Hm).
  apply row_get_app_skip. apply Forall_forall. intros cell Hc.
  apply in_map_iff in Hc. destruct Hc as [s [<- _]]. cbn [fst].
  apply append_neq_prefix. exact Hs.
Qed.

Lemma row_get_tail types statuses c name :
  String.prefix "claim_type_" name = false ->
  String.prefix "status_" name = false ->
  String.prefix "specialty_" name = false ->
  mem name plain_claim_names = false ->
  mem name statistics_names = false ->
  row_get (fr_cells (feature_row self types statuses c)) name =
  row_get (temporal_cells self c ++ graph_cells self c) name.
Proof.
  intros H1 H2 H3 H4 H5.
  rewrite row_get_past_claim_cells by assumption.
  apply row_get_entity_tail; assumption.
Qed.

(** What [extract_all_features] returns when it returns. *)
Lemma extract_all_features_ok cids rows :
  extract_all_features self cids = Ok rows ->
  select_claims self cids <> [] /\
  rows = map (feature_row self (type_levels (select_claims self cids))
                               (status_levels (select_claims self cids)))
             (select_claims self cids).
Proof.
  intros H. destruct (select_claims self cids) as [|c0 rest] eqn:E.
  - rewrite (extract_all_features_empty self _ E) in H. discriminate.
  - assert (Hne : select_claims self cids <> []) by (rewrite E; discriminate).
    rewrite (extract_all_features_rows self _ Hne) in H.
    injection H as <-. rewrite E. split; [discriminate | reflexivity].
Qed.

Lemma feature_row_header types statuses c :
  map fst (fr_cells (feature_row self types statuses c)) =
  claim_column_names (claim_columns self) types statuses ++ entity_column_names self.
Proof.
  unfold feature_row, claim_column_names, entity_column_names.
  cbn [fr_cells]. rewrite map_app. f_equal.
  - unfold claim_cells, dummy_cells.
    destruct (col_claim_type _), (col_claim_status _),
             (col_admission_type _), (col_length_of_stay _);
      rewrite ?map_app, ?map_map; reflexivity.
  - rewrite entity_cells_split, map_app, statistics_cells_names, map_app, map_map.
    reflexivity.
Qed.

End CellLookup.

(** ** Feature extraction: the schema and the one-hot columns *)

Lemma insert_sorted_perm x l : Permutation (insert_sorted x l) (x :: l).
Proof.
  induction l as [|y l IH]; simpl; [apply Permutation_refl|].
  destruct (String.leb x y); [apply Permutation_refl|].
  apply perm_trans with (y :: x :: l); [apply perm_skip, IH | apply perm_swap].
Qed.

Lemma sorted_perm l : Permutation (sorted l) l.
Proof.
  unfold sorted. induction l as [|x l IH]; simpl; [constructor|].
  apply perm_trans with (x :: fold_right insert_sorted [] l);
    [apply insert_sorted_perm | apply perm_skip, IH].
Qed.

Lemma sorted_unique_In x l : In x (sorted (unique l)) <-> In x l.
Proof.
  split; intros H.
  - apply unique_In. apply (Permutation_in _ (sorted_perm (unique l))). exact H.
  - apply (Permutation_in _ (Permutation_sym (sorted_perm (unique l)))).
    apply unique_In. exact H.
Qed.

Lemma sorted_unique_NoDup l : NoDup (sorted (unique l)).
Proof.
  apply (Permutation_NoDup (Permutation_sym (sorted_perm (unique l)))).
  apply unique_NoDup.
Qed.

Section ExtractionSchema.

Context {lib : Lib}.
Variable self : FraudFeatureExtractor.

(** X7. Every row of one extraction has the same columns, in the same
    order: the claim-attribute columns with one indicator per claim
    type and per claim status found among the selected claims, then the
    patient and provider statistics, one indicator per specialty of the
    provider table, and the temporal and graph columns.
    [get_feature_names] returns this list for the levels of the first
    claim of the table alone. *)
Theorem extraction_columns cids rows :
  extract_all_features self cids = Ok rows ->
  Forall (fun fr =>
            map fst (fr_cells fr) =
            claim_column_names (claim_columns self)
              (type_levels (select_claims self cids))
              (status_levels (select_claims self cids))
            ++ entity_column_names self)
         rows /\
  (forall names c0,
      hd_error (claims_df self) = Some c0 ->
      get_feature_names self = Ok names ->
      names =
      claim_column_names (claim_columns self)
        (type_levels (select_claims self (Some [claim_id c0])))
        (status_levels (select_claims self (Some [claim_id c0])))
      ++ entity_column_names self).
Proof.
  intros H. split.
  - destruct (extract_all_features_ok self _ _ H) as [_ ->].
    apply Forall_forall. intros fr Hfr. apply in_map_iff in Hfr.
    destruct Hfr as [c [<- _]]. apply feature_row_header.
  - intros names c0 Hhd Hn. unfold get_feature_names in Hn.
    destruct (claims_df self) as [|c1 rest] eqn:E; [discriminate|].
    injection Hhd as ->.
    destruct (extract_all_features self (Some [claim_id c0])) as [rows0|e] eqn:E0;
      [|discriminate].
    destruct (extract_all_features_ok self _ _ E0) as [Hne Hr].
    destruct rows0 as [|fr rows0].
    + symmetry in Hr. apply map_eq_nil in Hr. contradiction.
    + injection Hn as <-.
      destruct (select_claims self (Some [claim_id c0])) as [|c l] eqn:Es;
        [congruence|].
      simpl in Hr. injection Hr as -> _. apply feature_row_header.
Qed.

(** X8. When the claim table has the claim_type column, the row of a
    selected claim carries, for every claim type found among the
    selected claims, an indicator that is 1 for the claim's own type
    and 0 for any other; its own type is among them and no type occurs
    twice, so exactly one indicator is 1.  The same holds for the
    claim_status column. *)
Theorem one_hot_claim_indicators cids c :
  In c (select_claims self cids) ->
  exists rows fr,
    extract_all_features self cids = Ok rows /\
    In fr rows /\ fr_claim_id fr = claim_id c /\
    (col_claim_type (claim_columns self) = true ->
       In (claim_type c) (type_levels (select_claims self cids)) /\
       NoDup (type_levels (select_claims self cids)) /\
       forall level, In level (type_levels (select_claims self cids)) ->
         row_get (fr_cells fr) ("claim_type_" ++ level) =
         Some (if String.eqb (claim_type c) level then Fin 1 else Fin 0)) /\
    (col_claim_status (claim_columns self) = true ->
       In (claim_status c) (status_levels (select_claims self cids)) /\
       NoDup (status_levels (select_claims self cids)) /\
       forall level, In level (status_levels (select_claims self cids)) ->
         row_get (fr_cells fr) ("status_" ++ level) =
         Some (if String.eqb (claim_status c) level then Fin 1 else Fin 0)).
Proof.
  intros Hin.
  destruct (extract_all_features_has_row self cids c Hin) as [rows (E & _ & R)].
  exists rows. eexists. split; [exact E|]. split; [exact R|].
  split; [reflexivity|]. split.
  - intros Hcol. split; [|split].
    + apply sorted_unique_In, in_map, Hin.
    + apply sorted_unique_NoDup.
    + intros level Hl. unfold feature_row, claim_cells. cbn [fr_cells].
      rewrite Hcol. rewrite <- !app_assoc.
      change ("claim_type_" ++ level)%string with ("claim_type" ++ "_" ++ level)%string.
      rewrite row_get_app_skip
        by (repeat constructor; apply String.eqb_neq; reflexivity).
      rewrite row_get_dummy by exact Hl. destruct (String.eqb _ _); reflexivity.
  - intros Hcol. split; [|split].
    + apply sorted_unique_In, in_map, Hin.
    + apply sorted_unique_NoDup.
    + intros level Hl. unfold feature_row, claim_cells. cbn [fr_cells].
      rewrite Hcol. rewrite <- !app_assoc.
      rewrite row_get_app_skip
        by (repeat constructor; apply String.eqb_neq; reflexivity).
      rewrite row_get_app_skip.
      * change ("status_" ++ level)%string with ("status" ++ "_" ++ level)%string.
        rewrite row_get_dummy by exact Hl. destruct (String.eqb _ _); reflexivity.
      * destruct (col_claim_type _); [|constructor].
        apply dummy_cells_others. reflexivity.
Qed.

(** X9. The row of a selected claim carries one indicator per specialty
    of the provider table: it is 1 exactly for the specialty recorded
    for the claim's provider, so at most one is 1, and all are 0 when
    the provider table has no record of the provider. *)
Theorem specialty_indicators cids c :
  In c (select_claims self cids) ->
  exists rows fr,
    extract_all_features self cids = Ok rows /\
    In fr rows /\ fr_claim_id fr = claim_id c /\
    NoDup (all_specialties self) /\
    forall s, In s (all_specialties self) ->
      row_get (fr_cells fr) ("specialty_" ++ s) =
      Some (if eq_opt (dict_get_or (provider_specialty self) (c_provider_id c) None) s
            then Fin 1 else Fin 0) /\
      (known_provider self (c_provider_id c) = false ->
       row_get (fr_cells fr) ("specialty_" ++ s) = Some (Fin 0)).
Proof.
  intros Hin.
  destruct (extract_all_features_has_row self cids c Hin) as [rows (E & _ & R)].
  exists rows. eexists. split; [exact E|]. split; [exact R|].
  split; [reflexivity|]. split; [apply sorted_unique_NoDup|].
  intros s Hs.
  assert (Hcell : row_get (fr_cells (feature_row self
                     (type_levels (select_claims self cids))
                     (status_levels (select_claims self cids)) c))
                   ("specialty_" ++ s)
                  = Some (if eq_opt (dict_get_or (provider_specialty self)
                                                 (c_provider_id c) None) s
                          then Fin 1 else Fin 0)).
  { rewrite row_get_past_claim_cells by reflexivity.
    rewrite row_get_specialty by exact Hs. reflexivity. }
  split; [exact Hcell|].
  intros Hunk. rewrite Hcell.
  assert (Hn : dict_get (provider_specialty self) (c_provider_id c) = None).
  { apply dict_get_absent. unfold provider_specialty. rewrite map_map. simpl.
    intros Hp. apply in_map_iff in Hp. destruct Hp as [p [Ep Hp]].
    unfold known_provider in Hunk.
    assert (T : existsb (fun p => String.eqb (provider_id p) (c_provider_id c))
                        (providers_df self) = true).
    { apply existsb_exists. exists p. split; [exact Hp | apply String.eqb_eq; exact Ep]. }
    congruence. }
  unfold dict_get_or. rewrite Hn. reflexivity.
Qed.

(** X10. A request is used as a set of ids: the returned rows are the
    rows of the table whose id is requested, in table order, whatever
    the order of the request and however often an id is repeated in
    it. *)
Theorem extraction_follows_table_order ids rows :
  extract_all_features self (Some ids) = Ok rows ->
  map fr_claim_id rows =
  map claim_id (filter (fun c => mem (claim_id c) ids) (claims_df self)) /\
  (forall ids', (forall x, In x ids <-> In x ids') ->
                extract_all_features self (Some ids') = Ok rows).
Proof.
  intros H. split.
  - destruct (extract_all_features_ok self _ _ H) as [_ ->].
    rewrite map_map. reflexivity.
  - intros ids' Hsame. rewrite <- H. symmetry.
    apply extract_all_features_order. exact Hsame.
Qed.

End ExtractionSchema.

(** ** Feature extraction: aggregates and temporal features *)







Lemma fold_earlier_le : forall l a t,
  t = a \/ In t l ->
  (total_seconds (fold_left ts_earlier l a) <= total_seconds t)%Z.
Proof.
  induction l as [|x l IH]; intros a t H; simpl.
  - destruct H as [-> | []]. lia.
  - assert (Ha : (total_seconds (ts_earlier a x) <= total_seconds a)%Z
                 /\ (total_seconds (ts_earlier a x) <= total_seconds x)%Z).
    { unfold ts_earlier.
      destruct (total_seconds a <=? total_seconds x)%Z eqn:E;
        [apply Z.leb_le in E | apply Z.leb_gt in E]; lia. }
    destruct H as [-> | [-> | H]].
    + apply Z.le_trans with (total_seconds (ts_earlier a x));
        [apply IH; now left | apply Ha].
    + apply Z.le_trans with (total_seconds (ts_earlier a t));
        [apply IH; now left | apply Ha].
    + apply IH. now right.
Qed.

Lemma fold_earlier_In : forall l a,
  fold_left ts_earlier l a = a \/ In (fold_left ts_earlier l a) l.
Proof.
  induction l as [|x l IH]; intros a; simpl; [now left|].
  destruct (IH (ts_earlier a x)) as [E | Hin]; [|right; right; exact Hin].
  rewrite E. unfold ts_earlier.
  destruct (total_seconds a <=? total_seconds x)%Z; [now left | right; now left].
Qed.

Lemma fold_later_ge : forall l a t,
  t = a \/ In t l ->
  (total_seconds t <= total_seconds (fold_left ts_later l a))%Z.
Proof.
  induction l as [|x l IH]; intros a t H; simpl.
  - destruct H as [-> | []]. lia.
  - assert (Ha : (total_seconds a <= total_seconds (ts_later a x))%Z
                 /\ (total_seconds x <= total_seconds (ts_later a x))%Z).
    { unfold ts_later.
      destruct (total_seconds a <=? total_seconds x)%Z eqn:E;
        [apply Z.leb_le in E | apply Z.leb_gt in E]; lia. }
    destruct H as [-> | [-> | H]].
    + apply Z.le_trans with (total_seconds (ts_later a x));
        [apply Ha | apply IH; now left].
    + apply Z.le_trans with (total_seconds (ts_later a t));
        [apply Ha | apply IH; now left].
    + apply IH. now right.
Qed.

(** The earliest date of a series that holds the date [t]. *)
Lemma ts_min_spec (l : list Timestamp) (t : Timestamp) :
  In t l ->
  exists t0, ts_min l = Some t0 /\ In t0 l /\
             forall t', In t' l -> (total_seconds t0 <= total_seconds t')%Z.
Proof.
  intros Hin. destruct l as [|x rest]; [contradiction|].
  exists (fold_left ts_earlier rest x). split; [reflexivity|]. split.
  - destruct (fold_earlier_In rest x) as [-> | H]; [now left | now right].
  - intros t' Ht'. apply fold_earlier_le. destruct Ht' as [<- | Ht']; auto.
Qed.

Section ExtractionAggregates.

Context {lib : Lib}.
Variable self : FraudFeatureExtractor.

Lemma own_patient_claim cids c :
  In c (select_claims self cids) -> In c (claims_of_patient self (c_patient_id c)).
Proof.
  intros Hin. unfold claims_of_patient. apply filter_In. split.
  - apply (select_claims_In self cids c Hin).
  - apply String.eqb_refl.
Qed.




(** X13. days_since_first_claim is a whole number of days that is never
    negative, the history of a patient containing the claim itself, and
    is 0 for the claim with the patient's earliest service date. *)
Theorem days_since_first_claim_nonnegative cids c :
  In c (select_claims self cids) ->
  exists rows fr n,
    extract_all_features self cids = Ok rows /\
    In fr rows /\ fr_claim_id fr = claim_id c /\
    row_get (fr_cells fr) "days_since_first_claim" = Some (of_Z n) /\
    (0 <= n)%Z /\
    ((forall c', In c' (claims_of_patient self (c_patient_id c)) ->
        (total_seconds (service_date c) <= total_seconds (service_date c'))%Z) ->
     n = 0%Z).
Proof.
  intros Hin.
  destruct (extract_all_features_has_row self cids c Hin) as [rows (E & _ & R)].
  pose proof (own_patient_claim cids c Hin) as Hown.
  destruct (ts_min_spec (map service_date (claims_of_patient self (c_patient_id c)))
                        (service_date c) (in_map service_date _ _ Hown))
    as [t0 (Hmin & Ht0 & Hle)].
  exists rows. eexists. exists (days_between (service_date c) t0).
  split; [exact E|]. split; [exact R|]. split; [reflexivity|].
  rewrite row_get_tail by reflexivity.
  split.
  { change (row_get (temporal_cells self c ++ graph_cells self c)
                    "days_since_first_claim")
      with (Some (match ts_min (map service_date
                                    (claims_of_patient self (c_patient_id c))) with
                  | Some t0 => of_Z (days_between (service_date c) t0)
                  | None => NaN
                  end)).
    rewrite Hmin. reflexivity. }
  pose proof (Hle (service_date c) (in_map service_date _ _ Hown)) as H0.
  unfold days_between. split.
  - apply Z.div_pos; lia.
  - intros Hfirst. apply in_map_iff in Ht0. destruct Ht0 as [c' [<- Hc']].
    specialize (Hfirst c' Hc').
    replace (total_seconds (service_date c) - total_seconds (service_date c'))%Z
      with 0%Z by lia.
    reflexivity.
Qed.

(** X14. patient_claim_frequency is a finite number between 0 and the
    number of the patient's claims: the span in days is never taken
    below 1, so nothing is divided by zero.  It is 0 for a patient with
    a single claim and positive otherwise. *)
Theorem claim_frequency_range cids c :
  In c (select_claims self cids) ->
  exists rows fr q,
    extract_all_features self cids = Ok rows /\
    In fr rows /\ fr_claim_id fr = claim_id c /\
    row_get (fr_cells fr) "patient_claim_frequency" = Some (Fin q) /\
    let n := List.length (claims_of_patient self (c_patient_id c)) in
    0 <= q /\ q <= inject_Z (Z.of_nat n) /\
    (n = 1%nat -> q == 0) /\ ((1 < n)%nat -> 0 < q).
Proof.
  intros Hin.
  destruct (extract_all_features_has_row self cids c Hin) as [rows (E & _ & R)].
  pose proof (own_patient_claim cids c Hin) as Hown.
  assert (Hq : exists q,
             frequency_of self (c_patient_id c) = Fin q /\
             let n := List.length (claims_of_patient self (c_patient_id c)) in
             0 <= q /\ q <= inject_Z (Z.of_nat n) /\
             (n = 1%nat -> q == 0) /\ ((1 < n)%nat -> 0 < q)).
  { unfold frequency_of. rewrite length_map.
    set (l := claims_of_patient self (c_patient_id c)) in *.
    destruct (1 <? List.length l)%nat eqn:E1.
    - apply Nat.ltb_lt in E1.
      destruct l as [|c1 rest]; [contradiction|].
      cbn [map ts_max ts_min].
      set (m := Z.max (days_between (fold_left ts_later (map service_date rest)
                                               (service_date c1))
                                    (fold_left ts_earlier (map service_date rest)
                                               (service_date c1)) + 1) 1).
      set (k := Z.of_nat (List.length (c1 :: rest))).
      assert (Hm : (1 <= m)%Z) by (unfold m; lia).
      assert (Hk : (1 < k)%Z) by (unfold k; lia).
      assert (Hmq : 0 < inject_Z m)
        by (change 0 with (inject_Z 0); rewrite <- Zlt_Qlt; lia).
      eexists. split; [reflexivity|]. cbv zeta. fold k. split; [|split; [|split]].
      + apply Qle_shift_div_l; [exact Hmq|]. rewrite Qmult_0_l.
        change 0 with (inject_Z 0). rewrite <- Zle_Qle. lia.
      + apply Qle_shift_div_r; [exact Hmq|].
        rewrite <- inject_Z_mult, <- Zle_Qle. nia.
      + intros H1. exfalso. unfold k in Hk. rewrite H1 in Hk. simpl in Hk. lia.
      + intros _. apply Qlt_shift_div_l; [exact Hmq|]. rewrite Qmult_0_l.
        change 0 with (inject_Z 0). rewrite <- Zlt_Qlt. lia.
    - apply Nat.ltb_ge in E1. exists 0. split; [reflexivity|]. cbv zeta.
      split; [lra|]. split; [|split].
      + change 0 with (inject_Z 0). rewrite <- Zle_Qle. lia.
      + intros _. reflexivity.
      + intros H. lia. }
  destruct Hq as [q [Hq1 Hq2]].
  exists rows. eexists. exists q.
  split; [exact E|]. split; [exact R|]. split; [reflexivity|].
  split; [|exact Hq2].
  rewrite row_get_tail by reflexivity.
  change (row_get (temporal_cells self c ++ graph_cells self c)
                  "patient_claim_frequency")
    with (Some (frequency_of self (c_patient_id c))).
  rewrite Hq1. reflexivity.
Qed.

End ExtractionAggregates.

(** ** Training data and the features of the loaded graph *)

Lemma filter_all {A : Type} (p : A -> bool) (l : list A) :
  (forall x, In x l -> p x = true) -> filter p l = l.
Proof.
  induction l as [|x l IH]; intros H; simpl; [reflexivity|].
  rewrite (H x (or_introl eq_refl)). f_equal. apply IH.
  intros y Hy. apply H. now right.
Qed.

(** In a table without repeated claim ids an id selects one row. *)
Lemma filter_claim_id_unique (l : list Claim) (c : Claim) :
  NoDup (map claim_id l) -> In c l ->
  filter (fun c' => String.eqb (claim_id c') (claim_id c)) l = [c].
Proof.
  induction l as [|c0 l IH]; intros Hnd Hin; [contradiction|].
  simpl in Hnd. inversion Hnd as [|? ? Hnot Hnd']; subst. simpl.
  destruct Hin as [-> | Hin].
  - rewrite String.eqb_refl. f_equal. apply filter_none.
    intros c' Hc'. apply String.eqb_neq. intros E. apply Hnot. rewrite <- E.
    apply in_map. exact Hc'.
  - destruct (String.eqb (claim_id c0) (claim_id c)) eqn:E.
    + apply String.eqb_eq in E. exfalso. apply Hnot. rewrite E.
      apply in_map. exact Hin.
    + apply IH; assumption.
Qed.

Lemma dict_get_app {V : Type} (d1 d2 : dict V) k :
  dict_get (d1 ++ d2) k =
  match dict_get d2 k with
  | Some v => Some v
  | None => dict_get d1 k
  end.
Proof.
  induction d1 as [|[k0 v0] d1 IH]; simpl.
  - destruct (dict_get d2 k); reflexivity.
  - rewrite IH. destruct (dict_get d2 k); reflexivity.
Qed.

Lemma dict_get_const {A V : Type} (key : A -> string) (v : V) (l : list A) k :
  dict_get (map (fun x => (key x, v)) l) k =
  if existsb (fun x => String.eqb (key x) k) l then Some v else None.
Proof.
  induction l as [|x l IH]; simpl; [reflexivity|].
  rewrite IH. destruct (existsb _ l); [rewrite orb_true_r; reflexivity|].
  rewrite orb_false_r. reflexivity.
Qed.

Section TrainingData.

Context {lib : Lib}.
Variable self : FraudFeatureExtractor.

(** X15. [prepare_training_data] fails with IndexError on an empty claim
    table and with KeyError when the table has claims but no
    is_fraudulent column; when it returns, it returns as many labels as
    samples; and when no claim id occurs twice in the table, the samples
    are the cleaned rows of the claims of the table, in table order,
    and the labels their fraud labels. *)
Theorem prepare_training_data_samples :
  (claims_df self = [] -> prepare_training_data self = Raise IndexError) /\
  (claims_df self <> [] -> col_is_fraudulent (claim_columns self) = false ->
     prepare_training_data self = Raise KeyError) /\
  (forall X y, prepare_training_data self = Ok (X, y) ->
     List.length X = List.length y) /\
  (NoDup (map claim_id (claims_df self)) ->
   forall X y, prepare_training_data self = Ok (X, y) ->
     y = map is_fraudulent (claims_df self) /\
     X = map (fun c => clean_row (fr_cells
                 (feature_row self (type_levels (claims_df self))
                                   (status_levels (claims_df self)) c)))
             (claims_df self)).
Proof.
  unfold prepare_training_data. split; [|split; [|split]].
  - intros E. rewrite (extract_all_features_empty self None E). reflexivity.
  - intros Hne Hcol.
    rewrite (extract_all_features_rows self None Hne), Hcol. reflexivity.
  - intros X y H.
    destruct (extract_all_features self None); [|discriminate].
    destruct (col_is_fraudulent _); [|discriminate].
    injection H as <- <-. rewrite !length_map. reflexivity.
  - intros Hnd X y H.
    destruct (extract_all_features self None) as [rows|e] eqn:E; [|discriminate].
    destruct (extract_all_features_ok self _ _ E) as [_ Hr].
    change (select_claims self None) with (claims_df self) in Hr.
    destruct (col_is_fraudulent _); [|discriminate].
    injection H as <- <-.
    set (F := feature_row self (type_levels (claims_df self))
                               (status_levels (claims_df self))) in *.
    assert (Hids : map fr_claim_id rows = map claim_id (claims_df self))
      by (rewrite Hr, map_map; reflexivity).
    rewrite Hids.
    rewrite (filter_all (fun c => mem (claim_id c) (map claim_id (claims_df self))))
      by (intros c Hc; apply mem_In, in_map, Hc).
    assert (Hfl : flat_map
                    (fun fr => map (fun c => (fr_cells fr, is_fraudulent c))
                                   (filter (fun c => String.eqb (claim_id c)
                                                                (fr_claim_id fr))
                                           (claims_df self)))
                    rows
                  = map (fun c => (fr_cells (F c), is_fraudulent c)) (claims_df self)).
    { rewrite Hr.
      assert (G : forall l, incl l (claims_df self) ->
                flat_map
                  (fun fr => map (fun c => (fr_cells fr, is_fraudulent c))
                                 (filter (fun c => String.eqb (claim_id c)
                                                              (fr_claim_id fr))
                                         (claims_df self)))
                  (map F l)
                = map (fun c => (fr_cells (F c), is_fraudulent c)) l).
      { induction l as [|c l IH]; intros Hincl; [reflexivity|].
        cbn [map flat_map].
        change (fr_claim_id (F c)) with (claim_id c).
        rewrite (filter_claim_id_unique (claims_df self) c Hnd)
          by (apply Hincl; now left).
        rewrite IH by (intros x Hx; apply Hincl; now right). reflexivity. }
      apply G. apply incl_refl. }
    rewrite Hfl, !map_map. split; reflexivity.
Qed.

End TrainingData.

Section LoadedGraph.

Context {lib : Lib}.
Variables (patients : list Patient) (providers : list Provider)
         (claims : list Claim) (cols : ClaimColumns).

(** X16. For a store built by the loader the graph is built from the
    claim table itself, so that every returned row has graph_distance 1:
    an edge joins the patient and the provider of every claim.  When no
    id serves both as a patient and as a provider, every row has
    shared_neighbors 0: the neighbours of a patient are providers and
    those of a provider are patients. *)
Theorem loaded_graph_constant_features cids c :
  In c (select_claims (load_data patients providers claims cols) cids) ->
  exists rows fr,
    extract_all_features (load_data patients providers claims cols) cids = Ok rows /\
    In fr rows /\ fr_claim_id fr = claim_id c /\
    row_get (fr_cells fr) "graph_distance" = Some (Fin 1) /\
    (disjoint_ids claims -> row_get (fr_cells fr) "shared_neighbors" = Some (Fin 0)).
Proof.
  intros Hin. set (self := load_data patients providers claims cols) in *.
  destruct (extract_all_features_has_row self cids c Hin) as [rows (E & _ & R)].
  pose proof (select_claims_In self cids c Hin) as Hc.
  change (claims_df self) with claims in Hc.
  exists rows. eexists. split; [exact E|]. split; [exact R|].
  split; [reflexivity|]. split.
  - rewrite row_get_tail by reflexivity.
    change (row_get (temporal_cells self c ++ graph_cells self c) "graph_distance")
      with (Some (of_Z (graph_distance (graph self) (c_patient_id c)
                                       (c_provider_id c)))).
    unfold self. rewrite (loaded_claim_distance_one _ _ _ _ _ Hc). reflexivity.
  - intros Hd. rewrite row_get_tail by reflexivity.
    change (row_get (temporal_cells self c ++ graph_cells self c) "shared_neighbors")
      with (Some (if has_node (graph self) (c_patient_id c)
                     && has_node (graph self) (c_provider_id c)
                  then of_nat (shared_neighbors (graph self) (c_patient_id c)
                                                (c_provider_id c))
                  else Fin 0)).
    change (graph self) with (_build_graph patients providers claims).
    rewrite (loaded_shared_neighbors _ _ _ c Hd Hc).
    destruct (_ && _); reflexivity.
Qed.

Lemma loaded_node_type pid :
  node_type (_build_graph patients providers claims) pid =
  if existsb (fun p => String.eqb (provider_id p) pid) providers then "provider"
  else if existsb (fun p => String.eqb (patient_id p) pid) patients then "patient"
  else "unknown".
Proof.
  unfold node_type, dict_get_or.
  rewrite build_graph_attrs, dict_get_app.
  rewrite (dict_get_const provider_id "provider" providers pid).
  rewrite (dict_get_const patient_id "patient" patients pid).
  destruct (existsb _ providers); [reflexivity|].
  destruct (existsb _ patients); reflexivity.
Qed.

(** X17. For a store built by the loader, patient_degree is 0 for a
    claim whose patient has no record in the patient table, or whose
    patient id is also the id of a provider record.  Otherwise, when no
    id serves both as a patient and as a provider of claims,
    patient_degree equals patient_num_providers: the claims between one
    patient and one provider make a single edge. *)
Theorem loaded_patient_degree_feature cids c :
  In c (select_claims (load_data patients providers claims cols) cids) ->
  exists rows fr,
    extract_all_features (load_data patients providers claims cols) cids = Ok rows /\
    In fr rows /\ fr_claim_id fr = claim_id c /\
    let self := load_data patients providers claims cols in
    (known_patient self (c_patient_id c) = false \/
     known_provider self (c_patient_id c) = true ->
       row_get (fr_cells fr) "patient_degree" = Some (Fin 0)) /\
    (known_patient self (c_patient_id c) = true ->
     known_provider self (c_patient_id c) = false ->
     disjoint_ids claims ->
       row_get (fr_cells fr) "patient_degree" =
       row_get (fr_cells fr) "patient_num_providers").
Proof.
  intros Hin. set (self := load_data patients providers claims cols) in *.
  destruct (extract_all_features_has_row self cids c Hin) as [rows (E & _ & R)].
  pose proof (select_claims_In self cids c Hin) as Hc.
  change (claims_df self) with claims in Hc.
  exists rows. eexists. split; [exact E|]. split; [exact R|].
  split; [reflexivity|]. cbv zeta.
  assert (Hcell : row_get (fr_cells (feature_row self
                     (type_levels (select_claims self cids))
                     (status_levels (select_claims self cids)) c)) "patient_degree"
                  = Some (of_nat (dict_get_or (degrees_of self "patient")
                                              (c_patient_id c) 0%nat))).
  { rewrite row_get_tail by reflexivity. reflexivity. }
  rewrite Hcell. clear Hcell.
  unfold known_patient, known_provider.
  change (patients_df self) with patients. change (providers_df self) with providers.
  unfold degrees_of, dict_get_or.
  change (graph self) with (_build_graph patients providers claims).
  set (g := _build_graph patients providers claims).
  split.
  - intros Hunk.
    rewrite dict_get_absent; [reflexivity|].
    rewrite map_map. simpl. rewrite map_id. intros Hk.
    apply filter_In in Hk. destruct Hk as [_ Hk].
    unfold g in Hk. rewrite loaded_node_type in Hk.
    destruct Hunk as [Hunk | Hunk]; rewrite Hunk in Hk;
      [destruct (existsb _ providers)|]; discriminate.
  - intros Hkp Hnp Hd.
    rewrite (dict_get_comprehension (degree g)).
    + unfold g. rewrite (loaded_patient_degree _ _ _ c Hd Hc).
      rewrite row_get_feature_row by reflexivity. reflexivity.
    + apply filter_In. split.
      * apply (has_edge_endpoints g (c_patient_id c) (c_provider_id c)).
        apply loaded_has_edge. exists c. split; [exact Hc|]. left. split; reflexivity.
      * unfold g. rewrite loaded_node_type, Hnp, Hkp. reflexivity.
Qed.

End LoadedGraph.

(** ** Detection service *)








Lemma firstn_3_of (A : Type) (l : list A) : (List.length (firstn 3 l) <= 3)%nat.
Proof. apply firstn_le_length. Qed.

Section ServiceProperties.

Context {lib : Lib}.
Variable self : FraudFeatureExtractor.
Variable model : FraudDetectionModel.





End ServiceProperties.

(** ** Scoring: alignment and ranking *)

Lemma getitem_nonempty X n : In n (columns X) <-> getitem X n <> [].
Proof.
  unfold columns. split.
  - intros H. apply in_map_iff in H. destruct H as [c [Hc Hin]].
    intros E. assert (K : In c (getitem X n)) by (apply getitem_In; auto).
    rewrite E in K. exact K.
  - intros H. destruct (getitem X n) as [|c rest] eqn:E; [congruence|].
    assert (K : In c (getitem X n)) by (rewrite E; now left).
    apply getitem_In in K. destruct K as [K1 K2].
    apply in_map_iff. exists c. auto.
Qed.

Lemma In_columns_dec X n : In n (columns X) \/ ~ In n (columns X).
Proof.
  destruct (mem n (columns X)) eqn:E.
  - left. apply mem_In. exact E.
  - right. apply mem_false. exact E.
Qed.

(** What alignment puts under a schema label. *)
Lemma add_missing_getitem fn X n :
  In n fn ->
  getitem (add_missing fn X) n =
  match getitem X n with
  | [] => [(n, repeat (Fin 0) (df_len X))]
  | cs => cs
  end.
Proof.
  intros Hin. destruct (In_columns_dec X n) as [H | H].
  - rewrite add_missing_keeps by exact H.
    apply getitem_nonempty in H. destruct (getitem X n); [congruence | reflexivity].
  - rewrite add_missing_fills by assumption.
    destruct (getitem X n) as [|c rest] eqn:E; [reflexivity|].
    exfalso. apply H. apply getitem_nonempty. rewrite E. discriminate.
Qed.

(** X20. Scoring reads the columns of the schema and nothing else: two
    frames with the same number of rows that carry the same columns
    under every label of the model's schema are aligned to the same
    frame and get the same predictions and probabilities, whatever
    other columns they have and in whatever order their columns are. *)
Theorem predict_reads_schema_columns (m : FraudDetectionModel) (X X' : DataFrame) :
  df_len X = df_len X' ->
  (forall n, In n (feature_names m) -> getitem X n = getitem X' n) ->
  _align_features (feature_names m) X = _align_features (feature_names m) X' /\
  predict m X = predict m X' /\
  predict_proba m X = predict_proba m X'.
Proof.
  intros Hlen Hcols.
  assert (E : _align_features (feature_names m) X
              = _align_features (feature_names m) X').
  { unfold _align_features, select. f_equal.
    - rewrite !add_missing_len. exact Hlen.
    - apply flat_map_ext_In. intros n Hn.
      rewrite !add_missing_getitem by exact Hn.
      rewrite (Hcols n Hn), Hlen. reflexivity. }
  unfold predict, predict_proba. rewrite E. auto.
Qed.

(** X21. A label of the schema that the frame lacks is scored as a
    column of zeros, and a label the frame has is scored with the
    frame's own column. *)
Theorem align_features_zero_fill (fn : list string) (X : DataFrame) (n : string) :
  NoDup fn -> In n fn ->
  (In n (columns X) -> getitem (_align_features fn X) n = getitem X n) /\
  (~ In n (columns X) ->
   getitem (_align_features fn X) n = [(n, repeat (Fin 0) (df_len X))]).
Proof.
  intros Hnd Hin. unfold _align_features.
  rewrite getitem_select by assumption. split; intros H.
  - apply add_missing_keeps. exact H.
  - apply add_missing_fills; assumption.
Qed.

Lemma split_combine_eq {A B : Type} : forall (l : list A) (l' : list B),
  List.length l = List.length l' ->
  map fst (combine l l') = l /\ map snd (combine l l') = l'.
Proof.
  induction l as [|x l IH]; intros [|y l'] H; simpl in H; try discriminate.
  - split; reflexivity.
  - destruct (IH l' ltac:(lia)) as [E1 E2]. simpl. rewrite E1, E2. split; reflexivity.
Qed.

Lemma sorted_firstn_skipn (l : list (string * Q)) :
  StronglySorted more_important l ->
  forall n a b, In a (firstn n l) -> In b (skipn n l) -> more_important a b.
Proof.
  induction 1 as [|x l Hs IH Hall]; intros n a b Ha Hb.
  - destruct n; contradiction.
  - destruct n as [|n]; [contradiction|].
    cbn [firstn skipn] in Ha, Hb. destruct Ha as [<- | Ha].
    + rewrite Forall_forall in Hall. apply Hall.
      rewrite <- (firstn_skipn n l). apply in_or_app. now right.
    + exact (IH n a b Ha Hb).
Qed.

(** X22. When the model has one importance per feature, the ranking
    lists every feature of the schema exactly as often as the schema
    does, with its own importance, and the first [top_n] entries, which
    the service returns, are at least as important as every entry left
    out. *)
Theorem feature_importance_top_n (m : FraudDetectionModel) (top_n : nat) :
  List.length (feature_names m) = List.length (feature_importances_ m) ->
  Permutation (map fst (get_feature_importance m)) (feature_names m) /\
  Permutation (map snd (get_feature_importance m)) (feature_importances_ m) /\
  (forall a b,
     In a (service_get_feature_importance m top_n) ->
     In b (get_feature_importance m) ->
     ~ In b (service_get_feature_importance m top_n) ->
     snd b <= snd a) /\
  List.length (service_get_feature_importance m top_n)
  = Nat.min top_n (List.length (feature_names m)).
Proof.
  intros Hlen. destruct (get_feature_importance_ranking m) as [Hs Hp].
  assert (H1 : Permutation (map fst (get_feature_importance m)) (feature_names m)).
  { rewrite (Permutation_map fst Hp).
    rewrite (proj1 (split_combine_eq _ _ Hlen)). reflexivity. }
  split; [exact H1|]. split; [|split].
  - rewrite (Permutation_map snd Hp).
    rewrite (proj2 (split_combine_eq _ _ Hlen)). reflexivity.
  - unfold service_get_feature_importance. intros a b Ha Hb Hnb.
    apply (sorted_firstn_skipn _ Hs top_n a b Ha).
    rewrite <- (firstn_skipn top_n (get_feature_importance m)) in Hb.
    apply in_app_or in Hb. destruct Hb as [Hb | Hb]; [contradiction | exact Hb].
  - unfold service_get_feature_importance. rewrite length_firstn.
    rewrite <- (Permutation_length H1), length_map. reflexivity.
Qed.

(** ** Dataset endpoints *)

Lemma firstn_plus {A : Type} (l : list A) : forall n m,
  firstn (n + m) l = firstn n l ++ firstn m (skipn n l).
Proof.
  induction l as [|x l IH]; intros n m.
  - rewrite !firstn_nil, skipn_nil, firstn_nil. reflexivity.
  - destruct n as [|n]; [reflexivity|].
    cbn [Nat.add firstn skipn app]. f_equal. apply IH.
Qed.

Lemma filter_length_le_all {A : Type} (p : A -> bool) (l : list A) :
  (List.length (filter p l) <= List.length l)%nat.
Proof.
  induction l as [|x l IH]; simpl; [lia|]. destruct (p x); simpl; lia.
Qed.

Lemma fold_sum_filter (p : Claim -> bool) : forall (l : list Claim) (a b : Q),
  (forall c, In c l -> 0 <= claim_amount c) ->
  0 <= a -> a <= b ->
  0 <= fold_left Qplus (map claim_amount (filter p l)) a /\
  fold_left Qplus (map claim_amount (filter p l)) a
  <= fold_left Qplus (map claim_amount l) b.
Proof.
  induction l as [|c l IH]; intros a b H Ha Hab; cbn [filter map fold_left].
  - split; lra.
  - pose proof (H c (or_introl eq_refl)) as Hc.
    assert (H' : forall c', In c' l -> 0 <= claim_amount c')
      by (intros c' Hc'; apply H; now right).
    destruct (p c); cbn [map fold_left]; apply IH; try assumption; lra.
Qed.

Lemma filter_given_In f field claims c :
  In c (filter_given f field claims) ->
  In c claims /\ (forall v, f = Some v -> v <> ""%string -> field c = v).
Proof.
  unfold filter_given. destruct f as [v|].
  - destruct (String.eqb v "") eqn:E.
    + intros H. split; [exact H|]. intros v' Hv' Hne. injection Hv' as <-.
      apply String.eqb_eq in E. contradiction.
    + intros H. apply filter_In in H. destruct H as [H1 H2].
      split; [exact H1|]. intros v' Hv' _. injection Hv' as <-.
      apply String.eqb_eq. exact H2.
  - intros H. split; [exact H|]. intros v Hv. discriminate.
Qed.

(** X23. The pages of [get_claims] partition the filtered table: for
    every request whose filters can be applied, pages 1 to k put end to
    end are the first k * page_size filtered claims in table order, so
    once k pages reach the total they are exactly the filtered claims,
    each once.  Every page reports the same total, holds at most
    page_size claims, holds only claims that pass the filters, and is
    empty when it starts at or after the total. *)
Theorem get_claims_pages (data_loader : FraudFeatureExtractor) (page_size : nat)
    (patient_id provider_id : option string) (fraud_only : bool)
    (claims : list Claim) :
  filtered_claims data_loader patient_id provider_id fraud_only = Ok claims ->
  (forall k,
     flat_map (fun page => page_of (get_claims data_loader page page_size
                                      patient_id provider_id fraud_only))
              (seq 1 k)
     = firstn (k * page_size) claims) /\
  (forall k, (List.length claims <= k * page_size)%nat ->
     flat_map (fun page => page_of (get_claims data_loader page page_size
                                      patient_id provider_id fraud_only))
              (seq 1 k)
     = claims) /\
  (forall page, exists rows,
     get_claims data_loader page page_size patient_id provider_id fraud_only
     = Ok (List.length claims, rows) /\
     (List.length rows <= page_size)%nat /\
     ((List.length claims <= (page - 1) * page_size)%nat -> rows = []) /\
     forall c, In c rows ->
       In c (claims_df data_loader) /\
       (forall v, patient_id = Some v -> v <> ""%string -> c_patient_id c = v) /\
       (forall v, provider_id = Some v -> v <> ""%string -> c_provider_id c = v) /\
       (fraud_only = true -> is_fraudulent c = true)).
Proof.
  intros Hf.
  assert (Hpage : forall page,
            get_claims data_loader page page_size patient_id provider_id fraud_only
            = Ok (List.length claims,
                  firstn page_size (skipn ((page - 1) * page_size) claims))).
  { intros page. unfold get_claims. rewrite Hf. cbv zeta.
    replace ((page - 1) * page_size + page_size - (page - 1) * page_size)%nat
      with page_size by lia.
    reflexivity. }
  assert (Hcat : forall k,
            flat_map (fun page => page_of (get_claims data_loader page page_size
                                             patient_id provider_id fraud_only))
                     (seq 1 k)
            = firstn (k * page_size) claims).
  { induction k as [|k IH]; [reflexivity|].
    rewrite seq_S, flat_map_app, IH. cbn [flat_map]. rewrite app_nil_r.
    rewrite Hpage. cbn [page_of].
    replace (1 + k - 1)%nat with k by lia.
    replace (S k * page_size)%nat with (k * page_size + page_size)%nat by lia.
    symmetry. apply firstn_plus. }
  split; [exact Hcat|]. split.
  - intros k Hk. rewrite Hcat. apply firstn_all2. exact Hk.
  - intros page. eexists. split; [apply Hpage|]. split; [|split].
    + apply firstn_le_length.
    + intros Hk. rewrite skipn_all2 by exact Hk. apply firstn_nil.
    + intros c Hc. apply In_firstn_In in Hc.
      assert (Hin : In c claims).
      { rewrite <- (firstn_skipn ((page - 1) * page_size) claims).
        apply in_or_app. now right. }
      clear Hc Hpage Hcat. unfold filtered_claims in Hf. cbv zeta in Hf.
      assert (Hbase :
                In c (filter_given provider_id c_provider_id
                        (filter_given patient_id c_patient_id
                           (claims_df data_loader))) /\
                (fraud_only = true -> is_fraudulent c = true)).
      { destruct fraud_only.
        - destruct (col_is_fraudulent (claim_columns data_loader));
            [|discriminate].
          injection Hf as <-. apply filter_In in Hin. destruct Hin as [H1 H2].
          split; [exact H1 | intros _; exact H2].
        - injection Hf as <-. split; [exact Hin | discriminate]. }
      destruct Hbase as [Hb Hfr].
      apply filter_given_In in Hb. destruct Hb as [Hb Hprov].
      apply filter_given_In in Hb. destruct Hb as [Hb Hpat].
      repeat split; assumption.
Qed.

(** The quotient [f / t if t > 0 else 0] of two counts with [f <= t]. *)
Lemma rate_bounds (f t : nat) :
  (f <= t)%nat ->
  let rate := if (0 <? t)%nat
              then inject_Z (Z.of_nat f) / inject_Z (Z.of_nat t) else 0 in
  0 <= rate /\ rate <= 1 /\ rate * inject_Z (Z.of_nat t) == inject_Z (Z.of_nat f).
Proof.
  intros Hle. cbv zeta.
  assert (Hf0 : 0 <= inject_Z (Z.of_nat f)).
  { change 0 with (inject_Z 0). rewrite <- Zle_Qle. lia. }
  assert (Hft : inject_Z (Z.of_nat f) <= inject_Z (Z.of_nat t)).
  { rewrite <- Zle_Qle. lia. }
  destruct (0 <? t)%nat eqn:Et.
  - apply Nat.ltb_lt in Et.
    assert (Ht : 0 < inject_Z (Z.of_nat t)).
    { change 0 with (inject_Z 0). rewrite <- Zlt_Qlt. lia. }
    split; [|split].
    + apply Qle_shift_div_l; [exact Ht | lra].
    + apply Qle_shift_div_r; [exact Ht | lra].
    + field. lra.
  - apply Nat.ltb_ge in Et. assert (E1 : t = 0%nat) by lia.
    assert (E2 : f = 0%nat) by lia. subst t f.
    split; [lra | split; [lra | reflexivity]].
Qed.

(** X24. The statistics of the dataset endpoint are consistent: the
    fraudulent claims are at most the claims, the fraud rate is their
    quotient, lies between 0 and 1 and is 0 for an empty table, and when
    no claim amount is negative the fraud amount lies between 0 and the
    total amount.  The number of fraudulent claims is the total that
    [get_claims] reports for the fraud-only listing. *)
Theorem get_dataset_statistics_consistent (data_loader : FraudFeatureExtractor)
    (stats : DatasetStats) :
  get_dataset_statistics data_loader = Ok stats ->
  (total_fraudulent_claims stats <= total_claims stats)%nat /\
  0 <= fraud_rate stats /\ fraud_rate stats <= 1 /\
  fraud_rate stats * inject_Z (Z.of_nat (total_claims stats))
  == inject_Z (Z.of_nat (total_fraudulent_claims stats)) /\
  (claims_df data_loader = [] -> fraud_rate stats == 0) /\
  ((forall c, In c (claims_df data_loader) -> 0 <= claim_amount c) ->
   0 <= fraud_amount stats /\ fraud_amount stats <= total_claim_amount stats) /\
  (forall page page_size, exists rows,
     get_claims data_loader page page_size None None true
     = Ok (total_fraudulent_claims stats, rows)).
Proof.
  unfold get_dataset_statistics.
  destruct (col_is_fraudulent (claim_columns data_loader)) eqn:Ecol; [|discriminate].
  intros H. injection H as <-.
  cbn [total_fraudulent_claims total_claims fraud_rate fraud_amount total_claim_amount].
  pose proof (filter_length_le_all is_fraudulent (claims_df data_loader)) as Hle.
  set (t := List.length (claims_df data_loader)) in *.
  set (f := List.length (filter is_fraudulent (claims_df data_loader))) in *.
  split; [exact Hle|].
  pose proof (rate_bounds f t Hle) as Hrate. cbv zeta in Hrate.
  destruct Hrate as (R1 & R2 & R3).
  split; [exact R1|]. split; [exact R2|]. split; [exact R3|]. split; [|split].
  - intros E. unfold t. rewrite E. reflexivity.
  - intros Hpos. unfold q_sum.
    apply (fold_sum_filter is_fraudulent (claims_df data_loader) 0 0 Hpos); lra.
  - intros page page_size. unfold get_claims, filtered_claims, filter_given.
    rewrite Ecol. cbv zeta. eexists. reflexivity.
Qed.

(** ** Detection endpoint *)

Section Endpoint.

Context {lib : Lib}.
Variable self : FraudFeatureExtractor.
Variable model : FraudDetectionModel.


End Endpoint.

(** ** Medical reference data *)

Lemma dict_get_In {V : Type} (d : dict V) (k : string) (v : V) :
  dict_get d k = Some v -> In (k, v) d.
Proof.
  induction d as [|[k' w] d IH]; simpl; [discriminate|].
  destruct (dict_get d k) as [u|] eqn:E.
  - intros H. injection H as <-. right. apply IH. reflexivity.
  - destruct (String.eqb k' k) eqn:Ek; [|discriminate].
    intros H. injection H as <-. apply String.eqb_eq in Ek. subst. now left.
Qed.

Lemma CPT_CODES_costs :
  forall k code, In (k, code) CPT_CODES ->
                 (0 < cost_low code /\ cost_low code <= cost_high code)%Z.
Proof.
  assert (H : forallb (fun kv : string * CptCode =>
                         ((0 <? cost_low (snd kv)) &&
                          (cost_low (snd kv) <=? cost_high (snd kv)))%Z)
                      CPT_CODES = true) by (vm_compute; reflexivity).
  intros k code Hin. rewrite forallb_forall in H. specialize (H _ Hin).
  cbn [snd] in H. apply andb_true_iff in H. destruct H as [H1 H2].
  apply Z.ltb_lt in H1. apply Z.leb_le in H2. split; assumption.
Qed.

Lemma APPROPRIATE_COMBINATIONS_known :
  forall d procedures p,
    In (d, procedures) APPROPRIATE_COMBINATIONS -> In p procedures ->
    exists code, dict_get CPT_CODES p = Some code.
Proof.
  assert (H : forallb (fun kv : string * list string =>
                         forallb (fun p => match dict_get CPT_CODES p with
                                           | Some _ => true
                                           | None => false
                                           end) (snd kv))
                      APPROPRIATE_COMBINATIONS = true) by (vm_compute; reflexivity).
  intros d procedures p Hin Hp. rewrite forallb_forall in H. specialize (H _ Hin).
  cbn [snd] in H. rewrite forallb_forall in H. specialize (H _ Hp).
  destruct (dict_get CPT_CODES p) as [code|]; [eexists; reflexivity | discriminate].
Qed.

(** X26. The cost range of a procedure code is a pair (low, high) with
    0 <= low <= high; it is (0, 0) exactly for the codes the CPT table
    does not list.  A diagnosis the combination table does not list is
    appropriate with every procedure, and every procedure that is
    appropriate for a listed diagnosis is a CPT code with a positive
    cost range. *)
Theorem typical_cost_range (procedure_code : string) :
  (0 <= fst (get_typical_cost procedure_code)
   <= snd (get_typical_cost procedure_code))%Z /\
  (dict_get CPT_CODES procedure_code = None <->
   get_typical_cost procedure_code = (0, 0)%Z) /\
  (forall diagnosis_code,
     dict_get APPROPRIATE_COMBINATIONS diagnosis_code = None ->
     is_appropriate_combination diagnosis_code procedure_code = true) /\
  (forall diagnosis_code,
     dict_get APPROPRIATE_COMBINATIONS diagnosis_code <> None ->
     is_appropriate_combination diagnosis_code procedure_code = true ->
     (0 < fst (get_typical_cost procedure_code))%Z).
Proof.
  unfold get_typical_cost, is_appropriate_combination.
  split; [|split; [|split]].
  - destruct (dict_get CPT_CODES procedure_code) as [code|] eqn:E; cbn [fst snd].
    + destruct (CPT_CODES_costs _ _ (dict_get_In _ _ _ E)). lia.
    + lia.
  - destruct (dict_get CPT_CODES procedure_code) as [code|] eqn:E.
    + destruct (CPT_CODES_costs _ _ (dict_get_In _ _ _ E)) as [H _].
      split; [discriminate|]. intros K. injection K as K1 K2. lia.
    + split; reflexivity.
  - intros d Hd. rewrite Hd. reflexivity.
  - intros d Hd Happ.
    destruct (dict_get APPROPRIATE_COMBINATIONS d) as [procedures|] eqn:Ed;
      [|congruence].
    apply mem_In in Happ.
    destruct (APPROPRIATE_COMBINATIONS_known _ _ _ (dict_get_In _ _ _ Ed) Happ)
      as [code Ec].
    rewrite Ec. cbn [fst].
    destruct (CPT_CODES_costs _ _ (dict_get_In _ _ _ Ec)) as [H _]. exact H.
Qed.

(** ** Instances of the further properties *)

Lemma extraction_columns_witness :
  exists rows,
    extract_all_features (lib := sample_lib) sample_store (Some ["A"]) = Ok rows /\
    Forall (fun fr =>
              map fst (fr_cells fr) =
              claim_column_names schema_columns ["inpatient"] ["Approved"]
              ++ entity_column_names sample_store)
           rows.
Proof.
  destruct (extract_all_features (lib := sample_lib) sample_store (Some ["A"]))
    as [rows|e] eqn:E; [|vm_compute in E; discriminate].
  exists rows. split; [reflexivity|].
  exact (proj1 (extraction_columns (lib := sample_lib) sample_store
                  (Some ["A"]) rows E)).
Defined.

Lemma one_hot_claim_indicators_witness :
  exists rows fr,
    extract_all_features (lib := sample_lib) sample_store (Some ["A"; "B"]) = Ok rows /\
    In fr rows /\ fr_claim_id fr = "B" /\
    row_get (fr_cells fr) "claim_type_inpatient" = Some (Fin 0) /\
    row_get (fr_cells fr) "claim_type_outpatient" = Some (Fin 1).
Proof.
  destruct (one_hot_claim_indicators (lib := sample_lib) sample_store
              (Some ["A"; "B"])
              (mk_claim "B" "P2" "D1" 250 738901 "outpatient" "Denied" true))
    as [rows [fr (E & Hin & Hid & Ht & _)]].
  - right. left. reflexivity.
  - exists rows, fr. split; [exact E|]. split; [exact Hin|]. split; [exact Hid|].
    destruct (Ht eq_refl) as (_ & _ & Hcells). split.
    + apply (Hcells "inpatient"). vm_compute. left. reflexivity.
    + apply (Hcells "outpatient"). vm_compute. right. left. reflexivity.
Defined.

Lemma specialty_indicators_witness :
  exists rows fr,
    extract_all_features (lib := sample_lib) sample_store (Some ["A"; "C"]) = Ok rows /\
    In fr rows /\ fr_claim_id fr = "A" /\
    row_get (fr_cells fr) "specialty_Cardiology" = Some (Fin 1).
Proof.
  destruct (specialty_indicators (lib := sample_lib) sample_store
              (Some ["A"; "C"])
              (mk_claim "A" "P1" "D1" 100 738900 "inpatient" "Approved" false))
    as [rows [fr (E & Hin & Hid & _ & Hcells)]].
  - left. reflexivity.
  - exists rows, fr. split; [exact E|]. split; [exact Hin|]. split; [exact Hid|].
    apply (Hcells "Cardiology"). vm_compute. left. reflexivity.
Defined.

Lemma extraction_follows_table_order_witness :
  claim_ids_of (extract_all_features (lib := sample_lib) sample_store
                  (Some ["C"; "A"; "C"])) = Ok ["A"; "C"].
Proof.
  destruct (extract_all_features (lib := sample_lib) sample_store
              (Some ["C"; "A"; "C"])) as [rows|e] eqn:E;
    [|vm_compute in E; discriminate].
  simpl. f_equal.
  exact (proj1 (extraction_follows_table_order (lib := sample_lib) sample_store
                  ["C"; "A"; "C"] rows E)).
Defined.

Lemma prepare_training_data_samples_witness :
  exists X y,
    prepare_training_data (lib := sample_lib) sample_store = Ok (X, y) /\
    y = [false; true; false] /\ List.length X = 3%nat.
Proof.
  destruct (prepare_training_data (lib := sample_lib) sample_store)
    as [[X y]|e] eqn:E; [|vm_compute in E; discriminate].
  exists X, y. split; [reflexivity|].
  destruct (proj2 (proj2 (proj2
              (prepare_training_data_samples (lib := sample_lib) sample_store)))
              ltac:(repeat constructor; simpl; intuition discriminate) X y E)
    as [Hy HX].
  split; [exact Hy|]. rewrite HX. reflexivity.
Defined.

Lemma sample_disjoint_ids : disjoint_ids (claims_df sample_store).
Proof.
  intros c c' Hc Hc'. simpl in Hc, Hc'.
  destruct Hc as [<- | [<- | [<- | []]]];
    destruct Hc' as [<- | [<- | [<- | []]]]; simpl; discriminate.
Defined.

Lemma loaded_graph_constant_features_witness :
  exists rows fr,
    extract_all_features (lib := sample_lib) sample_store (Some ["A"; "B"]) = Ok rows /\
    In fr rows /\ fr_claim_id fr = "B" /\
    row_get (fr_cells fr) "graph_distance" = Some (Fin 1) /\
    row_get (fr_cells fr) "shared_neighbors" = Some (Fin 0).
Proof.
  destruct (loaded_graph_constant_features (lib := sample_lib)
              (patients_df sample_store) (providers_df sample_store)
              (claims_df sample_store) schema_columns (Some ["A"; "B"])
              (mk_claim "B" "P2" "D1" 250 738901 "outpatient" "Denied" true))
    as [rows [fr (E & Hin & Hid & Hd & Hs)]].
  - right. left. reflexivity.
  - exists rows, fr. split; [exact E|]. split; [exact Hin|]. split; [exact Hid|].
    split; [exact Hd|]. apply Hs. exact sample_disjoint_ids.
Defined.

Lemma loaded_patient_degree_feature_witness :
  exists rows fr,
    extract_all_features (lib := sample_lib) sample_store (Some ["A"; "C"]) = Ok rows /\
    In fr rows /\ fr_claim_id fr = "C" /\
    row_get (fr_cells fr) "patient_degree" = Some (Fin 0).
Proof.
  destruct (loaded_patient_degree_feature (lib := sample_lib)
              (patients_df sample_store) (providers_df sample_store)
              (claims_df sample_store) schema_columns (Some ["A"; "C"])
              (mk_claim "C" "P9" "D2" 80 738902 "inpatient" "Approved" false))
    as [rows [fr (E & Hin & Hid & Hz & _)]].
  - right. left. reflexivity.
  - exists rows, fr. split; [exact E|]. split; [exact Hin|]. split; [exact Hid|].
    apply Hz. left. reflexivity.
Defined.






Lemma days_since_first_claim_nonnegative_witness :
  exists rows fr n,
    extract_all_features (lib := sample_lib) sample_store (Some ["C"]) = Ok rows /\
    In fr rows /\ fr_claim_id fr = "C" /\
    row_get (fr_cells fr) "days_since_first_claim" = Some (of_Z n) /\ (0 <= n)%Z.
Proof.
  destruct (days_since_first_claim_nonnegative (lib := sample_lib) sample_store
              (Some ["C"])
              (mk_claim "C" "P9" "D2" 80 738902 "inpatient" "Approved" false))
    as (rows & fr & n & E & Hin & Hid & Hn & Hpos & _).
  - left. reflexivity.
  - exists rows, fr, n. repeat split; assumption.
Defined.

Lemma claim_frequency_range_witness :
  exists rows fr q,
    extract_all_features (lib := sample_lib) sample_store (Some ["A"]) = Ok rows /\
    In fr rows /\ fr_claim_id fr = "A" /\
    row_get (fr_cells fr) "patient_claim_frequency" = Some (Fin q) /\ q == 0.
Proof.
  destruct (claim_frequency_range (lib := sample_lib) sample_store
              (Some ["A"])
              (mk_claim "A" "P1" "D1" 100 738900 "inpatient" "Approved" false))
    as (rows & fr & q & E & Hin & Hid & Hq & _ & _ & H1 & _).
  - left. reflexivity.
  - exists rows, fr, q. repeat split; try assumption. apply H1. reflexivity.
Defined.

Lemma predict_reads_schema_columns_witness :
  predict sample_model sample_frame
  = predict sample_model
      {| df_len := 2; df_cols := [ ("claim_amount", [Fin 100; Fin 250]) ] |}.
Proof.
  apply (predict_reads_schema_columns sample_model sample_frame
           {| df_len := 2; df_cols := [ ("claim_amount", [Fin 100; Fin 250]) ] |}).
  - reflexivity.
  - intros n [<- | [<- | []]]; reflexivity.
Defined.

Lemma align_features_zero_fill_witness :
  getitem (_align_features sample_schema sample_frame) "provider_fraud_rate"
  = [("provider_fraud_rate", [Fin 0; Fin 0])].
Proof.
  apply (align_features_zero_fill sample_schema sample_frame "provider_fraud_rate").
  - repeat constructor; simpl; intuition discriminate.
  - right. left. reflexivity.
  - simpl. intuition discriminate.
Defined.

Lemma feature_importance_top_n_witness :
  List.length (service_get_feature_importance sample_model 1) = 1%nat.
Proof.
  exact (proj2 (proj2 (proj2
           (feature_importance_top_n sample_model 1 eq_refl)))).
Defined.

Lemma get_claims_pages_witness :
  flat_map (fun page => page_of (get_claims sample_store page 2 None None false))
           (seq 1 2)
  = claims_df sample_store.
Proof.
  apply (proj1 (proj2 (get_claims_pages sample_store 2 None None false
                         (claims_df sample_store) eq_refl)) 2%nat).
  simpl. lia.
Defined.

Lemma get_dataset_statistics_consistent_witness :
  exists stats,
    get_dataset_statistics sample_store = Ok stats /\
    0 <= fraud_rate stats /\ fraud_rate stats <= 1 /\
    total_fraudulent_claims stats = 1%nat.
Proof.
  destruct (get_dataset_statistics sample_store) as [stats|e] eqn:E;
    [|vm_compute in E; discriminate].
  exists stats. split; [reflexivity|].
  destruct (get_dataset_statistics_consistent sample_store stats E)
    as (_ & H0 & H1 & _).
  split; [exact H0|]. split; [exact H1|].
  injection E as <-. reflexivity.
Defined.

